(** * GitHub-User-Activity: a shallow embedding of [github-activity.js]

    The program is a Node.js command-line client: it fetches one page of a
    user's public events, filters it, formats each event and offers a text
    menu.  This development embeds the JavaScript as Rocq functions:

    - JavaScript values that come out of [JSON.parse] are an inductive
      type [value]; objects are association lists in insertion order;
    - a thrown exception or a rejected promise is the [Throw] side of
      [result]; a returned value or a resolved promise is [Ok];
    - functions of the host (JSON, Date, the locale, the network, the
      terminal, the file system) are fields of the class [Host] or of the
      explicit [World] state that the session threads through.

    Strings are sequences of code units below 256; numbers inside JSON
    documents are integers. *)

From Stdlib Require Import ZArith String Ascii List Bool Lia.
From Stdlib Require Import DecimalString DecimalFacts DecimalPos DecimalZ.
From stdpp Require Import base gmap strings.
Import ListNotations.

Set Warnings "-register-all".

Local Open Scope string_scope.
Local Open Scope Z_scope.
Local Open Scope list_scope.

(** ** Exceptions and results *)

Module Js.

(** An exception object: its constructor and its [message]. *)
Inductive exn : Type :=
  | Error (msg : string)
  | TypeError (msg : string)
  | RangeError (msg : string)
  | SyntaxError (msg : string).

Definition message (e : exn) : string :=
  match e with
  | Error m | TypeError m | RangeError m | SyntaxError m => m
  end.

(** The outcome of evaluating an expression, or of awaiting a promise. *)
Inductive result (A : Type) : Type :=
  | Ok (a : A)
  | Throw (e : exn).
Arguments Ok {A} a.
Arguments Throw {A} e.

Definition bind {A B} (r : result A) (k : A -> result B) : result B :=
  match r with
  | Ok a => k a
  | Throw e => Throw e
  end.

(** [try { r } catch (e) { h e }] *)
Definition try_catch {A} (r : result A) (h : exn -> result A) : result A :=
  match r with
  | Ok a => Ok a
  | Throw e => h e
  end.

Definition is_ok {A} (r : result A) : bool :=
  match r with Ok _ => true | Throw _ => false end.

End Js.
Export Js.

Notation "'let*' x ':=' r 'in' k" := (bind r (fun x => k))
  (at level 10, x pattern, r at level 200, k at level 200).

(** ** Strings *)

Module Str.

(** WhiteSpace and LineTerminator code units below 128: tab, line feed,
    vertical tab, form feed, carriage return and space. *)
Definition is_ws (c : ascii) : bool :=
  let n := nat_of_ascii c in
  ((9 <=? n)%nat && (n <=? 13)%nat) || (n =? 32)%nat.

Fixpoint trimStart (s : string) : string :=
  match s with
  | EmptyString => EmptyString
  | String c s' => if is_ws c then trimStart s' else s
  end.

Fixpoint trimEnd (s : string) : string :=
  match s with
  | EmptyString => EmptyString
  | String c s' =>
      match trimEnd s' with
      | EmptyString => if is_ws c then EmptyString else String c EmptyString
      | t => String c t
      end
  end.

(** [s.trim()] *)
Definition trim (s : string) : string := trimEnd (trimStart s).

(** Every code unit of [s] is white space. *)
Fixpoint blank (s : string) : bool :=
  match s with
  | EmptyString => true
  | String c s' => is_ws c && blank s'
  end.

(** [s.startsWith(p)] *)
Fixpoint startsWith (s p : string) : bool :=
  match p, s with
  | EmptyString, _ => true
  | String a p', String b s' => Ascii.eqb a b && startsWith s' p'
  | String _ _, EmptyString => false
  end.

(** [s.includes(sub)] *)
Fixpoint includes (s sub : string) : bool :=
  startsWith s sub ||
  match s with
  | EmptyString => false
  | String _ s' => includes s' sub
  end.

(** No code unit of [s] is [c]. *)
Fixpoint lacks (c : ascii) (s : string) : bool :=
  match s with
  | EmptyString => true
  | String x s' => negb (Ascii.eqb c x) && lacks c s'
  end.

(** [s.split(sep)] for a separator of one code unit: never empty. *)
Fixpoint split (sep : ascii) (s : string) : list string :=
  match s with
  | EmptyString => [EmptyString]
  | String c s' =>
      if Ascii.eqb c sep then EmptyString :: split sep s'
      else match split sep s' with
           | [] => [String c EmptyString]
           | t :: ts => String c t :: ts
           end
  end.

(** [s.slice(0, n)] *)
Definition slice_to (n : nat) (s : string) : string := String.substring 0 n s.

(** [s.slice(1)] *)
Definition slice_from1 (s : string) : string :=
  match s with
  | EmptyString => EmptyString
  | String _ s' => s'
  end.

Definition upper_char (c : ascii) : ascii :=
  let n := nat_of_ascii c in
  if (97 <=? n)%nat && (n <=? 122)%nat then ascii_of_nat (n - 32) else c.

Definition lower_char (c : ascii) : ascii :=
  let n := nat_of_ascii c in
  if (65 <=? n)%nat && (n <=? 90)%nat then ascii_of_nat (n + 32) else c.

Fixpoint map_chars (f : ascii -> ascii) (s : string) : string :=
  match s with
  | EmptyString => EmptyString
  | String c s' => String (f c) (map_chars f s')
  end.

(** [s.toUpperCase()], [s.toLowerCase()]: the letters a-z and A-Z are
    mapped, every other code unit is kept. *)
Definition toUpperCase : string -> string := map_chars upper_char.
Definition toLowerCase : string -> string := map_chars lower_char.

(** [s.charAt(0)] *)
Definition charAt0 (s : string) : string :=
  match s with
  | EmptyString => EmptyString
  | String c _ => String c EmptyString
  end.

(** [parts.join(sep)] on strings. *)
Fixpoint join (sep : string) (parts : list string) : string :=
  match parts with
  | [] => EmptyString
  | [p] => p
  | p :: ps => p +:+ sep +:+ join sep ps
  end.

(** The canonical decimal numeral of an integer, as in [String(n)]. *)
Definition of_Z (z : Z) : string := NilZero.string_of_int (Z.to_int z).

Definition lf : ascii := ascii_of_nat 10.

End Str.

(** ** Values *)

(** What [JSON.parse] can build, and [undefined] for what is absent.
    [VNum] holds the integers whose decimal numeral [String] prints in
    full. *)
Inductive value : Type :=
  | VUndefined
  | VNull
  | VBool (b : bool)
  | VNum (n : Z)
  | VStr (s : string)
  | VArr (items : list value)
  | VObj (props : list (string * value)).

(** A number that may be [NaN]: what [parseInt] returns. *)
Inductive number : Type :=
  | Num (z : Z)
  | NaN.

Module Val.

(** ToBoolean. *)
Definition truthy (v : value) : bool :=
  match v with
  | VUndefined | VNull => false
  | VBool b => b
  | VNum n => negb (n =? 0)
  | VStr s => negb (String.eqb s EmptyString)
  | VArr _ | VObj _ => true
  end.

(** [a || b] *)
Definition or_else (a b : value) : value := if truthy a then a else b.

(** Own property [k] of an object literal, [undefined] when absent. *)
Fixpoint lookup (k : string) (props : list (string * value)) : value :=
  match props with
  | [] => VUndefined
  | (k', v) :: rest => if String.eqb k k' then v else lookup k rest
  end.

Definition has_key (k : string) (props : list (string * value)) : bool :=
  existsb (fun kv => String.eqb k (fst kv)) props.

(** [v.k] for the data keys the program reads ([type], [repo], [name],
    [payload], [commits], [length], ...): no prototype defines any of
    them, so a key that is not an own property reads as [undefined]. *)
Definition get (v : value) (k : string) : result value :=
  match v with
  | VUndefined =>
      Throw (TypeError
        ("Cannot read properties of undefined (reading '" +:+ k +:+ "')"))
  | VNull =>
      Throw (TypeError
        ("Cannot read properties of null (reading '" +:+ k +:+ "')"))
  | VObj props => Ok (lookup k props)
  | VArr items =>
      Ok (if String.eqb k "length" then VNum (Z.of_nat (length items))
          else VUndefined)
  | VStr s =>
      Ok (if String.eqb k "length" then VNum (Z.of_nat (String.length s))
          else VUndefined)
  | VBool _ | VNum _ => Ok VUndefined
  end.

(** [v?.k] *)
Definition get_opt (v : value) (k : string) : result value :=
  match v with
  | VUndefined | VNull => Ok VUndefined
  | _ => get v k
  end.

(** ToString, as a template literal applies it.  An object converts
    through [Object.prototype.toString] unless an own [toString] property
    (never callable in parsed JSON) hides it, in which case the
    conversion throws. *)
Fixpoint to_string (v : value) : result string :=
  match v with
  | VUndefined => Ok "undefined"
  | VNull => Ok "null"
  | VBool b => Ok (if b then "true" else "false")
  | VNum n => Ok (Str.of_Z n)
  | VStr s => Ok s
  | VArr items =>
      let* parts :=
        (fix go (l : list value) : result (list string) :=
           match l with
           | [] => Ok []
           | x :: rest =>
               let* s := match x with
                         | VUndefined | VNull => Ok EmptyString
                         | _ => to_string x
                         end in
               let* ss := go rest in
               Ok (s :: ss)
           end) items in
      Ok (Str.join "," parts)
  | VObj props =>
      if has_key "toString" props
      then Throw (TypeError "Cannot convert object to primitive value")
      else Ok "[object Object]"
  end.

(** The string an array element contributes to [join]. *)
Definition join_part (x : value) : result string :=
  match x with
  | VUndefined | VNull => Ok EmptyString
  | _ => to_string x
  end.

Fixpoint mapM {A B} (f : A -> result B) (l : list A) : result (list B) :=
  match l with
  | [] => Ok []
  | x :: rest =>
      let* y := f x in
      let* ys := mapM f rest in
      Ok (y :: ys)
  end.

(** [items.join(sep)] *)
Definition Array_join (sep : string) (items : list value) : result string :=
  let* parts := mapM join_part items in
  Ok (Str.join sep parts).

(** [String(x)] for a number. *)
Definition number_to_string (x : number) : string :=
  match x with
  | Num z => Str.of_Z z
  | NaN => "NaN"
  end.

End Val.
Export Val.

(** ** Numbers: [parseInt], [Math.max], [Math.min] *)

Module Num.

Definition digit_val (radix : Z) (c : ascii) : option Z :=
  let n := Z.of_nat (nat_of_ascii c) in
  let d :=
    if (48 <=? n) && (n <=? 57) then Some (n - 48)
    else if (97 <=? n) && (n <=? 122) then Some (n - 87)
    else if (65 <=? n) && (n <=? 90) then Some (n - 55)
    else None in
  match d with
  | Some k => if k <? radix then Some k else None
  | None => None
  end.

(** The longest prefix of digits of the radix, most significant first. *)
Fixpoint digits (radix : Z) (s : string) : list Z :=
  match s with
  | EmptyString => []
  | String c s' =>
      match digit_val radix c with
      | Some d => d :: digits radix s'
      | None => []
      end
  end.

Definition digits_value (radix : Z) (ds : list Z) : Z :=
  fold_left (fun acc d => acc * radix + d) ds 0.

(** [parseInt(s)] with no radix argument: leading white space is
    skipped, a sign is read, [0x] or [0X] selects radix 16, the longest
    prefix of digits is the value, and no digit at all gives [NaN]. *)
Definition parseInt (s : string) : number :=
  let s1 := Str.trimStart s in
  let '(neg, s2) :=
    match s1 with
    | String "-" r => (true, r)
    | String "+" r => (false, r)
    | _ => (false, s1)
    end in
  let '(radix, s3) :=
    match s2 with
    | String "0" (String "x" r) => (16, r)
    | String "0" (String "X" r) => (16, r)
    | _ => (10, s2)
    end in
  match digits radix s3 with
  | [] => NaN
  | ds => Num (if neg then - digits_value radix ds else digits_value radix ds)
  end.

(** [Math.max(a, x)] and [Math.min(a, x)] for a finite [a]: [NaN] if [x]
    is. *)
Definition Math_max (a : Z) (x : number) : number :=
  match x with
  | Num z => Num (Z.max a z)
  | NaN => NaN
  end.

Definition Math_min (a : Z) (x : number) : number :=
  match x with
  | Num z => Num (Z.min a z)
  | NaN => NaN
  end.

End Num.
Export Num.

(** ** The host

    Functions of the runtime that the program calls and does not define.
    [JSON_parse] is [None] where [JSON.parse] throws a [SyntaxError];
    [JSON_stringify v] is [JSON.stringify(v, null, 2)] for a [v] other
    than [undefined]; [Date_parse] is [None] where [Date.parse] is [NaN];
    the two [Date] printers take a valid time value. *)
Class Host : Type := {
  JSON_parse : string -> option value;
  JSON_stringify : value -> string;
  Date_parse : string -> option Z;
  Date_toISOString : Z -> string;
  Date_toLocaleString : Z -> string;
  path_join : string -> string -> string
}.

Module Method.

(** TimeClip: a time value is within 8.64e15 ms of the epoch. *)
Definition time_clip (z : Z) : option Z :=
  if Z.abs z <=? 8640000000000000 then Some z else None.

(** The time value of [new Date(v)], [None] for an invalid date. *)
Definition new_Date `{Host} (v : value) : result (option Z) :=
  match v with
  | VStr s => Ok (Date_parse s)
  | VUndefined => Ok None
  | VNull => Ok (Some 0)
  | VBool b => Ok (Some (if b then 1 else 0))
  | VNum n => Ok (time_clip n)
  | VArr _ | VObj _ => let* s := to_string v in Ok (Date_parse s)
  end.

(** [date.toISOString()] *)
Definition toISOString `{Host} (date : option Z) : result string :=
  match date with
  | Some t => Ok (Date_toISOString t)
  | None => Throw (RangeError "Invalid time value")
  end.

(** [date.toLocaleString()] *)
Definition toLocaleString `{Host} (date : option Z) : string :=
  match date with
  | Some t => Date_toLocaleString t
  | None => "Invalid Date"
  end.

Definition not_a_function {A} (what : string) : result A :=
  Throw (TypeError (what +:+ " is not a function")).

Definition nullish_read {A} (v : value) (k : string) : result A :=
  Throw (TypeError
    ("Cannot read properties of " +:+
     (match v with VNull => "null" | _ => "undefined" end) +:+
     " (reading '" +:+ k +:+ "')")).

(** [v.slice(0, n)]: strings and arrays have [slice]. *)
Definition slice_to (what : string) (n : nat) (v : value) : result value :=
  match v with
  | VStr s => Ok (VStr (Str.slice_to n s))
  | VArr items => Ok (VArr (firstn n items))
  | VUndefined | VNull => nullish_read v "slice"
  | _ => not_a_function (what +:+ ".slice")
  end.

(** [v.split('\n')[0]]: only strings have [split]. *)
Definition first_line (what : string) (v : value) : result string :=
  match v with
  | VStr s => Ok (hd EmptyString (Str.split Str.lf s))
  | VUndefined | VNull => nullish_read v "split"
  | _ => not_a_function (what +:+ ".split")
  end.

(** [v.map(f)]: only arrays have [map]. *)
Definition Array_map {B} (what : string) (f : value -> result B) (v : value)
  : result (list B) :=
  match v with
  | VArr items => mapM f items
  | VUndefined | VNull => nullish_read v "map"
  | _ => not_a_function (what +:+ ".map")
  end.

(** [v.filter(f)]: only arrays have [filter]; the result keeps the order
    of the elements and is a new array. *)
Fixpoint filterM (f : value -> result bool) (l : list value)
  : result (list value) :=
  match l with
  | [] => Ok []
  | x :: rest =>
      let* keep := f x in
      let* ys := filterM f rest in
      Ok (if keep then x :: ys else ys)
  end.

Definition Array_filter (what : string) (f : value -> result bool) (v : value)
  : result (list value) :=
  match v with
  | VArr items => filterM f items
  | VUndefined | VNull => nullish_read v "filter"
  | _ => not_a_function (what +:+ ".filter")
  end.

(** [v.includes(sub)] for a string [sub]: strings search a substring,
    arrays search an element. *)
Definition includes (what : string) (v : value) (sub : string) : result bool :=
  match v with
  | VStr s => Ok (Str.includes s sub)
  | VArr items =>
      Ok (existsb (fun x => match x with
                            | VStr t => String.eqb t sub
                            | _ => false
                            end) items)
  | VUndefined | VNull => nullish_read v "includes"
  | _ => not_a_function (what +:+ ".includes")
  end.

(** [switch (type) { case 'Name': ... }]: strict equality with a string. *)
Definition is_case (type : value) (name : string) : bool :=
  match type with
  | VStr s => String.eqb s name
  | _ => false
  end.

(** [const { k, ... } = v] throws on [undefined] and [null]. *)
Definition destructure (k what : string) (v : value) : result unit :=
  match v with
  | VUndefined | VNull =>
      Throw (TypeError
        ("Cannot destructure property '" +:+ k +:+ "' of '" +:+ what +:+
         "' as it is " +:+
         (match v with VNull => "null" | _ => "undefined" end) +:+ "."))
  | _ => Ok tt
  end.

End Method.

(** ** Configuration and constants *)

Record Config : Type := {
  colors : bool;
  dateFormat : string;
  detailedView : bool;
  eventsPerPage : number;
  outputDir : string
}.

Definition defaultConfig : Config := {|
  colors := true;
  dateFormat := "local";
  detailedView := true;
  eventsPerPage := Num 30;
  outputDir := "./github-activity-logs"
|}.

(** The table [colors] of ANSI escape sequences. *)
Module Ansi.
Definition esc (code : string) : string :=
  String (ascii_of_nat 27) ("[" +:+ code +:+ "m").
Definition reset := esc "0".
Definition bright := esc "1".
Definition green := esc "32".
Definition yellow := esc "33".
Definition blue := esc "34".
Definition magenta := esc "35".
Definition cyan := esc "36".
Definition red := esc "31".
End Ansi.

(** An entry of [eventSettings]; a field is [None] where reading it gives
    [undefined]. *)
Record Settings : Type := {
  color : option string;
  icon : option string
}.

(** An icon literal, by the bytes it has in the source file. *)
Definition icon_bytes (codes : list nat) : option string :=
  Some (string_of_list_ascii (map ascii_of_nat codes)).

Definition entry (c : string) (codes : list nat) : Settings :=
  {| color := Some c; icon := icon_bytes codes |}.

Definition eventSettings_default : Settings :=
  entry Ansi.reset [195; 176; 197; 184; 226; 128; 157; 194; 167]%nat.

Definition eventSettings_own : list (string * Settings) :=
  [ ("PushEvent", entry Ansi.green [195; 176; 197; 184; 226; 128; 156]%nat);
    ("CreateEvent", entry Ansi.cyan [195; 162; 197; 147; 194; 168]%nat);
    ("IssuesEvent", entry Ansi.yellow [195; 176; 197; 184; 226; 128; 186]%nat);
    ("PullRequestEvent",
      entry Ansi.magenta [195; 176; 197; 184; 226; 128; 157; 226; 128; 158]%nat);
    ("WatchEvent", entry Ansi.blue [195; 162; 194; 173]%nat);
    ("ForkEvent",
      entry Ansi.cyan [195; 176; 197; 184; 226; 128; 157; 194; 177]%nat);
    ("DeleteEvent",
      entry Ansi.red
        [195; 176; 197; 184; 226; 128; 148; 226; 128; 152; 195; 175; 194; 184]%nat);
    ("ReleaseEvent",
      entry Ansi.green [195; 176; 197; 184; 226; 128; 156; 194; 166]%nat);
    ("CommentEvent",
      entry Ansi.yellow [195; 176; 197; 184; 226; 128; 153; 194; 172]%nat);
    ("default", eventSettings_default) ].

(** The property names every object literal inherits from
    [Object.prototype]: reading one of them from [eventSettings], or from
    the accumulator of [getUserActivity], finds a function (or the
    prototype itself), which is truthy and has no data property. *)
Definition Object_prototype_keys : list string :=
  [ "constructor"; "hasOwnProperty"; "isPrototypeOf"; "propertyIsEnumerable";
    "toLocaleString"; "toString"; "valueOf"; "__defineGetter__";
    "__defineSetter__"; "__lookupGetter__"; "__lookupSetter__"; "__proto__" ].

Definition inherited (k : string) : bool :=
  existsb (String.eqb k) Object_prototype_keys.

Fixpoint assoc {A} (k : string) (l : list (string * A)) : option A :=
  match l with
  | [] => None
  | (k', a) :: rest => if String.eqb k k' then Some a else assoc k rest
  end.

(** [eventSettings[key] || eventSettings.default] *)
Definition settings_for (key : string) : Settings :=
  match assoc key eventSettings_own with
  | Some s => s
  | None =>
      if inherited key then {| color := None; icon := None |}
      else eventSettings_default
  end.

(** [`${x}`] for a field of [Settings]. *)
Definition show (o : option string) : string :=
  match o with
  | Some s => s
  | None => "undefined"
  end.

(** ** Event Formatter *)

Module Formatter.
Import Method.

Section WithHost.
Context `{Host}.

(** [formatDate(dateString, format)] *)
Definition formatDate (dateString : value) (format : string) : result string :=
  let* date := new_Date dateString in
  if String.eqb format "iso" then toISOString date
  else Ok (toLocaleString date).

End WithHost.

(** [capitalize(str)] *)
Definition capitalize (str : value) : result string :=
  if truthy str then
    match str with
    | VStr s => Ok (Str.toUpperCase (Str.charAt0 s) +:+ Str.slice_from1 s)
    | _ => not_a_function "str.charAt"
    end
  else Ok EmptyString.

(** [formatEventTitle(event)] *)
Definition formatEventTitle (event : value) : result string :=
  let* _ := destructure "type" "event" event in
  let* type := get event "type" in
  let* repo := get event "repo" in
  let* payload := get event "payload" in
  if is_case type "PushEvent" then
    let* commits := get payload "commits" in
    let* len := get_opt commits "length" in
    let* n := to_string (or_else len (VNum 0)) in
    let* name := get repo "name" in
    let* r := to_string name in
    Ok ("Pushed " +:+ n +:+ " commit(s) to " +:+ r)
  else if is_case type "CreateEvent" then
    let* ref_type := get payload "ref_type" in
    let* rt := to_string ref_type in
    let* ref := get payload "ref" in
    let* quoted :=
      if truthy ref then
        let* ref' := get payload "ref" in
        let* s := to_string ref' in
        Ok (" '" +:+ s +:+ "'")
      else Ok EmptyString in
    let* name := get repo "name" in
    let* r := to_string name in
    Ok ("Created " +:+ rt +:+ quoted +:+ " in " +:+ r)
  else if is_case type "IssuesEvent" then
    let* action := get payload "action" in
    let* a := capitalize action in
    let* issue := get payload "issue" in
    let* number := get_opt issue "number" in
    let* n := to_string number in
    let* name := get repo "name" in
    let* r := to_string name in
    Ok (a +:+ " issue #" +:+ n +:+ " in " +:+ r)
  else if is_case type "PullRequestEvent" then
    let* action := get payload "action" in
    let* a := capitalize action in
    let* pull_request := get payload "pull_request" in
    let* number := get_opt pull_request "number" in
    let* n := to_string number in
    let* name := get repo "name" in
    let* r := to_string name in
    Ok (a +:+ " pull request #" +:+ n +:+ " in " +:+ r)
  else if is_case type "WatchEvent" then
    let* name := get repo "name" in
    let* r := to_string name in
    Ok ("Starred " +:+ r)
  else if is_case type "ForkEvent" then
    let* name := get repo "name" in
    let* r := to_string name in
    let* forkee := get payload "forkee" in
    let* full_name := get_opt forkee "full_name" in
    let* f := to_string full_name in
    Ok ("Forked " +:+ r +:+ " to " +:+ f)
  else if is_case type "DeleteEvent" then
    let* ref_type := get payload "ref_type" in
    let* rt := to_string ref_type in
    let* ref := get payload "ref" in
    let* rf := to_string ref in
    let* name := get repo "name" in
    let* r := to_string name in
    Ok ("Deleted " +:+ rt +:+ " '" +:+ rf +:+ "' from " +:+ r)
  else if is_case type "ReleaseEvent" then
    let* action := get payload "action" in
    let* a := capitalize action in
    let* release := get payload "release" in
    let* tag_name := get_opt release "tag_name" in
    let* t := to_string tag_name in
    let* name := get repo "name" in
    let* r := to_string name in
    Ok (a +:+ " release " +:+ t +:+ " in " +:+ r)
  else
    let* t := to_string type in
    let* name := get repo "name" in
    let* r := to_string name in
    Ok (t +:+ " on " +:+ r).

(** The types that have a row of their own in the title table. *)
Definition title_rows : list string :=
  [ "PushEvent"; "CreateEvent"; "IssuesEvent"; "PullRequestEvent";
    "WatchEvent"; "ForkEvent"; "DeleteEvent"; "ReleaseEvent" ].

Definition nl : string := String Str.lf EmptyString.

(** The line of one commit in the detail block of a [PushEvent]. *)
Definition commit_line (c : value) : result string :=
  let* sha := get c "sha" in
  let* short := slice_to "c.sha" 7 sha in
  let* s := to_string short in
  let* message := get c "message" in
  let* first := first_line "c.message" message in
  Ok (nl +:+ "    - " +:+ s +:+ " " +:+ first).

(** The detail block: the [switch] inside [if (config.detailedView)]. *)
Definition details_of (type payload : value) : result string :=
  if is_case type "PushEvent" then
    let* commits := get payload "commits" in
    let* lines := Array_map "commits" commit_line (or_else commits (VArr [])) in
    Ok (Str.join EmptyString lines)
  else if is_case type "IssuesEvent" then
    let* _ := destructure "action" "payload" payload in
    let* issue := get payload "issue" in
    let* title := get issue "title" in
    let* t := to_string title in
    let* labels := get issue "labels" in
    let* names :=
      Array_map "(issue.labels || []).map"
        (fun l => get l "name") (or_else labels (VArr [])) in
    let* joined := Array_join ", " names in
    let shown := if String.eqb joined EmptyString then "none" else joined in
    let* html_url := get issue "html_url" in
    let* u := to_string html_url in
    Ok (nl +:+ "    Title: " +:+ t +:+ nl +:+ "    Labels: " +:+ shown +:+
        nl +:+ "    URL: " +:+ u)
  else if is_case type "PullRequestEvent" then
    let* _ := destructure "action" "payload" payload in
    let* pull_request := get payload "pull_request" in
    let* title := get pull_request "title" in
    let* t := to_string title in
    let* additions := get pull_request "additions" in
    let* a := to_string (or_else additions (VNum 0)) in
    let* deletions := get pull_request "deletions" in
    let* d := to_string (or_else deletions (VNum 0)) in
    let* html_url := get pull_request "html_url" in
    let* u := to_string html_url in
    Ok (nl +:+ "    Title: " +:+ t +:+ nl +:+ "    Changes: +" +:+ a +:+
        " -" +:+ d +:+ nl +:+ "    URL: " +:+ u)
  else if is_case type "ReleaseEvent" then
    let* _ := destructure "release" "payload" payload in
    let* release := get payload "release" in
    let* tag_name := get release "tag_name" in
    let* t := to_string tag_name in
    let* name := get release "name" in
    let* n := to_string name in
    let* html_url := get release "html_url" in
    let* u := to_string html_url in
    Ok (nl +:+ "    Tag: " +:+ t +:+ nl +:+ "    Name: " +:+ n +:+
        nl +:+ "    URL: " +:+ u)
  else Ok EmptyString.

Section WithHost.
Context `{Host}.

(** [formatEvent(event, config)] *)
Definition formatEvent (event : value) (config : Config) : result string :=
  let* _ := destructure "type" "event" event in
  let* type := get event "type" in
  let* repo := get event "repo" in
  let* payload := get event "payload" in
  let* created_at := get event "created_at" in
  let* repoName := get repo "name" in
  let* timestamp := formatDate created_at (dateFormat config) in
  let* key := to_string type in
  let settings := settings_for key in
  let colorize (text : string) (c : option string) : string :=
    if colors config then show c +:+ text +:+ Ansi.reset else text in
  let timeStr := colorize ("[" +:+ timestamp +:+ "]") (Some Ansi.bright) in
  let* details :=
    if detailedView config then details_of type payload else Ok EmptyString in
  let* title := formatEventTitle event in
  Ok (colorize
        (timeStr +:+ " " +:+ show (icon settings) +:+ " " +:+ title +:+ " " +:+
         details)
        (color settings)).

End WithHost.

End Formatter.

(** ** Activity Fetcher *)

(** What [https.get] reports: the [end] of a response with its status
    code, headers and the chunks of its body, or an [error] event. *)
Inductive http_outcome : Type :=
  | Response (statusCode : Z) (headers : gmap string string)
             (chunks : list string)
  | ConnectionFailure (msg : string).

Module Fetcher.

(** [options.path] *)
Definition request_path (username : string) (page : Z) (perPage : number)
  : string :=
  "/users/" +:+ username +:+ "/events?page=" +:+ Str.of_Z page +:+
  "&per_page=" +:+ number_to_string perPage.

(** [data += chunk] over the [data] events. *)
Definition body_of (chunks : list string) : string :=
  fold_left String.append chunks EmptyString.

Definition not_found_message (username : string) : string :=
  "User '" +:+ username +:+ "' not found".
Definition rate_limit_message : string :=
  "API rate limit exceeded. Please try again later.".
Definition parse_message : string := "Failed to parse GitHub API response".
Definition http_message (statusCode : Z) : string :=
  "HTTP Error: " +:+ Str.of_Z statusCode.
Definition connect_message (msg : string) : string :=
  "Failed to connect: " +:+ msg.

(** [parseInt(remainingRequests) < 10] *)
Definition below (x : number) (bound : Z) : bool :=
  match x with
  | Num z => z <? bound
  | NaN => false
  end.

(** The lines [console.warn] receives while a response is handled. *)
Definition warnings (statusCode : Z) (headers : gmap string string)
  : list string :=
  if statusCode =? 200 then
    match headers !! "x-ratelimit-remaining" with
    | Some remainingRequests =>
        if negb (String.eqb remainingRequests EmptyString)
           && below (parseInt remainingRequests) 10
        then ["Warning: " +:+ remainingRequests +:+ " API requests remaining"]
        else []
    | None => []
    end
  else [].

Section WithHost.
Context `{Host}.

(** How the promise of [fetchGitHubActivity(username, ...)] settles for
    an outcome of the request. *)
Definition settle (username : string) (o : http_outcome) : result value :=
  match o with
  | Response statusCode headers chunks =>
      if statusCode =? 200 then
        match JSON_parse (body_of chunks) with
        | Some v => Ok v
        | None => Throw (Error parse_message)
        end
      else if statusCode =? 404 then Throw (Error (not_found_message username))
      else if statusCode =? 403 then Throw (Error rate_limit_message)
      else Throw (Error (http_message statusCode))
  | ConnectionFailure msg => Throw (Error (connect_message msg))
  end.

(** [fetchGitHubActivity(username, page, perPage)] against a network
    that answers the request for a path with [https_get]: the warnings
    written and the settled promise. *)
Definition fetchGitHubActivity (https_get : string -> http_outcome)
    (username : string) (page : Z) (perPage : number)
  : list string * result value :=
  let o := https_get (request_path username page perPage) in
  (match o with
   | Response statusCode headers _ => warnings statusCode headers
   | ConnectionFailure _ => []
   end,
   settle username o).

End WithHost.

(** *** The one-shot helper *)

(** The object [getUserActivity] resolves to. *)
Record Activity : Type := {
  username : string;
  repos : gmap string (list value)
}.

(** The callback of [events.reduce]: [acc[repo]] with an inherited name
    finds a function, so no array is stored and [push] is missing. *)
Definition group_step (acc : gmap string (list value)) (event : value)
  : result (gmap string (list value)) :=
  let* repo := get event "repo" in
  let* name := get repo "name" in
  let* key := to_string name in
  if inherited key then Method.not_a_function "acc[repo].push"
  else Ok (<[key := default [] (acc !! key) ++ [event]]> acc).

Fixpoint reduce (l : list value) (acc : gmap string (list value))
  : result (gmap string (list value)) :=
  match l with
  | [] => Ok acc
  | event :: rest =>
      let* acc' := group_step acc event in
      reduce rest acc'
  end.

(** [events.reduce(callback, {})]: only arrays have [reduce]. *)
Definition group_by_repo (events : value)
  : result (gmap string (list value)) :=
  match events with
  | VArr items => reduce items ∅
  | VUndefined | VNull => Method.nullish_read events "reduce"
  | _ => Method.not_a_function "events.reduce"
  end.

Section WithHost.
Context `{Host}.

(** [getUserActivity(username)]: [Ok None] is the promise resolved with
    [null]. *)
Definition getUserActivity (https_get : string -> http_outcome)
    (user : string) : result (option Activity) :=
  try_catch
    (let* events := snd (fetchGitHubActivity https_get user 1 (Num 30)) in
     let* grouped := group_by_repo events in
     Ok (Some {| username := user; repos := grouped |}))
    (fun error =>
       if Str.includes (message error) "not found" then Ok None
       else Throw error).

End WithHost.

End Fetcher.

(** ** Event Filter *)

(** [filterCriteria]: a field is [None] while the property is absent, and
    holds the string stored in it otherwise. *)
Record Criteria : Type := {
  type : option string;
  repo : option string;
  dateFrom : option string;
  dateTo : option string
}.

Definition no_criteria : Criteria :=
  {| type := None; repo := None; dateFrom := None; dateTo := None |}.

Module Filter.

(** The string of a field when the field is truthy: present and not
    empty. *)
Definition active (field : option string) : option string :=
  match field with
  | Some s => if String.eqb s EmptyString then None else Some s
  | None => None
  end.

(** [a < b] on the time values of two dates: false when either is
    [NaN]. *)
Definition time_lt (a b : option Z) : bool :=
  match a, b with
  | Some x, Some y => x <? y
  | _, _ => false
  end.

Section WithHost.
Context `{Host}.

Definition fails_type (criteria : Criteria) (event : value) : result bool :=
  match active (type criteria) with
  | Some t =>
      let* ty := get event "type" in
      Ok (negb (Method.is_case ty t))
  | None => Ok false
  end.

Definition fails_repo (criteria : Criteria) (event : value) : result bool :=
  match active (repo criteria) with
  | Some r =>
      let* rp := get event "repo" in
      let* name := get rp "name" in
      let* found := Method.includes "event.repo.name" name r in
      Ok (negb found)
  | None => Ok false
  end.

Definition fails_dateFrom (criteria : Criteria) (event : value)
  : result bool :=
  match active (dateFrom criteria) with
  | Some d =>
      let* created_at := get event "created_at" in
      let* t := Method.new_Date created_at in
      Ok (time_lt t (Date_parse d))
  | None => Ok false
  end.

Definition fails_dateTo (criteria : Criteria) (event : value) : result bool :=
  match active (dateTo criteria) with
  | Some d =>
      let* created_at := get event "created_at" in
      let* t := Method.new_Date created_at in
      Ok (time_lt (Date_parse d) t)
  | None => Ok false
  end.

(** The callback given to [events.filter]: the four [if (...) return
    false] in order, then [return true]. *)
Definition keeps (criteria : Criteria) (event : value) : result bool :=
  let* f1 := fails_type criteria event in
  if f1 then Ok false else
  let* f2 := fails_repo criteria event in
  if f2 then Ok false else
  let* f3 := fails_dateFrom criteria event in
  if f3 then Ok false else
  let* f4 := fails_dateTo criteria event in
  if f4 then Ok false else
  Ok true.

(** [filterEvents(events, criteria)] *)
Definition filterEvents (events : value) (criteria : Criteria)
  : result (list value) :=
  Method.Array_filter "events" (keeps criteria) events.

End WithHost.

End Filter.

(** ** The world of a session

    The terminal, the file system, the network and the clock.  The
    network answers the [n]-th request of the session for a path with
    [network n path]; [mkdir_error] and [writeFile_error] give the message
    of the error the file system raises for a path, if it raises one. *)
Record World : Type := {
  stdin : list string;
  console : list string;
  files : gmap string string;
  sent : nat;
  clock : Z;
  network : nat -> string -> http_outcome;
  mkdir_error : string -> option string;
  writeFile_error : string -> option string
}.

Module IO.

(** How an asynchronous function ends: it returns, it throws, the
    process exits, or it waits for a line that never comes. *)
Inductive outcome (A : Type) : Type :=
  | Returned (a : A) (w : World)
  | Thrown (e : exn) (w : World)
  | Exited (code : Z) (w : World)
  | Waiting (w : World).
Arguments Returned {A} a w.
Arguments Thrown {A} e w.
Arguments Exited {A} code w.
Arguments Waiting {A} w.

Definition IO (A : Type) : Type := World -> outcome A.

Definition ret {A} (a : A) : IO A := fun w => Returned a w.

Definition bind {A B} (m : IO A) (k : A -> IO B) : IO B :=
  fun w =>
    match m w with
    | Returned a w' => k a w'
    | Thrown e w' => Thrown e w'
    | Exited c w' => Exited c w'
    | Waiting w' => Waiting w'
    end.

Definition lift {A} (r : result A) : IO A :=
  fun w =>
    match r with
    | Ok a => Returned a w
    | Throw e => Thrown e w
    end.

Definition with_console (f : list string -> list string) (w : World) : World :=
  {| stdin := stdin w; console := f (console w); files := files w;
     sent := sent w; clock := clock w; network := network w;
     mkdir_error := mkdir_error w; writeFile_error := writeFile_error w |}.

Definition with_stdin (l : list string) (w : World) : World :=
  {| stdin := l; console := console w; files := files w;
     sent := sent w; clock := clock w; network := network w;
     mkdir_error := mkdir_error w; writeFile_error := writeFile_error w |}.

Definition with_files (m : gmap string string) (w : World) : World :=
  {| stdin := stdin w; console := console w; files := m;
     sent := sent w; clock := clock w; network := network w;
     mkdir_error := mkdir_error w; writeFile_error := writeFile_error w |}.

Definition with_sent (n : nat) (w : World) : World :=
  {| stdin := stdin w; console := console w; files := files w;
     sent := n; clock := clock w; network := network w;
     mkdir_error := mkdir_error w; writeFile_error := writeFile_error w |}.

(** [console.log(line)], [console.warn(line)], [console.error(line)] *)
Definition log (line : string) : IO unit :=
  fun w => Returned tt (with_console (fun c => c ++ [line]) w).

Fixpoint log_all (lines : list string) : IO unit :=
  match lines with
  | [] => ret tt
  | l :: rest => bind (log l) (fun _ => log_all rest)
  end.

(** [await new Promise(resolve => rl.question(prompt, resolve))] *)
Definition question (prompt : string) : IO string :=
  fun w =>
    let w' := with_console (fun c => c ++ [prompt]) w in
    match stdin w with
    | [] => Waiting w'
    | answer :: rest => Returned answer (with_stdin rest w')
    end.

(** [process.exit(code)] *)
Definition exit {A} (code : Z) : IO A := fun w => Exited code w.

End IO.
Export IO.

Notation "'do' x '<-' m ';' k" := (IO.bind m (fun x => k))
  (at level 10, x pattern, m at level 200, k at level 200).

(** ** File Exporter *)

Module Exporter.

(** [s.replace(/[:.]/g, '-')] *)
Definition dashes (s : string) : string :=
  Str.map_chars
    (fun c => if Ascii.eqb c ":" || Ascii.eqb c "." then "-"%char else c) s.

(** [JSON.stringify(events, null, 2)]: [undefined] for [undefined]. *)
Definition stringify `{Host} (events : value) : option string :=
  match events with
  | VUndefined => None
  | _ => Some (JSON_stringify events)
  end.

Definition dq : string := String (ascii_of_nat 34) EmptyString.

(** The message of the error [fs.writeFile] raises for data that is not
    a string. *)
Definition invalid_data_message : string :=
  "The " +:+ dq +:+ "data" +:+ dq +:+
  " argument must be of type string or an instance of Buffer, " +:+
  "TypedArray, or DataView. Received undefined".

Section WithHost.
Context `{Host}.

(** The path [saveToFile] writes at the instant [now]. *)
Definition filepath_at (now : Z) (user : string) (config : Config) : string :=
  let timestamp := dashes (Date_toISOString now) in
  let filename := user +:+ "-activity-" +:+ timestamp +:+ ".json" in
  path_join (outputDir config) filename.

Definition save_failure {A} (msg : string) : IO A :=
  lift (Throw (Error ("Failed to save file: " +:+ msg))).

(** [saveToFile(events, username, config)] *)
Definition saveToFile (events : value) (user : string) (config : Config)
  : IO unit :=
  fun w =>
    let filepath := filepath_at (clock w) user config in
    match mkdir_error w (outputDir config) with
    | Some msg => save_failure msg w
    | None =>
        match stringify events with
        | None => save_failure invalid_data_message w
        | Some text =>
            match writeFile_error w filepath with
            | Some msg => save_failure msg w
            | None =>
                log (Formatter.nl +:+ "Activity saved to: " +:+ filepath)
                    (with_files (<[filepath := text]> (files w)) w)
            end
        end
    end.

End WithHost.

End Exporter.

(** ** Reconfiguration *)

Module Configure.

(** The keys of [questions], in the order of the object literal. *)
Inductive Key : Type := colors_key | dateFormat_key | detailedView_key
                      | eventsPerPage_key.

Definition questions : list (Key * string) :=
  [ (colors_key, "Enable colors? (true/false): ");
    (dateFormat_key, "Date format (local/iso): ");
    (detailedView_key, "Show detailed view? (true/false): ");
    (eventsPerPage_key, "Events per page (10-100): ") ].

Definition set_colors (b : bool) (c : Config) : Config :=
  {| colors := b; dateFormat := dateFormat c; detailedView := detailedView c;
     eventsPerPage := eventsPerPage c; outputDir := outputDir c |}.
Definition set_dateFormat (s : string) (c : Config) : Config :=
  {| colors := colors c; dateFormat := s; detailedView := detailedView c;
     eventsPerPage := eventsPerPage c; outputDir := outputDir c |}.
Definition set_detailedView (b : bool) (c : Config) : Config :=
  {| colors := colors c; dateFormat := dateFormat c; detailedView := b;
     eventsPerPage := eventsPerPage c; outputDir := outputDir c |}.
Definition set_eventsPerPage (n : number) (c : Config) : Config :=
  {| colors := colors c; dateFormat := dateFormat c;
     detailedView := detailedView c; eventsPerPage := n;
     outputDir := outputDir c |}.

(** The body of the loop once the answer is read.  [colors] and
    [detailedView] are the keys whose value has type boolean; the value
    of [dateFormat] is a string. *)
Definition store (key : Key) (answer : string) (config : Config) : Config :=
  if negb (String.eqb (Str.trim answer) EmptyString) then
    match key with
    | eventsPerPage_key =>
        set_eventsPerPage (Math_min 100 (Math_max 10 (parseInt answer))) config
    | colors_key =>
        set_colors (String.eqb (Str.toLowerCase answer) "true") config
    | detailedView_key =>
        set_detailedView (String.eqb (Str.toLowerCase answer) "true") config
    | dateFormat_key => set_dateFormat answer config
    end
  else config.

Definition show_bool (b : bool) : string := if b then "true" else "false".

(** The lines of [Object.entries(config).forEach(...)]. *)
Definition entries (config : Config) : list string :=
  [ "colors: " +:+ show_bool (colors config);
    "dateFormat: " +:+ dateFormat config;
    "detailedView: " +:+ show_bool (detailedView config);
    "eventsPerPage: " +:+ number_to_string (eventsPerPage config);
    "outputDir: " +:+ outputDir config ].

Fixpoint ask (qs : list (Key * string)) (config : Config) : IO Config :=
  match qs with
  | [] => ret config
  | (key, q) :: rest =>
      do answer <- question q;
      ask rest (store key answer config)
  end.

(** [configureDisplay(config)] *)
Definition configureDisplay (config : Config) : IO Config :=
  do _ <- log (Formatter.nl +:+ "Current configuration:");
  do _ <- log_all (entries config);
  ask questions config.

End Configure.

(** ** Interactive Session Controller *)

Record Session : Type := {
  currentPage : Z;
  currentEvents : value;
  config : Config;
  filterCriteria : Criteria
}.

Module Controller.
Import Method.

Definition initial : Session :=
  {| currentPage := 1; currentEvents := VArr []; config := defaultConfig;
     filterCriteria := no_criteria |}.

Definition set_page_events (p : Z) (ev : value) (s : Session) : Session :=
  {| currentPage := p; currentEvents := ev; config := config s;
     filterCriteria := filterCriteria s |}.
Definition set_config (c : Config) (s : Session) : Session :=
  {| currentPage := currentPage s; currentEvents := currentEvents s;
     config := c; filterCriteria := filterCriteria s |}.
Definition set_criteria (c : Criteria) (s : Session) : Session :=
  {| currentPage := currentPage s; currentEvents := currentEvents s;
     config := config s; filterCriteria := c |}.

Definition set_type (t : option string) (c : Criteria) : Criteria :=
  {| type := t; repo := repo c; dateFrom := dateFrom c; dateTo := dateTo c |}.
Definition set_repo (r : option string) (c : Criteria) : Criteria :=
  {| type := type c; repo := r; dateFrom := dateFrom c; dateTo := dateTo c |}.
Definition set_dates (a b : option string) (c : Criteria) : Criteria :=
  {| type := type c; repo := repo c; dateFrom := a; dateTo := b |}.

Definition menu_text : string :=
  Formatter.nl +:+ Ansi.bright +:+ "Options:" +:+ Ansi.reset +:+ Formatter.nl +:+
  "1. Show next page" +:+ Formatter.nl +:+
  "2. Filter events" +:+ Formatter.nl +:+
  "3. Show all events" +:+ Formatter.nl +:+
  "4. Save to file" +:+ Formatter.nl +:+
  "5. Configure display" +:+ Formatter.nl +:+
  "6. Exit" +:+ Formatter.nl +:+ Formatter.nl +:+
  "Select an option (1-6): ".

(** [showMenu(events)] *)
Definition showMenu : IO string :=
  do answer <- question menu_text;
  ret (Str.trim answer).

(** [showFilterMenu()] *)
Definition showFilterMenu : IO string :=
  do _ <- log_all [ Formatter.nl +:+ "Filter options:"; "1. By event type";
                    "2. By repository"; "3. By date range";
                    "4. Clear filters" ];
  do answer <- question "Select filter option (1-4): ";
  ret (Str.trim answer).

(** SameValueZero on parsed values: two objects or arrays of a parsed
    document are never the same reference. *)
Definition same_value (a b : value) : bool :=
  match a, b with
  | VUndefined, VUndefined | VNull, VNull => true
  | VBool x, VBool y => Bool.eqb x y
  | VNum x, VNum y => x =? y
  | VStr x, VStr y => String.eqb x y
  | _, _ => false
  end.

(** [[...new Set(l)]]: the first occurrence of each value, in order. *)
Fixpoint distinct (seen l : list value) : list value :=
  match l with
  | [] => []
  | x :: rest =>
      if existsb (same_value x) seen then distinct seen rest
      else x :: distinct (seen ++ [x]) rest
  end.

(** [types[n - 1]] for [n = parseInt(typeIdx)] *)
Definition pick (types : list value) (n : number) : value :=
  match n with
  | Num z => if 1 <=? z then nth (Z.to_nat (z - 1)) types VUndefined
             else VUndefined
  | NaN => VUndefined
  end.

(** The value stored in [filterCriteria.type], as a field of [Criteria]:
    a string of the page, or nothing for [undefined].  The data model has
    a string in every [type]; a page whose [type] is no string is outside
    what [Criteria] represents and stores nothing here. *)
Definition criterion_of (v : value) : option string :=
  match v with
  | VStr s => Some s
  | _ => None
  end.

(** [types.forEach((type, i) => console.log(`${i + 1}. ${type}`))],
    from [i]. *)
Fixpoint list_types (i : Z) (types : list value) : IO unit :=
  match types with
  | [] => ret tt
  | t :: rest =>
      do s <- lift (to_string t);
      do _ <- log (Str.of_Z i +:+ ". " +:+ s);
      list_types (i + 1) rest
  end.

Section WithHost.
Context `{Host}.

(** [await fetchGitHubActivity(username, page, perPage)] in the world:
    the next request is sent and its warnings are written. *)
Definition fetch (user : string) (page : Z) (perPage : number) : IO value :=
  fun w =>
    let '(warns, r) :=
      Fetcher.fetchGitHubActivity (network w (sent w)) user page perPage in
    (do _ <- log_all warns; lift r) (with_sent (S (sent w)) w).

(** [filteredEvents.forEach(event => console.log(formatEvent(event,
    config)))] *)
Fixpoint render (events : list value) (c : Config) : IO unit :=
  match events with
  | [] => ret tt
  | event :: rest =>
      do line <- lift (Formatter.formatEvent event c);
      do _ <- log line;
      render rest c
  end.

(** [case '2'] of the menu: the filter sub-menu. *)
Definition filter_menu (s : Session) : IO Session :=
  do filterChoice <- showFilterMenu;
  if String.eqb filterChoice "1" then
    do all <- lift (Array_map "currentEvents"
                      (fun e => get e "type") (currentEvents s));
    let types := distinct [] all in
    do _ <- list_types 1 types;
    do answer <- question "Select event type: ";
    let typeIdx := Str.trim answer in
    ret (set_criteria
           (set_type (criterion_of (pick types (parseInt typeIdx)))
                     (filterCriteria s)) s)
  else if String.eqb filterChoice "2" then
    do answer <- question "Enter repository name (partial match): ";
    let repoName := Str.trim answer in
    ret (set_criteria (set_repo (Some repoName) (filterCriteria s)) s)
  else if String.eqb filterChoice "3" then
    do answer <- question "Enter date range (YYYY-MM-DD YYYY-MM-DD): ";
    match Str.split " " (Str.trim answer) with
    | [a; b] =>
        ret (set_criteria (set_dates (Some a) (Some b) (filterCriteria s)) s)
    | _ => ret s
    end
  else if String.eqb filterChoice "4" then
    ret (set_criteria no_criteria s)
  else ret s.

(** The [switch (choice)] of the main loop. *)
Definition dispatch (user : string) (choice : string) (s : Session)
  : IO Session :=
  if String.eqb choice "1" then
    let page := currentPage s + 1 in
    do events <- fetch user page (eventsPerPage (config s));
    ret (set_page_events page events s)
  else if String.eqb choice "2" then filter_menu s
  else if String.eqb choice "3" then ret (set_criteria no_criteria s)
  else if String.eqb choice "4" then
    do _ <- Exporter.saveToFile (currentEvents s) user (config s);
    ret s
  else if String.eqb choice "5" then
    do c <- Configure.configureDisplay (config s);
    ret (set_config c s)
  else if String.eqb choice "6" then
    do _ <- log "Goodbye!";
    exit 0
  else
    do _ <- log "Invalid option. Please try again.";
    ret s.

(** [currentEvents.length === 0] *)
Definition is_empty (events : value) : result bool :=
  let* len := get events "length" in
  Ok (match len with VNum 0 => true | _ => false end).

(** One turn of [while (true)]. *)
Definition iteration (user : string) (s : Session) : IO Session :=
  do empty <- lift (is_empty (currentEvents s));
  do s1 <- (if empty : bool then
              do events <- fetch user (currentPage s)
                             (eventsPerPage (config s));
              ret (set_page_events (currentPage s) events s)
            else ret s);
  do filteredEvents <-
    lift (Filter.filterEvents (currentEvents s1) (filterCriteria s1));
  do _ <- render filteredEvents (config s1);
  do choice <- showMenu;
  dispatch user choice s1.

(** [fuel] turns of the loop: [Returned] when the loop is still running
    after them. *)
Fixpoint loop (fuel : nat) (user : string) (s : Session) : IO Session :=
  match fuel with
  | O => ret s
  | S n => do s' <- iteration user s; loop n user s'
  end.

(** [main()], with [process.argv[2]] as [argv2]: the [catch] writes the
    message and exits with status 1. *)
Definition main (fuel : nat) (argv2 : option string) : IO Session :=
  match Filter.active argv2 with
  | None =>
      do _ <- log_all [ "Usage: github-activity <username>";
                        "Example: github-activity kamranahmedse" ];
      exit 1
  | Some user =>
      fun w =>
        match (do _ <- log (Ansi.bright +:+
                            "Fetching activity for GitHub user: " +:+ user +:+
                            Ansi.reset);
               loop fuel user initial) w with
        | Thrown error w' =>
            (do _ <- log (Ansi.red +:+ "Error: " +:+ message error +:+
                          Ansi.reset);
             exit 1) w'
        | other => other
        end
  end.

End WithHost.

End Controller.

(** ** A reference host

    An executable host for the examples: JSON over [value] (a numeral
    with a fraction or an exponent is not read), ISO-8601 dates in UTC,
    and POSIX paths.  The theorems on the program hold for every host;
    the examples run on this one, which reads back every JSON value it
    prints. *)

Module Reference.

(** *** JSON text *)

Definition dq : ascii := ascii_of_nat 34.
Definition backslash : ascii := ascii_of_nat 92.

Definition hex_digit (n : nat) : ascii :=
  if (n <? 10)%nat then ascii_of_nat (48 + n) else ascii_of_nat (87 + n).

Definition escape (c : ascii) : string :=
  let n := nat_of_ascii c in
  if (n =? 34)%nat then String backslash (String dq EmptyString)
  else if (n =? 92)%nat then String backslash (String backslash EmptyString)
  else if (n =? 8)%nat then String backslash "b"
  else if (n =? 9)%nat then String backslash "t"
  else if (n =? 10)%nat then String backslash "n"
  else if (n =? 12)%nat then String backslash "f"
  else if (n =? 13)%nat then String backslash "r"
  else if (n <? 32)%nat then
    String backslash
      ("u00" +:+ String (hex_digit (n / 16)) (String (hex_digit (n mod 16))
                                                     EmptyString))
  else String c EmptyString.

Fixpoint escape_all (s : string) : string :=
  match s with
  | EmptyString => EmptyString
  | String c s' => escape c +:+ escape_all s'
  end.

Definition quote (s : string) : string :=
  String dq (escape_all s +:+ String dq EmptyString).

Fixpoint indent (depth : nat) : string :=
  match depth with
  | O => EmptyString
  | S d => "  " +:+ indent d
  end.

Definition newline (depth : nat) : string := Formatter.nl +:+ indent depth.

Definition is_undefined (v : value) : bool :=
  match v with VUndefined => true | _ => false end.

Section Members.
Variable pr : value -> string.

(** The members of an object: a property that is [undefined] is left
    out. *)
Fixpoint print_members (l : list (string * value)) : list string :=
  match l with
  | [] => []
  | (k, x) :: rest =>
      if is_undefined x then print_members rest
      else (quote k +:+ ": " +:+ pr x) :: print_members rest
  end.

End Members.

(** The parts of an array or object between its brackets, one per line
    at the next depth. *)
Definition block (opening closing : ascii) (depth : nat)
    (parts : list string) : string :=
  match parts with
  | [] => String opening (String closing EmptyString)
  | _ =>
      String opening
        (newline (S depth) +:+
         Str.join (String "," (newline (S depth))) parts +:+
         newline depth +:+ String closing EmptyString)
  end.

(** [JSON.stringify(v, null, 2)] at a nesting depth: [undefined] prints
    as [null] in an array and drops its property in an object. *)
Fixpoint print (depth : nat) (v : value) : string :=
  match v with
  | VUndefined | VNull => "null"
  | VBool b => if b then "true" else "false"
  | VNum n => Str.of_Z n
  | VStr s => quote s
  | VArr items => block "[" "]" depth (map (print (S depth)) items)
  | VObj props =>
      block "{" "}" depth (print_members (print (S depth)) props)
  end.

Definition json_ws (c : ascii) : bool :=
  let n := nat_of_ascii c in
  (n =? 32)%nat || (n =? 9)%nat || (n =? 10)%nat || (n =? 13)%nat.

Fixpoint skip_ws (s : string) : string :=
  match s with
  | String c s' => if json_ws c then skip_ws s' else s
  | EmptyString => EmptyString
  end.

(** [s] without the prefix [p]. *)
Fixpoint strip (p s : string) : option string :=
  match p, s with
  | EmptyString, _ => Some s
  | String a p', String b s' => if Ascii.eqb a b then strip p' s' else None
  | _, _ => None
  end.

Definition hex_val (c : ascii) : option nat :=
  match Num.digit_val 16 c with
  | Some z => Some (Z.to_nat z)
  | None => None
  end.

(** The characters of a string literal after its opening quote, and
    what follows the closing quote. *)
Fixpoint read_string (s : string) : option (string * string) :=
  match s with
  | EmptyString => None
  | String c s' =>
      if Ascii.eqb c dq then Some (EmptyString, s')
      else if Ascii.eqb c backslash then
        match s' with
        | String e r =>
            let plain (x : nat) (r : string) :=
              match read_string r with
              | Some (t, r') => Some (String (ascii_of_nat x) t, r')
              | None => None
              end in
            match nat_of_ascii e with
            | 34%nat => plain 34%nat r
            | 92%nat => plain 92%nat r
            | 47%nat => plain 47%nat r
            | 98%nat => plain 8%nat r
            | 102%nat => plain 12%nat r
            | 110%nat => plain 10%nat r
            | 114%nat => plain 13%nat r
            | 116%nat => plain 9%nat r
            | 117%nat =>
                match r with
                | String "0" (String "0" (String h (String l r'))) =>
                    match hex_val h, hex_val l with
                    | Some a, Some b => plain (16 * a + b)%nat r'
                    | _, _ => None
                    end
                | _ => None
                end
            | _ => None
            end
        | EmptyString => None
        end
      else if (nat_of_ascii c <? 32)%nat then None
      else
        match read_string s' with
        | Some (t, r') => Some (String c t, r')
        | None => None
        end
  end.

Definition is_digit (c : ascii) : bool :=
  let n := nat_of_ascii c in (48 <=? n)%nat && (n <=? 57)%nat.

(** The longest prefix of decimal digits, and the rest. *)
Fixpoint span_digits (s : string) : string * string :=
  match s with
  | EmptyString => (EmptyString, EmptyString)
  | String c r =>
      if is_digit c then
        let '(ds, rest) := span_digits r in (String c ds, rest)
      else (EmptyString, s)
  end.

(** A numeral with a fraction or an exponent is not read. *)
Definition bad_tail (rest : string) : bool :=
  match rest with
  | String "." _ | String "e" _ | String "E" _ => true
  | _ => false
  end.

(** An integer numeral: an optional minus sign, then digits with no
    leading zero. *)
Definition read_number (s : string) : option (Z * string) :=
  let '(sign, s1) :=
    match s with
    | String "-" r => ("-", r)
    | _ => (EmptyString, s)
    end in
  let '(ds, rest) := span_digits s1 in
  match ds with
  | EmptyString => None
  | String "0" (String _ _) => None
  | _ =>
      if bad_tail rest then None
      else match NilZero.int_of_string (sign +:+ ds) with
           | Some i => Some (Z.of_int i, rest)
           | None => None
           end
  end.

Definition char_then (c : ascii) (s : string) : option string :=
  match s with
  | String x r => if Ascii.eqb x c then Some r else None
  | EmptyString => None
  end.

Section Loops.
Variable read : string -> option (value * string).

(** The elements of an array after its opening bracket, up to its
    closing bracket; [k] bounds their number. *)
Fixpoint read_items (k : nat) (s : string) : option (list value * string) :=
  match k with
  | O => None
  | S k' =>
      match read s with
      | Some (v, s1) =>
          match char_then "," (skip_ws s1) with
          | Some s2 =>
              match read_items k' s2 with
              | Some (vs, s3) => Some (v :: vs, s3)
              | None => None
              end
          | None =>
              match char_then "]" (skip_ws s1) with
              | Some s2 => Some ([v], s2)
              | None => None
              end
          end
      | None => None
      end
  end.

(** The members of an object after its opening brace, up to its closing
    brace. *)
Fixpoint read_members (k : nat) (s : string)
  : option (list (string * value) * string) :=
  match k with
  | O => None
  | S k' =>
      match char_then dq (skip_ws s) with
      | Some s0 =>
          match read_string s0 with
          | Some (key, s1) =>
              match char_then ":" (skip_ws s1) with
              | Some s2 =>
                  match read s2 with
                  | Some (v, s3) =>
                      match char_then "," (skip_ws s3) with
                      | Some s4 =>
                          match read_members k' s4 with
                          | Some (kvs, s5) => Some ((key, v) :: kvs, s5)
                          | None => None
                          end
                      | None =>
                          match char_then "}" (skip_ws s3) with
                          | Some s4 => Some ([(key, v)], s4)
                          | None => None
                          end
                      end
                  | None => None
                  end
              | None => None
              end
          | None => None
          end
      | None => None
      end
  end.

End Loops.

(** A value and what follows it; [fuel] bounds the nesting and the
    number of elements. *)
Fixpoint read_value (fuel : nat) (s : string) : option (value * string) :=
  match fuel with
  | O => None
  | S f =>
      match skip_ws s with
      | EmptyString => None
      | String c r =>
          if Ascii.eqb c "n" then option_map (pair VNull) (strip "ull" r)
          else if Ascii.eqb c "t" then
            option_map (pair (VBool true)) (strip "rue" r)
          else if Ascii.eqb c "f" then
            option_map (pair (VBool false)) (strip "alse" r)
          else if Ascii.eqb c dq then
            option_map (fun '(t, r') => (VStr t, r')) (read_string r)
          else if Ascii.eqb c "[" then
            match char_then "]" (skip_ws r) with
            | Some r' => Some (VArr [], r')
            | None =>
                option_map (fun '(vs, r') => (VArr vs, r'))
                           (read_items (read_value f) f r)
            end
          else if Ascii.eqb c "{" then
            match char_then "}" (skip_ws r) with
            | Some r' => Some (VObj [], r')
            | None =>
                option_map (fun '(kvs, r') => (VObj kvs, r'))
                           (read_members (read_value f) f r)
            end
          else
            option_map (fun '(z, r') => (VNum z, r'))
                       (read_number (String c r))
      end
  end.

(** The values of JSON documents: no [undefined] at any depth. *)
Fixpoint is_json (v : value) : bool :=
  match v with
  | VUndefined => false
  | VArr items => forallb is_json items
  | VObj props => forallb (fun kv => is_json (snd kv)) props
  | _ => true
  end.

(** The number of nodes of a value. *)
Fixpoint size (v : value) : nat :=
  match v with
  | VArr items => S (list_sum (map size items))
  | VObj props => S (list_sum (map (fun kv => size (snd kv)) props))
  | _ => 1%nat
  end.

(** What may follow a value in a document: nothing, a comma or a line
    feed. *)
Definition delimited (rest : string) : bool :=
  match rest with
  | EmptyString => true
  | String c _ => Ascii.eqb c "," || Ascii.eqb c Str.lf
  end.

(** The first character of a printed value: no white space and no
    closing bracket. *)
Definition starts_value (s : string) : bool :=
  match s with
  | String c _ =>
      negb (json_ws c) && negb (Ascii.eqb c "]") && negb (Ascii.eqb c "}")
  | EmptyString => false
  end.

(** A member of an object as [print] writes it. *)
Definition member (depth : nat) (kv : string * value) : string :=
  quote (fst kv) +:+ ": " +:+ print depth (snd kv).

(** [JSON.parse(s)] *)
Definition parse (s : string) : option value :=
  match read_value (S (String.length s)) s with
  | Some (v, rest) =>
      match skip_ws rest with
      | EmptyString => Some v
      | _ => None
      end
  | None => None
  end.

(** *** Dates *)

Definition ms_per_day : Z := 86400000.

(** Days since 1970-01-01 of a proleptic Gregorian date. *)
Definition days_from_civil (y m d : Z) : Z :=
  let y' := if m <=? 2 then y - 1 else y in
  let era := y' / 400 in
  let yoe := y' - era * 400 in
  let doy := (153 * (if 2 <? m then m - 3 else m + 9) + 2) / 5 + d - 1 in
  let doe := yoe * 365 + yoe / 4 - yoe / 100 + doy in
  era * 146097 + doe - 719468.

Definition civil_from_days (z : Z) : Z * Z * Z :=
  let z' := z + 719468 in
  let era := z' / 146097 in
  let doe := z' - era * 146097 in
  let yoe := (doe - doe / 1460 + doe / 36524 - doe / 146096) / 365 in
  let doy := doe - (365 * yoe + yoe / 4 - yoe / 100) in
  let mp := (5 * doy + 2) / 153 in
  let d := doy - (153 * mp + 2) / 5 + 1 in
  let m := if mp <? 10 then mp + 3 else mp - 9 in
  (yoe + era * 400 + (if m <=? 2 then 1 else 0), m, d).

(** Exactly [n] decimal digits, and the rest. *)
Fixpoint fixed_digits (n : nat) (s : string) (acc : Z) : option (Z * string) :=
  match n with
  | O => Some (acc, s)
  | S k =>
      match s with
      | String c r =>
          match Num.digit_val 10 c with
          | Some d => fixed_digits k r (acc * 10 + d)
          | None => None
          end
      | EmptyString => None
      end
  end.

(** [Date.parse] of [YYYY-MM-DD], [YYYY-MM-DDTHH:mm:ssZ] and
    [YYYY-MM-DDTHH:mm:ss.sssZ]; any other string is an invalid date. *)
Definition date_parse (s : string) : option Z :=
  '(y, s) ← fixed_digits 4 s 0;
  s ← char_then "-" s;
  '(m, s) ← fixed_digits 2 s 0;
  s ← char_then "-" s;
  '(d, s) ← fixed_digits 2 s 0;
  if negb ((1 <=? m) && (m <=? 12) && (1 <=? d) && (d <=? 31)) then None else
  let day := days_from_civil y m d * ms_per_day in
  match s with
  | EmptyString => Some day
  | _ =>
      s ← char_then "T" s;
      '(hh, s) ← fixed_digits 2 s 0;
      s ← char_then ":" s;
      '(mm, s) ← fixed_digits 2 s 0;
      s ← char_then ":" s;
      '(ss, s) ← fixed_digits 2 s 0;
      '(ms, s) ← match s with
                 | String "." r => fixed_digits 3 r 0
                 | _ => Some (0, s)
                 end;
      if negb ((hh <=? 23) && (mm <=? 59) && (ss <=? 59)) then None else
      match s with
      | String "Z" EmptyString =>
          Some (day + ((hh * 60 + mm) * 60 + ss) * 1000 + ms)
      | _ => None
      end
  end.

(** [n] as [width] decimal digits. *)
Fixpoint padded (width : nat) (n : Z) : string :=
  match width with
  | O => EmptyString
  | S k => padded k (n / 10) +:+ String (ascii_of_nat (48 + Z.to_nat (n mod 10)))
                                        EmptyString
  end.

(** [YYYY-MM-DDTHH:mm:ss.sssZ], for the years 0 to 9999. *)
Definition date_toISOString (t : Z) : string :=
  let '(y, m, d) := civil_from_days (t / ms_per_day) in
  let r := t mod ms_per_day in
  padded 4 y +:+ "-" +:+ padded 2 m +:+ "-" +:+ padded 2 d +:+ "T" +:+
  padded 2 (r / 3600000) +:+ ":" +:+ padded 2 (r / 60000 mod 60) +:+ ":" +:+
  padded 2 (r / 1000 mod 60) +:+ "." +:+ padded 3 (r mod 1000) +:+ "Z".

(** [YYYY-MM-DD HH:mm:ss]: the locale [sv-SE] in the time zone UTC. *)
Definition date_toLocaleString (t : Z) : string :=
  let '(y, m, d) := civil_from_days (t / ms_per_day) in
  let r := t mod ms_per_day in
  padded 4 y +:+ "-" +:+ padded 2 m +:+ "-" +:+ padded 2 d +:+ " " +:+
  padded 2 (r / 3600000) +:+ ":" +:+ padded 2 (r / 60000 mod 60) +:+ ":" +:+
  padded 2 (r / 1000 mod 60).

(** *** Paths *)

(** [path.join(dir, file)] for a relative [dir] with no [..] segment and
    a plain file name: a leading [./] is normalised away. *)
Definition join_path (dir file : string) : string :=
  match dir with
  | String "." (String "/" rest) => rest +:+ "/" +:+ file
  | _ => dir +:+ "/" +:+ file
  end.

#[export] Instance host : Host := {|
  JSON_parse := parse;
  JSON_stringify := print 0;
  Date_parse := date_parse;
  Date_toISOString := date_toISOString;
  Date_toLocaleString := date_toLocaleString;
  path_join := join_path
|}.

End Reference.

(** ** The filter, as a predicate on well-formed events

    [Filter.keeps] is the callback as the source writes it, with its
    early returns and the exceptions a malformed element raises.  On
    events that have the shape of the data model it computes the
    conjunction [passes] below. *)

Module FilterView.
Import Method.

(** [e.k] of an object, [undefined] otherwise. *)
Definition field (e : value) (k : string) : value :=
  match e with
  | VObj props => lookup k props
  | _ => VUndefined
  end.

Section WithHost.
Context `{Host}.

(** The time value of [new Date(e.created_at)]. *)
Definition timestamp (e : value) : option Z :=
  match new_Date (field e "created_at") with
  | Ok t => t
  | Throw _ => None
  end.

(** An event of the data model: an object whose [repo] is an object
    with a string [name], and whose [created_at] converts to a date
    (valid or not) without throwing. *)
Definition well_formed (e : value) : bool :=
  match e with
  | VObj props =>
      match lookup "repo" props with
      | VObj rprops =>
          match lookup "name" rprops with
          | VStr _ => is_ok (new_Date (lookup "created_at" props))
          | _ => false
          end
      | _ => false
      end
  | _ => false
  end.

Definition repo_name (e : value) : string :=
  match field (field e "repo") "name" with
  | VStr s => s
  | _ => EmptyString
  end.

(** What the four tests of the callback compute together: a criterion
    that is absent or empty excludes nothing, and a date criterion
    excludes an event only when both dates are valid and out of order. *)
Definition passes (criteria : Criteria) (e : value) : bool :=
  match Filter.active (type criteria) with
  | Some t => is_case (field e "type") t
  | None => true
  end &&
  match Filter.active (repo criteria) with
  | Some r => Str.includes (repo_name e) r
  | None => true
  end &&
  match Filter.active (dateFrom criteria) with
  | Some d => negb (Filter.time_lt (timestamp e) (Date_parse d))
  | None => true
  end &&
  match Filter.active (dateTo criteria) with
  | Some d => negb (Filter.time_lt (Date_parse d) (timestamp e))
  | None => true
  end.




End WithHost.


End FilterView.

(** ** Sample data for the examples *)

Module Sample.

Definition event (ty name : string) (payload created_at : value) : value :=
  VObj [ ("type", VStr ty); ("repo", VObj [("name", VStr name)]);
         ("payload", payload); ("created_at", created_at) ].

(** A world with the given lines to read, an empty file system that
    raises no error, and a network that gives the same answer to every
    request. *)
Definition world (lines : list string) (answer : http_outcome) : World :=
  {| stdin := lines; console := []; files := ∅; sent := 0%nat;
     clock := 1704067200000;
     network := fun _ _ => answer;
     mkdir_error := fun _ => None;
     writeFile_error := fun _ => None |}.

Definition events : list value :=
       [ event "PushEvent" "acme/widgets"
           (VObj [("commits",
                   VArr [VObj [("sha", VStr "0123456789abcdef");
                               ("message", VStr "first line")]])])
           (VStr "2024-01-01T00:00:00Z");
         event "WatchEvent" "acme/gadgets" (VObj [])
           (VStr "2023-12-31T23:59:59Z") ].

Definition page : value := VArr events.

(** Events whose payload lacks a nested field: a commit with neither
    [sha] nor [message], no [issue], no [release]. *)
Definition bare_push : value :=
  event "PushEvent" "r" (VObj [("commits", VArr [VObj []])])
        (VStr "2024-01-01T00:00:00Z").
Definition bare_issue : value :=
  event "IssuesEvent" "r" (VObj [("action", VStr "opened")])
        (VStr "2024-01-01T00:00:00Z").
Definition bare_release : value :=
  event "ReleaseEvent" "r" (VObj [("action", VStr "published")])
        (VStr "2024-01-01T00:00:00Z").


(** The event of the repository's test, which has neither [payload] nor
    [created_at], and the answers of that test as a server with no
    header would send them: 404 for the user "nonexistentuser", 200
    otherwise, and a body with that event in both cases. *)
Definition test_event : value :=
  VObj [("repo", VObj [("name", VStr "test-repo")]);
        ("type", VStr "PushEvent")].

Definition test_network (path : string) : http_outcome :=
  Response (if Str.includes path "nonexistentuser" then 404 else 200) ∅
           [Reference.print 0 (VArr [test_event])].

(** A network that answers every request with the sample page and a
    low remaining quota. *)
Definition page_response : http_outcome :=
  Response 200 (<["x-ratelimit-remaining" := "7"]> ∅)
           [Reference.print 0 page].

(** A whole run: filter by the second type listed, save, mistype, exit. *)
Definition run : outcome Session :=
  Controller.main (H := Reference.host) 10 (Some "octocat")
    (world ["2"; "1"; " 2 "; "4"; "9"; "6"] page_response).


End Sample.

(** ** Shapes of values, for the properties of the formatter *)

Module Shape.

Definition nullish (v : value) : bool :=
  match v with
  | VUndefined | VNull => true
  | _ => false
  end.

(** No object inside [v] has an own property [toString]: such a value
    converts to a string without throwing. *)
Fixpoint printable (v : value) : bool :=
  match v with
  | VObj props =>
      negb (has_key "toString" props) &&
      forallb (fun kv => printable (snd kv)) props
  | VArr items => forallb printable items
  | _ => true
  end.

(** [v.k], [v?.k], [`${v}`] and [capitalize(v)] where they return. *)
Definition prop (v : value) (k : string) : value :=
  match get v k with Ok u => u | Throw _ => VUndefined end.
Definition opt_prop (v : value) (k : string) : value :=
  match get_opt v k with Ok u => u | Throw _ => VUndefined end.
Definition text (v : value) : string :=
  match to_string v with Ok s => s | Throw _ => EmptyString end.
Definition capital (v : value) : string :=
  match Formatter.capitalize v with Ok s => s | Throw _ => EmptyString end.

(** What [capitalize] accepts: a string, or a value that is falsy. *)
Definition string_or_falsy (v : value) : bool :=
  match v with
  | VStr _ => true
  | _ => negb (truthy v)
  end.

(** The types whose events have a detail block, and the types whose
    title reads the payload. *)
(** The name of the repository of an event of the data model: an
    object whose [repo] is an object with a string [name]. *)
Definition named (event : value) : option string :=
  match event with
  | VObj props =>
      match lookup "repo" props with
      | VObj rprops =>
          match lookup "name" rprops with
          | VStr s => Some s
          | _ => None
          end
      | _ => None
      end
  | _ => None
  end.

(** The events of a list that are named [k], in the order of the
    list. *)
Definition of_repo (k : string) (events : list value) : list value :=
  List.filter (fun e => match named e with
                        | Some s => String.eqb s k
                        | None => false
                        end) events.


Definition detail_rows : list string :=
  [ "PushEvent"; "IssuesEvent"; "PullRequestEvent"; "ReleaseEvent" ].
Definition payload_rows : list string :=
  [ "PushEvent"; "CreateEvent"; "IssuesEvent"; "PullRequestEvent";
    "ForkEvent"; "DeleteEvent"; "ReleaseEvent" ].

End Shape.

(** ** Decimal numerals, for the properties of [parseInt] *)

Module Numeral.

(** The digits of a numeral, most significant first. *)
Fixpoint uint_digits (d : Decimal.uint) : list Z :=
  match d with
  | Decimal.Nil => []
  | Decimal.D0 d' => 0 :: uint_digits d'
  | Decimal.D1 d' => 1 :: uint_digits d'
  | Decimal.D2 d' => 2 :: uint_digits d'
  | Decimal.D3 d' => 3 :: uint_digits d'
  | Decimal.D4 d' => 4 :: uint_digits d'
  | Decimal.D5 d' => 5 :: uint_digits d'
  | Decimal.D6 d' => 6 :: uint_digits d'
  | Decimal.D7 d' => 7 :: uint_digits d'
  | Decimal.D8 d' => 8 :: uint_digits d'
  | Decimal.D9 d' => 9 :: uint_digits d'
  end.

End Numeral.

(** ** What a session does to the world *)

Module Trace.

(** The world in which an asynchronous function ends. *)
Definition final {A} (o : outcome A) : World :=
  match o with
  | Returned _ w | Thrown _ w | Exited _ w | Waiting w => w
  end.

(** [w'] is a world that [w] may become: lines were written to the
    console and read from the terminal, files were written and requests
    sent, and nothing else happened. *)
Record extends (w w' : World) : Prop := Extends {
  console_grows : exists l, console w' = console w ++ l;
  stdin_shrinks : exists l, stdin w = l ++ stdin w';
  files_kept : forall p, is_Some (files w !! p) -> is_Some (files w' !! p);
  sent_grows : (sent w <= sent w')%nat;
  clock_same : clock w' = clock w;
  network_same : network w' = network w;
  mkdir_error_same : mkdir_error w' = mkdir_error w;
  writeFile_error_same : writeFile_error w' = writeFile_error w
}.

(** The last line on the console. *)
Definition last_line (w : World) : option string :=
  List.last (map Some (console w)) None.

(** The process ends with status 0 after the farewell. *)
Definition goodbye (code : Z) (w : World) : Prop :=
  code = 0 /\ last_line w = Some "Goodbye!".

(** An asynchronous function that only extends the world, and ends the
    process only as [E] allows. *)
Definition obeys {A} (E : Z -> World -> Prop) (m : IO A) : Prop :=
  forall w, extends w (final (m w)) /\
            forall code w', m w = Exited code w' -> E code w'.

(** What holds of the value an asynchronous function returns. *)
Definition returns {A} (m : IO A) (P : A -> Prop) : Prop :=
  forall w a w', m w = Returned a w' -> P a.

(** What a turn of the loop may change in the session besides the page
    and the criteria: the page number moves forward by at most [n], and
    the output directory stays. *)
Definition advances (n : Z) (s s' : Session) : Prop :=
  outputDir (config s') = outputDir (config s) /\
  currentPage s <= currentPage s' <= currentPage s + n.

(** An asynchronous function that sends no request. *)
Definition quiet {A} (m : IO A) : Prop :=
  forall w, sent (final (m w)) = sent w.


End Trace.

(** * Properties *)

(** ** Strings *)

Module StrFacts.
Import Str.





End StrFacts.

(** ** Activity Fetcher *)

Module FetcherFacts.
Import Fetcher StrFacts.




Section FetchOutcomes.
Context `{Host}.
Variable https_get : string -> http_outcome.
Variable user : string.


(** C2, as the code has it.  For a response with status [statusCode],
    the promise resolves, with the parsed body, exactly when the status
    is 200 and the body is valid JSON; it rejects with the parse error
    for a 200 whose body is not valid JSON, with the not-found error for
    404, with the rate-limit error for 403, and with the generic HTTP
    error that carries the code for every other status, the other 2xx
    codes included. *)
Theorem fetchGitHubActivity_settles (page : Z) (perPage : number)
    (statusCode : Z) (headers : gmap string string) (chunks : list string) :
  https_get (request_path user page perPage)
    = Response statusCode headers chunks ->
  let promise := snd (fetchGitHubActivity https_get user page perPage) in
  (forall v, promise = Ok v <->
             statusCode = 200 /\ JSON_parse (body_of chunks) = Some v) /\
  (statusCode = 200 -> JSON_parse (body_of chunks) = None ->
   promise = Throw (Error parse_message)) /\
  (statusCode = 404 -> promise = Throw (Error (not_found_message user))) /\
  (statusCode = 403 -> promise = Throw (Error rate_limit_message)) /\
  (statusCode <> 200 -> statusCode <> 404 -> statusCode <> 403 ->
   promise = Throw (Error (http_message statusCode))).
Proof.
  intros Hresp promise. subst promise.
  unfold fetchGitHubActivity, settle. cbn [snd]. rewrite Hresp.
  split; [intros v; split|split; [|split; [|split]]].
  - intros Hp. destruct (Z.eqb_spec statusCode 200) as [E|E].
    + split; [exact E|]. destruct (JSON_parse _); congruence.
    + exfalso. destruct (statusCode =? 404); [discriminate|].
      destruct (statusCode =? 403); discriminate.
  - intros [-> Hv]. cbn. now rewrite Hv.
  - intros -> Hnone. cbn. now rewrite Hnone.
  - intros ->. reflexivity.
  - intros ->. reflexivity.
  - intros H200 H404 H403.
    destruct (Z.eqb_spec statusCode 200); [contradiction|].
    destruct (Z.eqb_spec statusCode 404); [contradiction|].
    destruct (Z.eqb_spec statusCode 403); [contradiction|].
    reflexivity.
Qed.

End FetchOutcomes.


(** The two expectations of the repository's test on those answers: the
    events are grouped by repository name, and an unknown user gives
    [null]. *)
Lemma getUserActivity_tests :
  getUserActivity (H := Reference.host) Sample.test_network "username"
    = Ok (Some {| username := "username";
                  repos := {[ "test-repo" := [Sample.test_event] ]} |}) /\
  getUserActivity (H := Reference.host) Sample.test_network "nonexistentuser"
    = Ok None.
Proof. split; vm_compute; reflexivity. Qed.

(** Status 201 with a body that is valid JSON: the promise rejects with
    the generic HTTP error. *)
Lemma fetchGitHubActivity_rejects_201 :
  let net := fun _ : string => Response 201 ∅ ["[]"] in
  Reference.parse (body_of ["[]"]) = Some (VArr []) /\
  snd (fetchGitHubActivity (H := Reference.host) net "octocat" 1 (Num 30))
    = Throw (Error "HTTP Error: 201").
Proof. split; reflexivity. Qed.

(** The theorem at a 200 response whose body is the empty array. *)
Lemma fetchGitHubActivity_settles_witness :
  let net := fun _ : string => Response 200 ∅ ["[]"] in
  snd (fetchGitHubActivity (H := Reference.host) net "octocat" 1 (Num 30))
    = Ok (VArr []).
Proof.
  intros net.
  apply (fetchGitHubActivity_settles (H := Reference.host) net "octocat"
           1 (Num 30) 200 ∅ ["[]"] eq_refl).
  split; reflexivity.
Defined.

End FetcherFacts.

(** ** Event Filter *)

Module FilterFacts.
Import Method Filter FilterView.

(** *** [Array.prototype.filter] with a callback that may throw *)

Section FilterM.
Variable f : value -> result bool.

Lemma filterM_sublist (l r : list value) :
  filterM f l = Ok r -> sublist r l.
Proof.
  revert r. induction l as [|x l IH]; simpl; intros r Hr.
  - injection Hr as <-. constructor.
  - destruct (f x) as [keep|e]; [|discriminate].
    destruct (filterM f l) as [ys|e]; [|discriminate].
    cbn in Hr. injection Hr as <-.
    destruct keep; [apply sublist_skip|apply sublist_cons]; auto.
Qed.

Lemma filterM_again (l r : list value) :
  filterM f l = Ok r -> filterM f r = Ok r.
Proof.
  revert r. induction l as [|x l IH]; simpl; intros r Hr.
  - injection Hr as <-. reflexivity.
  - destruct (f x) as [keep|e] eqn:Hx; [|discriminate].
    destruct (filterM f l) as [ys|e]; [|discriminate].
    cbn in Hr. injection Hr as <-.
    destruct keep; [|auto].
    simpl. rewrite Hx, (IH ys eq_refl). reflexivity.
Qed.

Lemma filterM_pure (p : value -> bool) (l : list value) :
  (forall x, In x l -> f x = Ok (p x)) ->
  filterM f l = Ok (List.filter p l).
Proof.
  induction l as [|x l IH]; simpl; intros Hf.
  - reflexivity.
  - rewrite (Hf x (or_introl eq_refl)), IH by auto. cbn.
    destruct (p x); reflexivity.
Qed.

End FilterM.

Section WithHost.
Context `{Host}.

Lemma keeps_without_criteria (e : value) : keeps no_criteria e = Ok true.
Proof. reflexivity. Qed.

(** On a well-formed event the callback returns, and returns the
    conjunction. *)
Lemma keeps_well_formed (criteria : Criteria) (e : value) :
  well_formed e = true -> keeps criteria e = Ok (passes criteria e).
Proof.
  destruct e as [| | | | | |props]; try discriminate. cbn [well_formed].
  destruct (lookup "repo" props) as [| | | | | |rprops] eqn:Hrepo;
    try discriminate.
  destruct (lookup "name" rprops) as [| | | |name| |] eqn:Hname;
    try discriminate.
  destruct (new_Date (lookup "created_at" props)) as [t|err] eqn:Hdate;
    [intros _|discriminate].
  unfold keeps, passes, fails_type, fails_repo, fails_dateFrom, fails_dateTo,
    timestamp, repo_name.
  cbn [field get Js.bind]. rewrite Hrepo. cbn [field get Js.bind].
  rewrite Hname, Hdate. cbn [Method.includes Js.bind].
  destruct (active (type criteria)) as [t0|]; cbn [Js.bind];
    [destruct (is_case (lookup "type" props) t0); cbn [negb andb];
       [|reflexivity]|];
  (destruct (active (repo criteria)) as [r0|]; cbn [Js.bind];
    [destruct (Str.includes name r0); cbn [negb andb]; [|reflexivity]|]);
  (destruct (active (dateFrom criteria)) as [d1|]; cbn [Js.bind];
    [destruct (time_lt t (Date_parse d1)); cbn [negb andb]; [reflexivity|]|]);
  (destruct (active (dateTo criteria)) as [d2|]; cbn [Js.bind];
    [destruct (time_lt (Date_parse d2) t); reflexivity|reflexivity]).
Qed.




End WithHost.



Section Laws.
Context `{Host}.

(** C8.  With no criterion set the filter returns its input list; and
    for every criteria, filtering what the filter returned gives the
    same list again. *)
Theorem filterEvents_identity_idempotent (events : list value)
    (criteria : Criteria) :
  filterEvents (VArr events) no_criteria = Ok events /\
  (forall once, filterEvents (VArr events) criteria = Ok once ->
                filterEvents (VArr once) criteria = Ok once) /\
  (let* once := filterEvents (VArr events) criteria in
   filterEvents (VArr once) criteria) = filterEvents (VArr events) criteria.
Proof.
  unfold filterEvents, Array_filter. split; [|split].
  - rewrite (filterM_pure _ (fun _ => true)).
    + f_equal. induction events as [|x l IH]; simpl; congruence.
    + intros x _. apply keeps_without_criteria.
  - apply filterM_again.
  - destruct (filterM (keeps criteria) events) as [once|e] eqn:Hl;
      cbn [Js.bind]; [|reflexivity].
    now apply filterM_again with (l := events).
Qed.

(** An element that is [null] makes the callback throw as soon as a
    criterion reads a property of it. *)
Lemma filterEvents_throws_on_null :
  filterEvents (VArr [VNull]) (Controller.set_type (Some "PushEvent") no_criteria)
    = Throw (TypeError "Cannot read properties of null (reading 'type')") /\
  filterEvents (VArr [VNull]) no_criteria = Ok [VNull].
Proof. split; reflexivity. Qed.

(** The result is a subsequence of the input, whatever the events. *)
Lemma filterEvents_sublist (events once : list value) (criteria : Criteria) :
  filterEvents (VArr events) criteria = Ok once -> sublist once events.
Proof. apply filterM_sublist. Qed.

(** C10.  An event whose [created_at] is a string that is no valid date
    fails neither date test, whatever the bounds: the callback decides
    as it does with both date criteria removed. *)
Theorem unparseable_created_at_passes_dates (e : value) (s : string)
    (criteria : Criteria) :
  get e "created_at" = Ok (VStr s) ->
  Date_parse s = None ->
  fails_dateFrom criteria e = Ok false /\
  fails_dateTo criteria e = Ok false /\
  keeps criteria e = keeps (Controller.set_dates None None criteria) e.
Proof.
  intros Hget Hparse.
  assert (Hfrom : fails_dateFrom criteria e = Ok false).
  { unfold fails_dateFrom. destruct (active (dateFrom criteria)); [|reflexivity].
    rewrite Hget. cbn. now rewrite Hparse. }
  assert (Hto : fails_dateTo criteria e = Ok false).
  { unfold fails_dateTo.
    destruct (active (dateTo criteria)) as [d|]; [|reflexivity].
    rewrite Hget. cbn. rewrite Hparse. destruct (Date_parse d); reflexivity. }
  repeat split; [exact Hfrom|exact Hto|].
  unfold keeps. rewrite Hfrom, Hto.
  change (fails_type (Controller.set_dates None None criteria) e)
    with (fails_type criteria e).
  change (fails_repo (Controller.set_dates None None criteria) e)
    with (fails_repo criteria e).
  change (fails_dateFrom (Controller.set_dates None None criteria) e)
    with (@Ok bool false).
  change (fails_dateTo (Controller.set_dates None None criteria) e)
    with (@Ok bool false).
  reflexivity.
Qed.

End Laws.

(** The laws on the sample page with a criterion on the type. *)
Lemma filterEvents_identity_idempotent_witness :
  let c := Controller.set_type (Some "WatchEvent") no_criteria in
  filterEvents (H := Reference.host) (VArr Sample.events) no_criteria
    = Ok Sample.events /\
  filterEvents (H := Reference.host) (VArr (skipn 1 Sample.events)) c
    = Ok (skipn 1 Sample.events).
Proof.
  intros c.
  destruct (filterEvents_identity_idempotent (H := Reference.host)
              Sample.events c) as (Hid & Hidem & _).
  split; [exact Hid|].
  apply Hidem. vm_compute. reflexivity.
Defined.

(** An event dated "yesterday" against bounds that exclude every date. *)
Lemma unparseable_created_at_passes_dates_witness :
  let e := Sample.event "PushEvent" "acme/widgets" (VObj [])
             (VStr "yesterday") in
  let c := {| type := Some "PushEvent"; repo := None;
              dateFrom := Some "2024-01-02"; dateTo := Some "2024-01-01" |} in
  keeps (H := Reference.host) c e = Ok true.
Proof.
  intros e c.
  refine (eq_trans
    (proj2 (proj2 (unparseable_created_at_passes_dates (H := Reference.host)
                     e "yesterday" c _ _))) _);
    reflexivity.
Defined.

End FilterFacts.

(** ** Event Formatter *)

Module FormatterFacts.
Import Method Formatter.

Lemma is_case_outside_rows (t name : string) :
  ~ In t title_rows -> In name title_rows -> is_case (VStr t) name = false.
Proof.
  intros Hout Hin. unfold is_case.
  destruct (String.eqb_spec t name) as [->|]; [contradiction|reflexivity].
Qed.

(** C5.  The title of the watch event of the specification is "Starred
    acme/widgets"; the title of a push event counts the elements of
    [payload.commits], and counts 0 when the payload has no [commits];
    and an event whose type has no row of its own is titled "TYPE on
    REPO". *)
Theorem formatEventTitle_table :
  formatEventTitle
    (VObj [("type", VStr "WatchEvent");
           ("repo", VObj [("name", VStr "acme/widgets")])])
    = Ok "Starred acme/widgets" /\
  (forall props rprops pprops r commits,
     lookup "type" props = VStr "PushEvent" ->
     lookup "repo" props = VObj rprops -> lookup "name" rprops = VStr r ->
     lookup "payload" props = VObj pprops ->
     lookup "commits" pprops = VArr commits ->
     formatEventTitle (VObj props)
       = Ok ("Pushed " +:+ Str.of_Z (Z.of_nat (length commits)) +:+
             " commit(s) to " +:+ r)) /\
  (forall props rprops pprops r,
     lookup "type" props = VStr "PushEvent" ->
     lookup "repo" props = VObj rprops -> lookup "name" rprops = VStr r ->
     lookup "payload" props = VObj pprops ->
     lookup "commits" pprops = VUndefined ->
     formatEventTitle (VObj props) = Ok ("Pushed 0 commit(s) to " +:+ r)) /\
  (forall props rprops t r,
     ~ In t title_rows ->
     lookup "type" props = VStr t ->
     lookup "repo" props = VObj rprops -> lookup "name" rprops = VStr r ->
     formatEventTitle (VObj props) = Ok (t +:+ " on " +:+ r)).
Proof.
  split; [reflexivity|split; [|split]].
  - intros props rprops pprops r commits Hty Hrepo Hname Hpay Hcommits.
    unfold formatEventTitle. cbn [destructure get Js.bind].
    rewrite Hty, Hrepo, Hpay. cbn [is_case String.eqb Ascii.eqb Bool.eqb get Js.bind].
    rewrite Hcommits, Hname.
    cbn [get_opt get Js.bind String.eqb Ascii.eqb Bool.eqb].
    unfold or_else, truthy.
    destruct commits as [|c commits]; [reflexivity|].
    replace (Z.of_nat (length (c :: commits)) =? 0) with false
      by (symmetry; apply Z.eqb_neq; cbn [length]; lia).
    reflexivity.
  - intros props rprops pprops r Hty Hrepo Hname Hpay Hcommits.
    unfold formatEventTitle. cbn [destructure get Js.bind].
    rewrite Hty, Hrepo, Hpay. cbn [is_case String.eqb Ascii.eqb Bool.eqb get Js.bind].
    rewrite Hcommits, Hname. reflexivity.
  - intros props rprops t r Hout Hty Hrepo Hname.
    unfold formatEventTitle. cbn [destructure get Js.bind].
    rewrite Hty, Hrepo.
    rewrite !is_case_outside_rows by (assumption || (cbn; tauto)).
    cbn [get Js.bind to_string]. rewrite Hname. reflexivity.
Qed.

(** The theorem on a star, a push of two commits and a comment. *)
Lemma formatEventTitle_table_witness :
  formatEventTitle
    (VObj [("type", VStr "PushEvent"); ("repo", VObj [("name", VStr "r")]);
           ("payload", VObj [("commits", VArr [VObj []; VObj []])])])
    = Ok "Pushed 2 commit(s) to r" /\
  formatEventTitle
    (VObj [("type", VStr "PushEvent"); ("repo", VObj [("name", VStr "r")]);
           ("payload", VObj [])])
    = Ok "Pushed 0 commit(s) to r" /\
  formatEventTitle
    (VObj [("type", VStr "IssueCommentEvent");
           ("repo", VObj [("name", VStr "r")])])
    = Ok "IssueCommentEvent on r".
Proof.
  destruct formatEventTitle_table as (_ & Hpush & Habsent & Hother).
  split; [|split].
  - apply (Hpush _ [("name", VStr "r")]
             [("commits", VArr [VObj []; VObj []])] "r" [VObj []; VObj []]);
      reflexivity.
  - apply (Habsent _ [("name", VStr "r")] [] "r"); reflexivity.
  - apply (Hother _ [("name", VStr "r")] "IssueCommentEvent" "r");
      try reflexivity.
    cbn. intros Hin. repeat destruct Hin as [Hin|Hin]; try discriminate Hin.
    exact Hin.
Defined.

Section WithHost.
Context `{Host}.

(** C6 at three events the claim names, with the detail view enabled:
    [formatEvent] throws on a commit without [sha], on an issues payload
    without [issue] and on a release payload without [release], where
    [formatEventTitle] returns a title for each of them. *)
Theorem formatEvent_throws_on_missing_fields :
  detailedView defaultConfig = true /\
  formatEvent Sample.bare_push defaultConfig
    = Throw (TypeError
        "Cannot read properties of undefined (reading 'slice')") /\
  formatEvent Sample.bare_issue defaultConfig
    = Throw (TypeError
        "Cannot read properties of undefined (reading 'title')") /\
  formatEvent Sample.bare_release defaultConfig
    = Throw (TypeError
        "Cannot read properties of undefined (reading 'tag_name')") /\
  formatEventTitle Sample.bare_push = Ok "Pushed 1 commit(s) to r" /\
  formatEventTitle Sample.bare_issue = Ok "Opened issue #undefined in r" /\
  formatEventTitle Sample.bare_release
    = Ok "Published release undefined in r".
Proof. repeat split. Qed.

(** With the detail view disabled the three events are formatted. *)
Lemma formatEvent_without_details (e : value) :
  In e [Sample.bare_push; Sample.bare_issue; Sample.bare_release] ->
  is_ok (formatEvent e (Configure.set_detailedView false defaultConfig))
    = true.
Proof.
  intros [<-|[<-|[<-|[]]]]; reflexivity.
Qed.

End WithHost.

End FormatterFacts.

(** ** Reconfiguration *)

Module ConfigureFacts.
Import Configure.

(** For an answer that is not blank, the stored number is the clamped
    value of [parseInt], and [NaN] when [parseInt] finds no digit. *)
Lemma store_eventsPerPage (answer : string) (c : Config) :
  Str.trim answer <> EmptyString ->
  eventsPerPage (store eventsPerPage_key answer c)
  = match parseInt answer with
    | Num z => Num (Z.min 100 (Z.max 10 z))
    | NaN => NaN
    end.
Proof.
  intros Hnb. unfold store.
  destruct (String.eqb_spec (Str.trim answer) EmptyString) as [E|_];
    [contradiction|].
  cbn. now destruct (parseInt answer).
Qed.

(** Whenever [parseInt] reads a number, the stored value is in range. *)
Lemma store_eventsPerPage_in_range (answer : string) (c : Config) (z : Z) :
  Str.trim answer <> EmptyString -> parseInt answer = Num z ->
  exists n, eventsPerPage (store eventsPerPage_key answer c) = Num n /\
            10 <= n <= 100.
Proof.
  intros Hnb Hz. rewrite store_eventsPerPage, Hz by assumption.
  eexists; split; [reflexivity|lia].
Qed.

(** The inputs of the specification: 5, 250, 42 and a blank line. *)
Lemma store_eventsPerPage_examples (c : Config) :
  eventsPerPage (store eventsPerPage_key "5" c) = Num 10 /\
  eventsPerPage (store eventsPerPage_key "250" c) = Num 100 /\
  eventsPerPage (store eventsPerPage_key "42" c) = Num 42 /\
  store eventsPerPage_key "   " c = c.
Proof. repeat split. Qed.

(** C4 at the answer "abc": the line is not blank, [parseInt] finds no
    digit, and the value stored by the flow is [NaN], which is no integer
    between 10 and 100. *)
Theorem eventsPerPage_stores_NaN :
  let w := Sample.world [""; ""; ""; "abc"] (ConnectionFailure "") in
  Str.trim "abc" <> EmptyString /\
  parseInt "abc" = NaN /\
  eventsPerPage (store eventsPerPage_key "abc" defaultConfig) = NaN /\
  match configureDisplay defaultConfig w with
  | Returned c _ => c = set_eventsPerPage NaN defaultConfig
  | _ => False
  end.
Proof. repeat split. discriminate. Qed.

(** C9 at the answer "true" with a space after it, and at "iso" with a
    space before it: the answer is stored as read, so [colors] becomes
    false where "true" makes it true, and [dateFormat] keeps the space
    and no longer equals "iso". *)
Theorem configureDisplay_does_not_trim :
  let c := Configure.set_colors false defaultConfig in
  colors (store colors_key "true" c) = true /\
  colors (store colors_key "true " c) = false /\
  dateFormat (store dateFormat_key "iso" c) = "iso" /\
  dateFormat (store dateFormat_key " iso" c) = " iso" /\
  match configureDisplay c (Sample.world ["true "; " iso"; ""; ""]
                              (ConnectionFailure "")),
        configureDisplay c (Sample.world ["true"; "iso"; ""; ""]
                              (ConnectionFailure "")) with
  | Returned padded _, Returned plain _ =>
      colors padded = false /\ colors plain = true /\
      dateFormat padded <> dateFormat plain
  | _, _ => False
  end.
Proof. repeat split. discriminate. Qed.

End ConfigureFacts.

(** ** The reference host reads back what it prints *)

Module ReferenceFacts.
Import Reference.

#[local] Arguments String.append !s1%_string s2%_string.

Lemma append_assoc (a b c : string) : (a +:+ b) +:+ c = a +:+ b +:+ c.
Proof. induction a as [|x a IH]; simpl; congruence. Qed.

Lemma length_append (a b : string) :
  String.length (a +:+ b) = (String.length a + String.length b)%nat.
Proof. induction a as [|x a IH]; simpl; congruence. Qed.

(** *** White space *)

Lemma skip_ws_indent (d : nat) (s : string) :
  skip_ws (indent d +:+ s) = skip_ws s.
Proof. induction d as [|d IH]; simpl; auto. Qed.

Lemma skip_ws_newline (d : nat) (s : string) :
  skip_ws (newline d +:+ s) = skip_ws s.
Proof. unfold newline. simpl. apply skip_ws_indent. Qed.

Lemma read_value_skips (fuel d : nat) (s : string) :
  read_value fuel (newline d +:+ s) = read_value fuel s.
Proof. destruct fuel; simpl; [reflexivity|]. now rewrite skip_ws_indent. Qed.

Lemma read_value_skips_space (fuel : nat) (s : string) :
  read_value fuel (String " " s) = read_value fuel s.
Proof. destruct fuel; reflexivity. Qed.

(** *** String literals *)

Lemma read_string_escape (c : ascii) (tail : string) :
  read_string (escape c +:+ tail)
  = match read_string tail with
    | Some (t, r) => Some (String c t, r)
    | None => None
    end.
Proof.
  destruct c as [[] [] [] [] [] [] [] []]; reflexivity.
Qed.

Lemma read_string_quoted (s rest : string) :
  read_string (escape_all s +:+ String dq rest) = Some (s, rest).
Proof.
  induction s as [|c s IH]; [reflexivity|].
  cbn [escape_all]. now rewrite append_assoc, read_string_escape, IH.
Qed.

(** *** Numerals *)

Lemma delimited_ends_numeral (rest : string) :
  delimited rest = true ->
  span_digits rest = (EmptyString, rest) /\ bad_tail rest = false.
Proof.
  destruct rest as [|c rest]; [now split|]. cbn [delimited].
  intros Hc. apply orb_true_iff in Hc as [Hc|Hc];
    apply Ascii.eqb_eq in Hc; subst c; now split.
Qed.

Lemma span_digits_uint (d : Decimal.uint) (rest : string) :
  span_digits rest = (EmptyString, rest) ->
  span_digits (NilEmpty.string_of_uint d +:+ rest)
  = (NilEmpty.string_of_uint d, rest).
Proof.
  intros Hrest. induction d; cbn [NilEmpty.string_of_uint String.append];
    [exact Hrest|..]; cbn [span_digits]; now rewrite IHd.
Qed.

Lemma pos_no_leading_zero (p : positive) (d : Decimal.uint) :
  Pos.to_uint p <> Decimal.D0 d.
Proof.
  intros Hp.
  assert (Hnorm : Decimal.unorm (Pos.to_uint p) = Pos.to_uint p).
  { rewrite <- DecimalPos.Unsigned.to_of, DecimalPos.Unsigned.of_to.
    reflexivity. }
  rewrite Hp in Hnorm. rewrite DecimalFacts.unorm_D0 in Hnorm.
  unfold Decimal.unorm in Hnorm.
  destruct (Decimal.nzhead d) eqn:Hd; try discriminate Hnorm.
  - injection Hnorm as <-.
    exact (DecimalPos.Unsigned.to_uint_nonzero p Hp).
  - injection Hnorm as ->.
    exact (DecimalFacts.nzhead_nonzero d d Hd).
Qed.

(** A numeral without a leading zero is read back, with and without a
    minus sign. *)
Lemma read_number_uint (d : Decimal.uint) (rest : string) :
  d <> Decimal.Nil -> (forall d', d = Decimal.D0 d' -> d' = Decimal.Nil) ->
  delimited rest = true ->
  read_number (NilEmpty.string_of_uint d +:+ rest)
    = Some (Z.of_int (Decimal.Pos d), rest) /\
  read_number (String "-" (NilEmpty.string_of_uint d +:+ rest))
    = Some (Z.of_int (Decimal.Neg d), rest).
Proof.
  intros Hnil Hzero Hrest.
  destruct (delimited_ends_numeral rest Hrest) as [Hspan Htail].
  pose proof (span_digits_uint d rest Hspan) as Hd.
  pose proof (NilZero.isi (Decimal.Pos d)) as Hpos.
  pose proof (NilZero.isi (Decimal.Neg d)) as Hneg.
  assert (Hne : forall s, s <> Decimal.Nil ->
                 NilZero.string_of_uint s = NilEmpty.string_of_uint s)
    by (intros [] Hs; congruence || reflexivity).
  cbn [NilZero.string_of_int] in Hpos, Hneg.
  rewrite (Hne d Hnil) in Hpos, Hneg.
  destruct d as [|d|d|d|d|d|d|d|d|d|d]; [contradiction|..];
    try (rewrite (Hzero d eq_refl) in *);
    unfold read_number;
    cbn [NilEmpty.string_of_uint String.append] in *;
    rewrite Hd; cbn [String.append]; rewrite Htail;
    (split; [rewrite Hpos by congruence|rewrite Hneg by congruence]);
    reflexivity.
Qed.

Lemma read_number_of_Z (n : Z) (rest : string) :
  delimited rest = true ->
  read_number (Str.of_Z n +:+ rest) = Some (n, rest).
Proof.
  intros Hrest. rewrite <- (DecimalZ.of_to n) at 2.
  unfold Str.of_Z, NilZero.string_of_int, NilZero.string_of_uint.
  destruct n as [|p|p]; cbn [Z.to_int].
  - apply (read_number_uint Decimal.zero rest); [discriminate| |exact Hrest].
    now intros d' [= <-].
  - pose proof (DecimalPos.Unsigned.to_uint_nonnil p) as Hnil.
    pose proof (pos_no_leading_zero p) as Hlead.
    destruct (read_number_uint (Pos.to_uint p) rest Hnil) as [H _];
      [intros d' Hd'; now destruct (Hlead d')|exact Hrest|].
    destruct (Pos.to_uint p); [contradiction|..]; exact H.
  - pose proof (DecimalPos.Unsigned.to_uint_nonnil p) as Hnil.
    pose proof (pos_no_leading_zero p) as Hlead.
    destruct (read_number_uint (Pos.to_uint p) rest Hnil) as [_ H];
      [intros d' Hd'; now destruct (Hlead d')|exact Hrest|].
    destruct (Pos.to_uint p); [contradiction|..]; exact H.
Qed.

(** A numeral starts with a digit or a minus sign, and such a
    character sends [read_value] to [read_number]. *)
Lemma of_Z_head (n : Z) :
  exists c r, Str.of_Z n = String c r /\
              (is_digit c || Ascii.eqb c "-") = true.
Proof.
  unfold Str.of_Z, NilZero.string_of_int, NilZero.string_of_uint.
  destruct n as [|p|p]; cbn [Z.to_int]; [now eexists _, _|..];
    destruct (Pos.to_uint p); now eexists _, _.
Qed.

Lemma read_value_numeral (f : nat) (c : ascii) (r : string) :
  (is_digit c || Ascii.eqb c "-") = true ->
  read_value (S f) (String c r)
  = option_map (fun '(z, r') => (VNum z, r')) (read_number (String c r)).
Proof.
  destruct c as [[] [] [] [] [] [] [] []]; intros Hc;
    try discriminate Hc; reflexivity.
Qed.

(** *** Values *)

Lemma starts_value_numeral (c : ascii) (r : string) :
  (is_digit c || Ascii.eqb c "-") = true -> starts_value (String c r) = true.
Proof.
  destruct c as [[] [] [] [] [] [] [] []]; intros Hc;
    try discriminate Hc; reflexivity.
Qed.

Lemma print_starts_value (d : nat) (v : value) :
  starts_value (print d v) = true.
Proof.
  destruct v as [| |[]|n|s|items|props]; try reflexivity.
  - destruct (of_Z_head n) as (c & r & Hn & Hc). cbn [print]. rewrite Hn.
    now apply starts_value_numeral.
  - cbn [print]. unfold block. now destruct (map _ items).
  - cbn [print]. unfold block. now destruct (print_members _ props).
Qed.

Lemma starts_value_skip (s t : string) :
  starts_value s = true ->
  skip_ws (s +:+ t) = s +:+ t /\
  char_then "]" (s +:+ t) = None /\ char_then "}" (s +:+ t) = None.
Proof.
  destruct s as [|c s]; [discriminate|]. cbn. intros Hc.
  apply andb_true_iff in Hc as [Hc H2]. apply andb_true_iff in Hc as [H0 H1].
  apply negb_true_iff in H0, H1, H2. now rewrite H0, H1, H2.
Qed.

Lemma read_value_string (f : nat) (r : string) :
  read_value (S f) (String dq r)
  = option_map (fun '(t, r') => (VStr t, r')) (read_string r).
Proof. reflexivity. Qed.

Lemma read_value_array (f : nat) (r : string) :
  read_value (S f) (String "[" r)
  = match char_then "]" (skip_ws r) with
    | Some r' => Some (VArr [], r')
    | None => option_map (fun '(vs, r') => (VArr vs, r'))
                         (read_items (read_value f) f r)
    end.
Proof. reflexivity. Qed.

Lemma read_value_object (f : nat) (r : string) :
  read_value (S f) (String "{" r)
  = match char_then "}" (skip_ws r) with
    | Some r' => Some (VObj [], r')
    | None => option_map (fun '(kvs, r') => (VObj kvs, r'))
                         (read_members (read_value f) f r)
    end.
Proof. reflexivity. Qed.

Lemma skip_ws_head (c : ascii) (s : string) :
  json_ws c = false -> skip_ws (String c s) = String c s.
Proof. intros Hc. cbn [skip_ws]. now rewrite Hc. Qed.

Lemma char_then_same (c : ascii) (s : string) :
  char_then c (String c s) = Some s.
Proof. cbn [char_then]. now rewrite Ascii.eqb_refl. Qed.

Section Loops.
Variable read : string -> option (value * string).
Variables (depth inner : nat) (rest : string).
Hypothesis read_skips :
  forall n s, read (newline n +:+ s) = read s.
Hypothesis read_skips_space : forall s, read (String " " s) = read s.

(** The elements of a printed array are read back, up to the closing
    bracket, by a reader that reads back each of them. *)
Lemma read_items_printed (items : list value) (k : nat) :
  (forall x r, In x items -> delimited r = true ->
               read (print inner x +:+ r) = Some (x, r)) ->
  items <> [] -> (length items <= k)%nat ->
  read_items read k
    (newline inner +:+ Str.join (String "," (newline inner)) (map (print inner) items) +:+
     newline depth +:+ String "]" rest)
  = Some (items, rest).
Proof.
  revert k. induction items as [|x xs IH]; intros k Hread Hne Hk;
    [contradiction|].
  destruct k as [|k]; [cbn in Hk; lia|].
  cbn [read_items]. rewrite read_skips.
  destruct xs as [|y ys].
  - cbn [map Str.join]. rewrite Hread; [|now left|reflexivity].
    rewrite skip_ws_newline, skip_ws_head by reflexivity.
    now rewrite char_then_same.
  - change (Str.join (String "," (newline inner)) (map (print inner) (x :: y :: ys)))
      with (print inner x +:+ String "," (newline inner) +:+
            Str.join (String "," (newline inner)) (map (print inner) (y :: ys))).
    rewrite !append_assoc. cbn [String.append].
    rewrite Hread; [|now left|reflexivity].
    rewrite skip_ws_head, char_then_same by reflexivity.
    rewrite IH; [reflexivity| |discriminate|cbn in Hk |- *; lia].
    intros z r Hz. apply Hread. now right.
Qed.

(** The members of a printed object are read back likewise. *)
Lemma read_members_printed (props : list (string * value)) (k : nat) :
  (forall kv r, In kv props -> delimited r = true ->
                read (print inner (snd kv) +:+ r) = Some (snd kv, r)) ->
  props <> [] -> (length props <= k)%nat ->
  read_members read k
    (newline inner +:+ Str.join (String "," (newline inner)) (map (member inner) props) +:+
     newline depth +:+ String "}" rest)
  = Some (props, rest).
Proof.
  revert k. induction props as [|[key x] ps IH]; intros k Hread Hne Hk;
    [contradiction|].
  destruct k as [|k]; [cbn in Hk; lia|].
  cbn [read_members]. rewrite skip_ws_newline.
  assert (Hmember : forall tail,
            member inner (key, x) +:+ tail
            = String dq (escape_all key +:+
                         String dq (String ":" (String " "
                                      (print inner x +:+ tail))))).
  { intros tail. unfold member, quote. cbn [fst snd String.append].
    now rewrite !append_assoc. }
  destruct ps as [|q qs].
  - cbn [map Str.join]. rewrite Hmember.
    rewrite skip_ws_head, char_then_same by reflexivity.
    rewrite read_string_quoted.
    rewrite skip_ws_head, char_then_same by reflexivity.
    rewrite read_skips_space.
    rewrite (Hread (key, x)); [|now left|reflexivity]. cbn [snd].
    rewrite skip_ws_newline, skip_ws_head by reflexivity.
    now rewrite char_then_same.
  - change (Str.join (String "," (newline inner)) (map (member inner) ((key, x) :: q :: qs)))
      with (member inner (key, x) +:+ String "," (newline inner) +:+
            Str.join (String "," (newline inner)) (map (member inner) (q :: qs))).
    rewrite append_assoc, Hmember.
    rewrite skip_ws_head, char_then_same by reflexivity.
    rewrite read_string_quoted.
    rewrite skip_ws_head, char_then_same by reflexivity.
    rewrite read_skips_space.
    rewrite !append_assoc. cbn [String.append].
    rewrite (Hread (key, x)); [|now left|reflexivity]. cbn [snd].
    rewrite skip_ws_head, char_then_same by reflexivity.
    rewrite IH; [reflexivity| |discriminate|cbn in Hk |- *; lia].
    intros z r Hz. apply Hread. now right.
Qed.

End Loops.

Lemma size_positive (v : value) : (1 <= size v)%nat.
Proof. destruct v; cbn; lia. Qed.

Lemma size_items (items : list value) :
  (length items <= list_sum (map size items))%nat /\
  (forall x, In x items -> (size x <= list_sum (map size items))%nat).
Proof.
  induction items as [|a l [IHlen IHin]]; simpl; split; try lia; try easy.
  - pose proof (size_positive a). lia.
  - intros b [<-|Hb]; [lia|]. specialize (IHin b Hb). lia.
Qed.

Lemma size_props (props : list (string * value)) :
  (length props <= list_sum (map (fun kv => size (snd kv)) props))%nat /\
  (forall kv, In kv props ->
     (size (snd kv) <= list_sum (map (fun kv => size (snd kv)) props))%nat).
Proof.
  induction props as [|a l [IHlen IHin]]; simpl; split; try lia; try easy.
  - pose proof (size_positive (snd a)). lia.
  - intros b [<-|Hb]; [lia|]. specialize (IHin b Hb). lia.
Qed.

Lemma print_members_json (d : nat) (props : list (string * value)) :
  forallb (fun kv => is_json (snd kv)) props = true ->
  print_members (print d) props = map (member d) props.
Proof.
  induction props as [|[k x] ps IH]; cbn [forallb print_members map snd];
    [reflexivity|].
  intros Hj. apply andb_true_iff in Hj as [Hx Hps].
  rewrite (IH Hps). now destruct x.
Qed.

Lemma block_nonempty (opening closing : ascii) (d : nat)
    (parts : list string) :
  parts <> [] ->
  block opening closing d parts
  = String opening
      (newline (S d) +:+ Str.join (String "," (newline (S d))) parts +:+
       newline d +:+ String closing EmptyString).
Proof. now destruct parts. Qed.

(** With fuel for its size, a printed JSON value is read back, whatever
    delimiter follows it. *)
Lemma read_value_print (fuel : nat) :
  forall (v : value) (d : nat) (rest : string),
    (size v <= fuel)%nat -> is_json v = true -> delimited rest = true ->
    read_value fuel (print d v +:+ rest) = Some (v, rest).
Proof.
  induction fuel as [|f IH]; intros v d rest Hsize Hjson Hrest.
  - pose proof (size_positive v). lia.
  - destruct v as [| |[]|n|s|items|props]; try discriminate Hjson;
      try reflexivity.
    + cbn [print]. destruct (of_Z_head n) as (c & r & Hn & Hc).
      pose proof (read_number_of_Z n rest Hrest) as Hread.
      rewrite Hn in *. cbn [String.append] in *.
      now rewrite read_value_numeral, Hread.
    + cbn [print]. unfold quote. cbn [String.append].
      rewrite append_assoc. cbn [String.append].
      now rewrite read_value_string, read_string_quoted.
    + cbn [print is_json size] in *.
      destruct items as [|x xs]; [reflexivity|].
      destruct (size_items (x :: xs)) as [Hlen Hin].
      rewrite block_nonempty by discriminate.
      cbn [String.append]. rewrite !append_assoc. cbn [String.append].
      rewrite read_value_array, skip_ws_newline.
      destruct (starts_value_skip
                  (Str.join (String "," (newline (S d)))
                     (map (print (S d)) (x :: xs)))
                  (newline d +:+ String "]" rest)) as (Hskip & Hclose & _).
      { cbn [map Str.join]. destruct (map (print (S d)) xs);
          [apply print_starts_value|].
        pose proof (print_starts_value (S d) x) as Hx.
        now destruct (print (S d) x). }
      rewrite Hskip, Hclose.
      rewrite (read_items_printed (read_value f) d (S d) rest);
        [reflexivity|intros; apply read_value_skips| |discriminate|lia].
      intros y r Hy Hr. apply IH; [specialize (Hin y Hy); lia| |exact Hr].
      rewrite forallb_forall in Hjson. auto.
    + cbn [print is_json size] in *.
      rewrite (print_members_json (S d) props Hjson).
      destruct props as [|kv ps]; [reflexivity|].
      destruct (size_props (kv :: ps)) as [Hlen Hin].
      rewrite block_nonempty by discriminate.
      cbn [String.append]. rewrite !append_assoc. cbn [String.append].
      rewrite read_value_object, skip_ws_newline.
      destruct (starts_value_skip
                  (Str.join (String "," (newline (S d)))
                     (map (member (S d)) (kv :: ps)))
                  (newline d +:+ String "}" rest)) as (Hskip & _ & Hclose).
      { cbn [map Str.join]. now destruct (map (member (S d)) ps). }
      rewrite Hskip, Hclose.
      rewrite (read_members_printed (read_value f) d (S d) rest);
        [reflexivity|intros; apply read_value_skips_space| |discriminate
        |lia].
      intros y r Hy Hr. apply IH; [specialize (Hin y Hy); lia| |exact Hr].
      rewrite forallb_forall in Hjson. auto.
Qed.

(** *** The fuel [parse] gives is enough *)

Lemma append_empty_r (s : string) : s +:+ EmptyString = s.
Proof. induction s as [|c s IH]; simpl; congruence. Qed.

Lemma join_length (sep : string) (parts : list string) :
  (list_sum (map String.length parts)
   <= String.length (Str.join sep parts))%nat.
Proof.
  induction parts as [|p [|q ps] IH]; [simpl; lia|simpl; lia|].
  change (Str.join sep (p :: q :: ps))
    with (p +:+ sep +:+ Str.join sep (q :: ps)).
  rewrite !length_append. simpl in IH |- *. lia.
Qed.

Lemma block_length (opening closing : ascii) (d : nat)
    (parts : list string) :
  (S (list_sum (map String.length parts))
   <= String.length (block opening closing d parts))%nat.
Proof.
  destruct parts as [|p ps]; [simpl; lia|].
  rewrite block_nonempty by discriminate.
  cbn [String.length]. rewrite !length_append.
  pose proof (join_length (String "," (newline (S d))) (p :: ps)). lia.
Qed.

Lemma list_sum_le {A} (f g : A -> nat) (l : list A) :
  (forall a, In a l -> (f a <= g a)%nat) ->
  (list_sum (map f l) <= list_sum (map g l))%nat.
Proof.
  induction l as [|a l IH]; simpl; intros Hfg; [lia|].
  pose proof (Hfg a (or_introl eq_refl)).
  assert (list_sum (map f l) <= list_sum (map g l))%nat by auto. lia.
Qed.

Lemma size_le_printed (n : nat) :
  forall (v : value) (d : nat),
    (size v <= n)%nat -> is_json v = true ->
    (size v <= String.length (print d v))%nat.
Proof.
  induction n as [|n IH]; intros v d Hn Hjson.
  - pose proof (size_positive v). lia.
  - destruct v as [| |[]|z|s|items|props]; try (cbn; lia).
    + cbn [size print]. destruct (of_Z_head z) as (c & r & -> & _).
      cbn. lia.
    + cbn [size print is_json] in *.
      pose proof (block_length "[" "]" d (map (print (S d)) items)) as Hb.
      rewrite map_map in Hb.
      destruct (size_items items) as [_ Hin].
      pose proof (list_sum_le size
                    (fun x => String.length (print (S d) x)) items) as Hle.
      rewrite forallb_forall in Hjson.
      assert (list_sum (map size items)
              <= list_sum (map (fun x => String.length (print (S d) x))
                               items))%nat; [|lia].
      apply Hle. intros x Hx. apply IH; [specialize (Hin x Hx); lia|auto].
    + cbn [size print is_json] in *.
      rewrite (print_members_json (S d) props Hjson).
      pose proof (block_length "{" "}" d (map (member (S d)) props)) as Hb.
      rewrite map_map in Hb.
      destruct (size_props props) as [_ Hin].
      pose proof (list_sum_le (fun kv => size (snd kv))
                    (fun kv => String.length (member (S d) kv)) props) as Hle.
      rewrite forallb_forall in Hjson.
      assert (list_sum (map (fun kv => size (snd kv)) props)
              <= list_sum (map (fun kv => String.length (member (S d) kv))
                               props))%nat; [|lia].
      apply Hle. intros kv Hkv. unfold member. rewrite !length_append.
      assert (size (snd kv) <= String.length (print (S d) (snd kv)))%nat;
        [|lia].
      apply IH; [specialize (Hin kv Hkv); lia|auto].
Qed.

(** Every JSON value is read back from its text. *)
Theorem parse_print (v : value) :
  is_json v = true -> parse (print 0 v) = Some v.
Proof.
  intros Hjson. unfold parse.
  rewrite <- (append_empty_r (print 0 v)) at 2.
  rewrite read_value_print; [reflexivity| |exact Hjson|reflexivity].
  pose proof (size_le_printed (size v) v 0 (Nat.le_refl _) Hjson). lia.
Qed.

End ReferenceFacts.

(** ** File Exporter and the save action *)

Module ExporterFacts.
Import Exporter Controller.

Section WithHost.
Context `{Host}.

(** When [saveToFile] returns, the file at the path of that instant
    holds the JSON text of the list it was given, and nothing else of
    the file system has changed. *)
Lemma saveToFile_writes (events : value) (user : string) (c : Config)
    (w w' : World) :
  saveToFile events user c w = Returned tt w' ->
  files w' = <[filepath_at (clock w) user c := JSON_stringify events]> (files w)
  /\ events <> VUndefined.
Proof.
  unfold saveToFile, save_failure, lift.
  destruct (mkdir_error w (outputDir c)); [discriminate|].
  destruct events; cbn [stringify]; try discriminate;
    (destruct (writeFile_error w _); [discriminate|]);
    unfold log; intros [= <-]; split; (reflexivity || discriminate).
Qed.

(** When the save action of the menu returns, the session is unchanged,
    the file holds the JSON text of [currentEvents], and the action does
    the same to the world whatever the filter criteria are. *)
Lemma save_action_writes (user : string) (s s' : Session) (w w' : World) :
  dispatch user "4" s w = Returned s' w' ->
  s' = s /\
  files w' !! filepath_at (clock w) user (config s)
    = Some (JSON_stringify (currentEvents s)) /\
  (forall criteria,
     dispatch user "4" (set_criteria criteria s) w
     = Returned (set_criteria criteria s) w').
Proof.
  unfold dispatch. cbn [String.eqb Ascii.eqb Bool.eqb].
  unfold IO.bind, ret. cbn [currentEvents config set_criteria].
  destruct (saveToFile (currentEvents s) user (config s) w)
    as [[] w1|e w1|code w1|w1] eqn:Hsave; try discriminate.
  intros [= <- <-].
  destruct (saveToFile_writes _ _ _ _ _ Hsave) as [Hfiles _].
  split; [reflexivity|split; [|reflexivity]].
  rewrite Hfiles. apply lookup_insert_eq.
Qed.


End WithHost.

(** On the reference host the condition holds for every page that is a
    JSON value. *)
Corollary save_action_on_reference_host (user : string) (s s' : Session)
    (w w' : World) :
  Reference.is_json (currentEvents s) = true ->
  dispatch (H := Reference.host) user "4" s w = Returned s' w' ->
  exists content,
    files w' !! filepath_at (H := Reference.host) (clock w) user (config s)
      = Some content /\
    Reference.parse content = Some (currentEvents s).
Proof.
  intros Hjson Hsave.
  destruct (save_action_writes (H := Reference.host) user s s' w w' Hsave)
    as (_ & Hfile & _).
  eexists. split; [exact Hfile|].
  apply (ReferenceFacts.parse_print _ Hjson).
Qed.


End ExporterFacts.

(** ** The prompts that trim *)

Module PromptFacts.
Import Str Controller.

Lemma trimStart_blank_app (l s : string) :
  blank l = true -> trimStart (l +:+ s) = trimStart s.
Proof.
  induction l as [|c l IH]; simpl; intros Hl; [reflexivity|].
  apply andb_true_iff in Hl as [Hc Hl]. rewrite Hc. auto.
Qed.

Lemma trimEnd_blank (r : string) : blank r = true -> trimEnd r = EmptyString.
Proof.
  induction r as [|c r IH]; simpl; intros Hr; [reflexivity|].
  apply andb_true_iff in Hr as [Hc Hr]. now rewrite (IH Hr), Hc.
Qed.

Lemma trimEnd_app_blank (s r : string) :
  blank r = true -> trimEnd (s +:+ r) = trimEnd s.
Proof.
  intros Hr. induction s as [|c s IH]; simpl.
  - now apply trimEnd_blank.
  - now rewrite IH.
Qed.

Lemma trimStart_blank (r : string) :
  blank r = true -> trimStart r = EmptyString.
Proof.
  induction r as [|c r IH]; simpl; intros Hr; [reflexivity|].
  apply andb_true_iff in Hr as [Hc Hr]. rewrite Hc. auto.
Qed.

Lemma trimStart_app_blank (s r : string) :
  blank r = true -> trimEnd (trimStart (s +:+ r)) = trimEnd (trimStart s).
Proof.
  intros Hr. induction s as [|c s IH].
  - change (EmptyString +:+ r) with r. now rewrite (trimStart_blank r Hr).
  - change (String c s +:+ r) with (String c (s +:+ r)). cbn [trimStart].
    destruct (is_ws c); [exact IH|].
    apply (trimEnd_app_blank (String c s) r Hr).
Qed.

(** White space added around an answer does not change what [trim]
    returns. *)
Lemma trim_padded (l a r : string) :
  blank l = true -> blank r = true -> trim (l +:+ a +:+ r) = trim a.
Proof.
  intros Hl Hr. unfold trim.
  rewrite trimStart_blank_app by exact Hl.
  now apply trimStart_app_blank.
Qed.

(** X28.  The choice [showMenu] returns is the same for a padded
    answer: white space typed before and after the answer changes
    neither the choice nor what the prompt does to the world. *)
Lemma showMenu_ignores_padding (l a r : string) (w : World) :
  blank l = true -> blank r = true ->
  match showMenu (with_stdin ((l +:+ a +:+ r) :: stdin w) w),
        showMenu (with_stdin (a :: stdin w) w) with
  | Returned padded w1, Returned plain w2 => padded = plain /\ w1 = w2
  | _, _ => False
  end.
Proof.
  intros Hl Hr. unfold showMenu, IO.bind, question, ret. cbn.
  now rewrite trim_padded.
Qed.

End PromptFacts.

(** ** The session *)

Module ControllerFacts.
Import Controller Formatter.

(** The other rows of the title table, on one event each. *)
Lemma formatEventTitle_other_rows :
  let repo := ("repo", VObj [("name", VStr "acme/widgets")]) in
  formatEventTitle
    (VObj [("type", VStr "CreateEvent"); repo;
           ("payload", VObj [("ref_type", VStr "branch");
                             ("ref", VStr "main")])])
    = Ok "Created branch 'main' in acme/widgets" /\
  formatEventTitle
    (VObj [("type", VStr "CreateEvent"); repo;
           ("payload", VObj [("ref_type", VStr "repository");
                             ("ref", VNull)])])
    = Ok "Created repository in acme/widgets" /\
  formatEventTitle
    (VObj [("type", VStr "IssuesEvent"); repo;
           ("payload", VObj [("action", VStr "opened");
                             ("issue", VObj [("number", VNum 12)])])])
    = Ok "Opened issue #12 in acme/widgets" /\
  formatEventTitle
    (VObj [("type", VStr "PullRequestEvent"); repo;
           ("payload", VObj [("action", VStr "closed");
                             ("pull_request", VObj [("number", VNum 7)])])])
    = Ok "Closed pull request #7 in acme/widgets" /\
  formatEventTitle
    (VObj [("type", VStr "ForkEvent"); repo;
           ("payload", VObj [("forkee",
                              VObj [("full_name", VStr "me/widgets")])])])
    = Ok "Forked acme/widgets to me/widgets" /\
  formatEventTitle
    (VObj [("type", VStr "DeleteEvent"); repo;
           ("payload", VObj [("ref_type", VStr "tag"); ("ref", VStr "v1")])])
    = Ok "Deleted tag 'v1' from acme/widgets" /\
  formatEventTitle
    (VObj [("type", VStr "ReleaseEvent"); repo;
           ("payload", VObj [("action", VStr "published");
                             ("release", VObj [("tag_name", VStr "v2")])])])
    = Ok "Published release v2 in acme/widgets".
Proof. repeat split. Qed.

Section WithHost.
Context `{Host}.

(** Without a username the program prints its usage and exits with
    status 1, before any request. *)
Lemma main_without_username (fuel : nat) (w : World) :
  match main fuel None w with
  | Exited code w' => code = 1 /\ sent w' = sent w /\ files w' = files w
  | _ => False
  end.
Proof. cbn. repeat split. Qed.


(** Showing all events clears the criteria and nothing else. *)
Lemma dispatch_show_all (user : string) (s : Session) (w : World) :
  dispatch user "3" s w = Returned (set_criteria no_criteria s) w.
Proof. reflexivity. Qed.

End WithHost.

(** The sample run exits with status 0 after one request; the type
    chosen from the list is the second one seen; and the file saved
    while that filter was active parses back to the whole page. *)
Lemma sample_run :
  match Sample.run with
  | Exited code w =>
      code = 0 /\ sent w = 1%nat /\ stdin w = [] /\
      option_map Reference.parse
        (files w !!
           "github-activity-logs/octocat-activity-2024-01-01T00-00-00-000Z.json")
      = Some (Some Sample.page)
  | _ => False
  end.
Proof. vm_compute. repeat split. Qed.

End ControllerFacts.


(** * Further properties *)

(** ** The formatter on events of every shape *)

Module ShapeFacts.
Import Method Formatter Shape.

Lemma to_string_array (items : list value) :
  to_string (VArr items) = Array_join "," items.
Proof.
  unfold Array_join. cbn [to_string]. f_equal.
  induction items as [|x l IH]; [reflexivity|].
  cbn [mapM]. rewrite <- IH. destruct x; reflexivity.
Qed.

Lemma printable_lookup (k : string) (props : list (string * value)) :
  forallb (fun kv => printable (snd kv)) props = true ->
  printable (lookup k props) = true.
Proof.
  induction props as [|[k' x] ps IH]; cbn [forallb lookup snd];
    [reflexivity|].
  intros Hp. apply andb_true_iff in Hp as [Hx Hps].
  destruct (String.eqb k k'); auto.
Qed.

Lemma get_ok (v : value) (k : string) :
  nullish v = false -> get v k = Ok (prop v k).
Proof. unfold prop. now destruct v. Qed.

Lemma get_opt_ok (v : value) (k : string) : get_opt v k = Ok (opt_prop v k).
Proof. unfold opt_prop. now destruct v. Qed.

Lemma printable_prop (v : value) (k : string) :
  printable v = true -> printable (prop v k) = true.
Proof.
  unfold prop. destruct v as [| | | | |items|props]; cbn [get printable];
    try reflexivity.
  - now destruct (String.eqb k "length").
  - now destruct (String.eqb k "length").
  - intros Hp. apply andb_true_iff in Hp as [_ Hp].
    now apply printable_lookup.
Qed.

Lemma printable_opt_prop (v : value) (k : string) :
  printable v = true -> printable (opt_prop v k) = true.
Proof.
  intros Hv. pose proof (printable_prop v k Hv) as Hp.
  unfold opt_prop, prop in *. now destruct v.
Qed.

Lemma printable_or_else (a b : value) :
  printable a = true -> printable b = true -> printable (or_else a b) = true.
Proof. unfold or_else. now destruct (truthy a). Qed.

(** A printable value converts to a string. *)
Lemma to_string_returns (n : nat) :
  forall v, (Reference.size v <= n)%nat -> printable v = true ->
            is_ok (to_string v) = true.
Proof.
  induction n as [|n IH]; intros v Hn Hp.
  - pose proof (ReferenceFacts.size_positive v). lia.
  - destruct v as [| |[]| | |items|props]; try reflexivity.
    + rewrite to_string_array. unfold Array_join.
      cbn [Reference.size printable] in Hn, Hp.
      assert (Hall : is_ok (mapM join_part items) = true).
      { assert (Hsz : forall x, In x items -> (Reference.size x <= n)%nat).
        { intros x Hx.
          destruct (ReferenceFacts.size_items items) as [_ Hin].
          specialize (Hin x Hx). lia. }
        clear Hn. induction items as [|x l IHl]; [reflexivity|].
        cbn [forallb] in Hp. apply andb_true_iff in Hp as [Hx Hl].
        cbn [mapM].
        assert (Hjx : is_ok (join_part x) = true).
        { unfold join_part.
          destruct x; try reflexivity; apply IH; auto; apply Hsz; now left. }
        destruct (join_part x); [|discriminate]. cbn [Js.bind].
        assert (Hrest : is_ok (mapM join_part l) = true).
        { apply IHl; [exact Hl|]. intros y Hy. apply Hsz. now right. }
        destruct (mapM join_part l); [reflexivity|discriminate]. }
      now destruct (mapM join_part items).
    + cbn [printable] in Hp. apply andb_true_iff in Hp as [Hk _].
      cbn [to_string]. apply negb_true_iff in Hk. now rewrite Hk.
Qed.

Lemma to_string_ok (v : value) :
  printable v = true -> to_string v = Ok (text v).
Proof.
  intros Hp. pose proof (to_string_returns _ v (Nat.le_refl _) Hp) as Hok.
  unfold text. now destruct (to_string v).
Qed.

Lemma capitalize_ok (v : value) :
  string_or_falsy v = true -> capitalize v = Ok (capital v).
Proof.
  unfold capital, capitalize, string_or_falsy.
  destruct v as [| |[]|n|s|items|props]; try reflexivity; try discriminate.
  - cbn [truthy]. destruct (n =? 0); [reflexivity|discriminate].
  - now destruct (truthy (VStr s)).
Qed.

Create HintDb printable.
#[local] Hint Resolve printable_prop printable_opt_prop printable_or_else
  : printable.

Ltac title_step :=
  match goal with
  | |- context [if is_case ?t ?n then _ else _] => destruct (is_case t n)
  | |- context [if truthy ?v then _ else _] => destruct (truthy v)
  | |- context [get_opt ?v ?k] => rewrite (get_opt_ok v k)
  | |- context [get ?v ?k] => rewrite (get_ok v k) by assumption
  | |- context [capitalize ?v] => rewrite (capitalize_ok v) by assumption
  | |- context [to_string ?v] =>
      rewrite (to_string_ok v) by (cbn [printable]; auto 6 with printable)
  end; cbn [Js.bind].

(** The title is computed for every printable event whose [repo] and
    [payload] are present and whose [payload.action] is a string or
    falsy. *)
Lemma title_returns (props : list (string * value)) :
  printable (VObj props) = true ->
  nullish (lookup "repo" props) = false ->
  nullish (lookup "payload" props) = false ->
  string_or_falsy (prop (lookup "payload" props) "action") = true ->
  is_ok (formatEventTitle (VObj props)) = true.
Proof.
  intros Hp Hrepo Hpay Haction.
  assert (Hty : printable (lookup "type" props) = true)
    by apply (printable_prop (VObj props) "type" Hp).
  assert (Hr : printable (lookup "repo" props) = true)
    by apply (printable_prop (VObj props) "repo" Hp).
  assert (Hpl : printable (lookup "payload" props) = true)
    by apply (printable_prop (VObj props) "payload" Hp).
  unfold formatEventTitle. cbn [destructure get Js.bind].
  repeat title_step; reflexivity.
Qed.

(** X1.  [formatEventTitle] returns a title for every event in which no
    object has an own property [toString], whose [repo] and [payload] are
    present, and whose [payload.action] is a string or falsy. *)
Theorem formatEventTitle_returns (props : list (string * value)) :
  printable (VObj props) = true ->
  nullish (lookup "repo" props) = false ->
  nullish (lookup "payload" props) = false ->
  string_or_falsy (prop (lookup "payload" props) "action") = true ->
  exists title, formatEventTitle (VObj props) = Ok title.
Proof.
  intros Hp Hrepo Hpay Haction.
  pose proof (title_returns props Hp Hrepo Hpay Haction) as Hok.
  destruct (formatEventTitle (VObj props)) as [title|e]; [|discriminate].
  now exists title.
Qed.

(** The theorem on the issues event that has no [issue]. *)
Lemma formatEventTitle_returns_witness :
  exists title, formatEventTitle Sample.bare_issue = Ok title.
Proof.
  apply formatEventTitle_returns; reflexivity.
Defined.

(** X2.  For an event of one of the seven types whose title reads the
    payload, a [payload] that is absent or [null] makes
    [formatEventTitle] throw. *)
Theorem formatEventTitle_needs_payload (props : list (string * value))
    (t : string) :
  lookup "type" props = VStr t -> In t payload_rows ->
  nullish (lookup "payload" props) = true ->
  is_ok (formatEventTitle (VObj props)) = false.
Proof.
  intros Hty Hin Hnull.
  unfold formatEventTitle. cbn [destructure get Js.bind]. rewrite Hty.
  destruct (lookup "payload" props) as [| | | | | |]; try discriminate Hnull;
    repeat (destruct Hin as [<-|Hin]; [try reflexivity|]);
    try contradiction;
    cbn; destruct (get (lookup "repo" props) "name") as [name|];
    try reflexivity; cbn; destruct (to_string name); reflexivity.
Qed.

(** The theorem on the push event of the repository's test, which has
    no payload. *)
Lemma formatEventTitle_needs_payload_witness :
  is_ok (formatEventTitle Sample.test_event) = false.
Proof.
  apply (formatEventTitle_needs_payload _ "PushEvent");
    [reflexivity|cbn; tauto|reflexivity].
Defined.



(** X4.  The rows that name a ref: the title of a [CreateEvent] leaves
    the ref out when it is falsy and quotes it when it is a string that
    is not empty; the title of a [DeleteEvent] always quotes it, and
    prints undefined for a ref that is absent. *)
Theorem formatEventTitle_ref_rows
    (props rprops pprops : list (string * value)) (r rt : string) :
  lookup "repo" props = VObj rprops -> lookup "name" rprops = VStr r ->
  lookup "payload" props = VObj pprops ->
  lookup "ref_type" pprops = VStr rt ->
  (lookup "type" props = VStr "CreateEvent" ->
   (truthy (lookup "ref" pprops) = false ->
    formatEventTitle (VObj props) = Ok ("Created " +:+ rt +:+ " in " +:+ r)) /\
   (forall ref, lookup "ref" pprops = VStr ref -> ref <> EmptyString ->
    formatEventTitle (VObj props)
      = Ok ("Created " +:+ rt +:+ " '" +:+ ref +:+ "' in " +:+ r))) /\
  (lookup "type" props = VStr "DeleteEvent" ->
   (forall ref, lookup "ref" pprops = VStr ref ->
    formatEventTitle (VObj props)
      = Ok ("Deleted " +:+ rt +:+ " '" +:+ ref +:+ "' from " +:+ r)) /\
   (lookup "ref" pprops = VUndefined ->
    formatEventTitle (VObj props)
      = Ok ("Deleted " +:+ rt +:+ " 'undefined' from " +:+ r))).
Proof.
  intros Hrepo Hname Hpay Hrt.
  split; intros Hty; unfold formatEventTitle;
    cbn [destructure get Js.bind]; rewrite Hty, Hrepo, Hpay;
    cbn [is_case String.eqb Ascii.eqb Bool.eqb get Js.bind to_string];
    rewrite Hrt, Hname; cbn [Js.bind to_string]; split.
  - intros Hfalsy. now rewrite Hfalsy.
  - intros ref Href Hne. rewrite Href. cbn [truthy].
    destruct (String.eqb_spec ref EmptyString) as [E|_]; [contradiction|].
    cbn [negb get Js.bind to_string].
    f_equal. now rewrite ?ReferenceFacts.append_assoc.
  - intros ref Href. now rewrite Href.
  - intros Href. now rewrite Href.
Qed.

(** The theorem on the creation of a repository, which has no ref, and
    on the deletion of a branch. *)
Lemma formatEventTitle_ref_rows_witness :
  formatEventTitle
    (VObj [("type", VStr "CreateEvent"); ("repo", VObj [("name", VStr "r")]);
           ("payload", VObj [("ref_type", VStr "repository");
                             ("ref", VNull)])])
    = Ok "Created repository in r" /\
  formatEventTitle
    (VObj [("type", VStr "DeleteEvent"); ("repo", VObj [("name", VStr "r")]);
           ("payload", VObj [("ref_type", VStr "branch");
                             ("ref", VStr "dev")])])
    = Ok "Deleted branch 'dev' from r".
Proof.
  split.
  - apply (formatEventTitle_ref_rows _ [("name", VStr "r")]
             [("ref_type", VStr "repository"); ("ref", VNull)]
             "r" "repository"); reflexivity.
  - refine (proj1 (proj2 (formatEventTitle_ref_rows
             [("type", VStr "DeleteEvent");
              ("repo", VObj [("name", VStr "r")]);
              ("payload", VObj [("ref_type", VStr "branch");
                                ("ref", VStr "dev")])]
             [("name", VStr "r")]
             [("ref_type", VStr "branch"); ("ref", VStr "dev")]
             "r" "branch" _ _ _ _) _) "dev" _); reflexivity.
Defined.




Lemma new_Date_returns `{Host} (v : value) :
  printable v = true -> exists d, new_Date v = Ok d.
Proof.
  intros Hp. destruct v; cbn [new_Date]; eauto.
  - rewrite (to_string_ok _ Hp). cbn. eauto.
  - rewrite (to_string_ok _ Hp). cbn. eauto.
Qed.

Lemma details_outside_rows (type payload : value) :
  (forall t, type = VStr t -> ~ In t detail_rows) ->
  details_of type payload = Ok EmptyString.
Proof.
  intros Hout. unfold details_of.
  destruct type as [| | | |t| |]; try reflexivity.
  specialize (Hout t eq_refl). unfold is_case.
  repeat match goal with
  | |- context [String.eqb t ?name] =>
      destruct (String.eqb_spec t name) as [->|_];
        [exfalso; apply Hout; cbn; tauto|]
  end.
  reflexivity.
Qed.

(** X6.  An event whose [created_at] is absent, or is a string that the
    host does not read as a date, cannot be formatted with the date
    format iso: [formatEvent] throws the RangeError of [toISOString],
    whatever the type and the payload are.  With any other format the
    timestamp reads Invalid Date. *)
Theorem formatEvent_invalid_date `{Host}
    (props : list (string * value)) (config : Config) :
  nullish (lookup "repo" props) = false ->
  new_Date (lookup "created_at" props) = Ok None ->
  (dateFormat config = "iso" ->
   formatEvent (VObj props) config
     = Throw (RangeError "Invalid time value")) /\
  (dateFormat config <> "iso" ->
   formatDate (lookup "created_at" props) (dateFormat config)
     = Ok "Invalid Date").
Proof.
  intros Hrepo Hdate. split; intros Hfmt.
  - unfold formatEvent. cbn [destructure get Js.bind].
    rewrite (get_ok _ _ Hrepo). cbn [Js.bind].
    unfold formatDate. rewrite Hdate, Hfmt. reflexivity.
  - unfold formatDate. rewrite Hdate. cbn [Js.bind].
    destruct (String.eqb_spec (dateFormat config) "iso"); [contradiction|].
    reflexivity.
Qed.

(** The theorem on the event of the repository's test, which has no
    [created_at], and on the reference host. *)
Lemma formatEvent_invalid_date_witness :
  formatEvent (H := Reference.host) Sample.test_event
    {| colors := true; dateFormat := "iso"; detailedView := true;
       eventsPerPage := Num 30; outputDir := "./github-activity-logs" |}
  = Throw (RangeError "Invalid time value").
Proof.
  apply (formatEvent_invalid_date (H := Reference.host)
           [("repo", VObj [("name", VStr "test-repo")]);
            ("type", VStr "PushEvent")]); reflexivity.
Defined.

(** X7.  [formatEvent] reads three fields of the configuration only:
    [colors], [dateFormat] and [detailedView]; and it reads
    [detailedView] only for the four types that have a detail block. *)
Theorem formatEvent_reads_of_config `{Host}
    (event : value) (c c' : Config) :
  colors c = colors c' -> dateFormat c = dateFormat c' ->
  (detailedView c = detailedView c' ->
   formatEvent event c = formatEvent event c') /\
  ((forall props t, event = VObj props -> lookup "type" props = VStr t ->
                    ~ In t detail_rows) ->
   formatEvent event c = formatEvent event c').
Proof.
  intros Hcol Hfmt. split.
  - intros Hdet. unfold formatEvent. now rewrite Hcol, Hfmt, Hdet.
  - intros Hout. unfold formatEvent. rewrite Hcol, Hfmt.
    destruct (destructure "type" "event" event) as [[]|e] eqn:Hd;
      [|reflexivity].
    cbn [Js.bind].
    destruct (get event "type") as [type|e] eqn:Hty; [|reflexivity].
    cbn [Js.bind].
    destruct (get event "repo") as [repo|e]; [|reflexivity]. cbn [Js.bind].
    destruct (get event "payload") as [payload|e]; [|reflexivity].
    cbn [Js.bind].
    destruct (get event "created_at") as [created|e]; [|reflexivity].
    cbn [Js.bind].
    destruct (get repo "name") as [name|e]; [|reflexivity]. cbn [Js.bind].
    destruct (formatDate created (dateFormat c')) as [ts|e]; [|reflexivity].
    cbn [Js.bind].
    destruct (to_string type) as [key|e]; [|reflexivity]. cbn [Js.bind].
    assert (Hdetails : details_of type payload = Ok EmptyString).
    { apply details_outside_rows. intros t ->.
      destruct event as [| | | |s|items|props]; cbn in Hty; try discriminate.
      injection Hty as Hty. now apply (Hout props). }
    rewrite Hdetails. now destruct (detailedView c), (detailedView c').
Qed.

(** The theorem on a star, shown with and without the detailed view. *)
Lemma formatEvent_reads_of_config_witness :
  let star := Sample.event "WatchEvent" "r" (VObj [])
                (VStr "2024-01-01T00:00:00Z") in
  formatEvent (H := Reference.host) star defaultConfig
  = formatEvent (H := Reference.host) star
      {| colors := true; dateFormat := "local"; detailedView := false;
         eventsPerPage := NaN; outputDir := "elsewhere" |}.
Proof.
  cbv zeta.
  refine (proj2 (formatEvent_reads_of_config (H := Reference.host)
                   _ _ _ eq_refl eq_refl) _).
  intros props t Hev Hty. unfold Sample.event in Hev.
  injection Hev as <-. cbn in Hty.
  injection Hty as <-. cbn. intuition discriminate.
Defined.

(** X8.  Without the detailed view and with a date format other than
    iso, [formatEvent] returns a line for every printable event whose
    type is a string, whose [repo] and [payload] are present and whose
    [payload.action] is a string or falsy, whatever [created_at] is.
    The line is the bracketed timestamp, the icon of the type, the title
    and a trailing space; with colours on, the timestamp is wrapped in
    bright and reset and the line in the colour of the type and reset. *)
Theorem formatEvent_line `{Host}
    (props : list (string * value)) (config : Config) (t : string) :
  printable (VObj props) = true ->
  lookup "type" props = VStr t ->
  nullish (lookup "repo" props) = false ->
  nullish (lookup "payload" props) = false ->
  string_or_falsy (prop (lookup "payload" props) "action") = true ->
  detailedView config = false -> dateFormat config <> "iso" ->
  exists ts title,
    formatDate (lookup "created_at" props) (dateFormat config) = Ok ts /\
    formatEventTitle (VObj props) = Ok title /\
    formatEvent (VObj props) config
    = Ok (if colors config
          then show (color (settings_for t)) +:+
               ((Ansi.bright +:+ ("[" +:+ ts +:+ "]") +:+ Ansi.reset) +:+
                " " +:+ show (icon (settings_for t)) +:+ " " +:+
                title +:+ " ") +:+
               Ansi.reset
          else "[" +:+ ts +:+ "] " +:+ show (icon (settings_for t)) +:+
               " " +:+ title +:+ " ").
Proof.
  intros Hp Hty Hrepo Hpay Haction Hdet Hfmt.
  pose proof (title_returns props Hp Hrepo Hpay Haction) as Htitle.
  destruct (formatEventTitle (VObj props)) as [title|] eqn:Et;
    [clear Htitle|discriminate].
  assert (Hc : printable (lookup "created_at" props) = true)
    by apply (printable_prop (VObj props) "created_at" Hp).
  destruct (new_Date_returns _ Hc) as [d Hd].
  exists (toLocaleString d), title.
  assert (Hdate : formatDate (lookup "created_at" props) (dateFormat config)
                  = Ok (toLocaleString d)).
  { unfold formatDate. rewrite Hd. cbn [Js.bind].
    destruct (String.eqb_spec (dateFormat config) "iso");
      [contradiction|reflexivity]. }
  split; [exact Hdate|]. split; [reflexivity|].
  unfold formatEvent. cbn [destructure get Js.bind].
  rewrite (get_ok _ _ Hrepo). cbn [Js.bind].
  rewrite Hdate, Hty, Hdet, Et. cbn [Js.bind to_string].
  destruct (colors config); f_equal;
    rewrite ?ReferenceFacts.append_assoc; reflexivity.
Qed.

(** The theorem on the sample issue, which has no number, shown by the
    reference host without colours and details. *)
Lemma formatEvent_line_witness :
  exists ts title,
    formatDate (H := Reference.host) (VStr "2024-01-01T00:00:00Z") "local"
      = Ok ts /\
    formatEventTitle Sample.bare_issue = Ok title /\
    formatEvent (H := Reference.host) Sample.bare_issue
      {| colors := false; dateFormat := "local"; detailedView := false;
         eventsPerPage := Num 30; outputDir := "./github-activity-logs" |}
    = Ok ("[" +:+ ts +:+ "] " +:+ show (icon (settings_for "IssuesEvent"))
          +:+ " " +:+ title +:+ " ").
Proof.
  apply (formatEvent_line (H := Reference.host)
           [("type", VStr "IssuesEvent"); ("repo", VObj [("name", VStr "r")]);
            ("payload", VObj [("action", VStr "opened")]);
            ("created_at", VStr "2024-01-01T00:00:00Z")]
           {| colors := false; dateFormat := "local"; detailedView := false;
              eventsPerPage := Num 30;
              outputDir := "./github-activity-logs" |} "IssuesEvent");
    (reflexivity || discriminate).
Defined.

Lemma substring_prefix (n : nat) (s : string) :
  exists rest, s = String.substring 0 n s +:+ rest /\
               String.length (String.substring 0 n s)
               = Nat.min n (String.length s).
Proof.
  revert n. induction s as [|c s IH]; intros [|n].
  - now exists EmptyString.
  - now exists EmptyString.
  - now exists (String c s).
  - destruct (IH n) as [rest [E L]]. exists rest. cbn [String.substring].
    split; [change (String c s = String c (String.substring 0 n s +:+ rest));
            now f_equal|].
    cbn [String.length Nat.min]. now rewrite L.
Qed.

Lemma split_first (sep : ascii) (s : string) :
  exists first rest,
    Str.split sep s = first :: rest /\ Str.lacks sep first = true /\
    (s = first \/ exists tl, s = first +:+ String sep tl).
Proof.
  induction s as [|c s IH].
  - exists EmptyString, []. cbn. auto.
  - destruct IH as [first [rest [E [L D]]]]. cbn [Str.split].
    destruct (Ascii.eqb_spec c sep) as [->|Hne].
    + exists EmptyString, (Str.split sep s). split; [reflexivity|].
      split; [reflexivity|]. right. now exists s.
    + rewrite E. exists (String c first), rest. split; [reflexivity|].
      split.
      * cbn [Str.lacks]. rewrite L.
        destruct (Ascii.eqb_spec sep c); [congruence|reflexivity].
      * destruct D as [->|[tl ->]]; [now left|right]. now exists tl.
Qed.

(** X9.  The line of a commit in the detail block of a push: the sha is
    cut to its first seven characters (or kept when shorter), and of the
    message only the first line is shown, so the line of a commit never
    spreads over more than one line. *)
Theorem commit_line_short (c : list (string * value)) (sha message : string) :
  lookup "sha" c = VStr sha -> lookup "message" c = VStr message ->
  exists short first,
    commit_line (VObj c)
      = Ok (nl +:+ "    - " +:+ short +:+ " " +:+ first) /\
    (exists rest, sha = short +:+ rest) /\
    String.length short = Nat.min 7 (String.length sha) /\
    Str.lacks Str.lf first = true /\
    (message = first \/ exists more, message = first +:+ nl +:+ more).
Proof.
  intros Hsha Hmsg.
  destruct (substring_prefix 7 sha) as [rest [Esha Lsha]].
  destruct (split_first Str.lf message) as [first [others [E [L D]]]].
  exists (Str.slice_to 7 sha), first.
  split; [|split; [now exists rest|split; [exact Lsha|split; [exact L|]]]].
  - unfold commit_line. cbn [get Js.bind]. rewrite Hsha, Hmsg.
    cbn [slice_to first_line Js.bind to_string]. now rewrite E.
  - destruct D as [->|[more ->]]; [now left|right]. now exists more.
Qed.

(** The theorem on a commit with a long sha and a message of two
    lines. *)
Lemma commit_line_short_witness :
  exists short first,
    commit_line (VObj [("sha", VStr "0123456789abcdef");
                       ("message", VStr ("fix" +:+ nl +:+ "details"))])
      = Ok (nl +:+ "    - " +:+ short +:+ " " +:+ first) /\
    (exists rest, "0123456789abcdef" = short +:+ rest) /\
    String.length short = Nat.min 7 (String.length "0123456789abcdef") /\
    Str.lacks Str.lf first = true /\
    ("fix" +:+ nl +:+ "details" = first \/
     exists more, "fix" +:+ nl +:+ "details" = first +:+ nl +:+ more).
Proof.
  apply (commit_line_short
           [("sha", VStr "0123456789abcdef");
            ("message", VStr ("fix" +:+ nl +:+ "details"))]);
    reflexivity.
Defined.

End ShapeFacts.

(** ** Numerals read by [parseInt] *)

Module NumeralFacts.
Import Numeral.

Lemma digits_numeral (d : Decimal.uint) :
  digits 10 (NilEmpty.string_of_uint d) = uint_digits d.
Proof.
  induction d; cbn [NilEmpty.string_of_uint uint_digits digits];
    [reflexivity|..];
    match goal with
    | |- context [digit_val 10 ?c] =>
        let v := eval vm_compute in (digit_val 10 c) in
        change (digit_val 10 c) with v
    end; now rewrite IHd.
Qed.

Lemma digits_value_acc (d : Decimal.uint) (acc : positive) :
  fold_left (fun a k => a * 10 + k) (uint_digits d) (Z.pos acc)
  = Z.pos (Pos.of_uint_acc d acc).
Proof.
  revert acc. induction d; intros acc;
    cbn [uint_digits fold_left Pos.of_uint_acc]; [reflexivity|..];
    match goal with
    | |- fold_left _ _ ?z = Z.pos (Pos.of_uint_acc _ ?p) =>
        replace z with (Z.pos p) by lia
    end; apply IHd.
Qed.

Lemma digits_value_numeral (d : Decimal.uint) :
  digits_value 10 (uint_digits d) = Z.of_N (Pos.of_uint d).
Proof.
  unfold digits_value.
  induction d; cbn [uint_digits fold_left Pos.of_uint]; [reflexivity|..];
    try exact IHd;
    match goal with
    | |- fold_left _ _ ?z = Z.of_N (N.pos (Pos.of_uint_acc _ ?p)) =>
        change z with (Z.pos p)
    end; apply digits_value_acc.
Qed.

Ltac eval_char_tests :=
  repeat match goal with
  | |- context [Str.is_ws ?c] =>
      let v := eval vm_compute in (Str.is_ws c) in
      change (Str.is_ws c) with v
  | |- context [digit_val ?r ?c] =>
      let v := eval vm_compute in (digit_val r c) in
      change (digit_val r c) with v
  end.

Lemma parseInt_unsigned (d : Decimal.uint) :
  d <> Decimal.Nil ->
  parseInt (NilEmpty.string_of_uint d) = Num (Z.of_N (Pos.of_uint d)) /\
  parseInt (String "-" (NilEmpty.string_of_uint d))
  = Num (- Z.of_N (Pos.of_uint d)).
Proof.
  intros Hd. rewrite <- digits_value_numeral.
  assert (Hdigits : forall d', digits 10 (NilEmpty.string_of_uint d')
                               = uint_digits d') by apply digits_numeral.
  destruct d as [|d|d|d|d|d|d|d|d|d|d]; [contradiction|..].
  2-10: split; unfold parseInt;
    cbn [NilEmpty.string_of_uint Str.trimStart uint_digits digits];
    eval_char_tests; cbn [digits]; eval_char_tests; rewrite Hdigits;
    reflexivity.
  destruct d; split; unfold parseInt;
    cbn [NilEmpty.string_of_uint Str.trimStart uint_digits digits];
    eval_char_tests; cbn [digits]; eval_char_tests; cbn [digits];
    eval_char_tests; rewrite ?Hdigits; reflexivity.
Qed.

(** [parseInt] reads the decimal numeral of every integer back. *)
Lemma parseInt_of_Z (n : Z) : parseInt (Str.of_Z n) = Num n.
Proof.
  rewrite <- (DecimalZ.of_to n) at 2. unfold Str.of_Z.
  destruct n as [|p|p]; [reflexivity|..]; cbn [Z.to_int];
    pose proof (DecimalPos.Unsigned.to_uint_nonnil p) as Hnil;
    destruct (parseInt_unsigned _ Hnil) as [Hpos Hneg];
    unfold NilZero.string_of_int, NilZero.string_of_uint, Z.of_int, Z.of_uint;
    destruct (Pos.to_uint p) eqn:E; try contradiction;
    first [exact Hpos | exact Hneg].
Qed.

Lemma of_Z_not_blank (n : Z) :
  exists c s, Str.of_Z n = String c s /\ Str.is_ws c = false.
Proof.
  unfold Str.of_Z.
  destruct n as [|p|p]; [now exists "0"%char, EmptyString|..]; cbn [Z.to_int];
    pose proof (DecimalPos.Unsigned.to_uint_nonnil p) as Hnil;
    unfold NilZero.string_of_int, NilZero.string_of_uint;
    destruct (Pos.to_uint p); try contradiction; cbn; eauto.
Qed.

Lemma trim_not_blank (c : ascii) (s : string) :
  Str.is_ws c = false -> Str.trim (String c s) <> EmptyString.
Proof.
  intros Hc. unfold Str.trim. cbn [Str.trimStart]. rewrite Hc.
  cbn [Str.trimEnd]. rewrite Hc. now destruct (Str.trimEnd s).
Qed.

End NumeralFacts.

(** ** The fetcher and the one-shot helper *)

Module FetchFacts.
Import Fetcher Shape.

#[local] Arguments String.append !s1%_string s2%_string.


(** X10.  The warning about the rate limit: when the answer has status
    200 and the header [x-ratelimit-remaining] holds the decimal numeral
    of an integer [n], one warning is written if [n] is below 10 and
    none otherwise; no warning is written without the header or for
    another status. *)
Theorem warnings_threshold (headers : gmap string string) (n : Z) :
  (headers !! "x-ratelimit-remaining" = Some (Str.of_Z n) ->
   warnings 200 headers
   = if n <? 10
     then ["Warning: " +:+ Str.of_Z n +:+ " API requests remaining"]
     else []) /\
  (headers !! "x-ratelimit-remaining" = None -> warnings 200 headers = []) /\
  (forall statusCode, statusCode <> 200 -> warnings statusCode headers = []).
Proof.
  split; [|split].
  - intros Hh. unfold warnings. cbn [Z.eqb Pos.eqb]. rewrite Hh.
    rewrite NumeralFacts.parseInt_of_Z. cbn [below].
    destruct (NumeralFacts.of_Z_not_blank n) as [c [s [E _]]].
    rewrite E at 1. cbn [String.eqb negb andb]. reflexivity.
  - intros Hh. unfold warnings. cbn [Z.eqb Pos.eqb]. now rewrite Hh.
  - intros code Hcode. unfold warnings.
    destruct (Z.eqb_spec code 200); [contradiction|reflexivity].
Qed.



Lemma of_repo_cons (k : string) (e : value) (l : list value) (s : string) :
  named e = Some s ->
  of_repo k (e :: l) = if String.eqb s k then e :: of_repo k l
                       else of_repo k l.
Proof. intros Hn. unfold of_repo. cbn [List.filter]. now rewrite Hn. Qed.

Lemma group_step_named (acc : gmap string (list value)) (e : value)
    (s : string) :
  named e = Some s -> inherited s = false ->
  group_step acc e = Ok (<[s := default [] (acc !! s) ++ [e]]> acc).
Proof.
  intros Hn Hs. unfold named in Hn. unfold group_step.
  destruct e as [| | | | | |props]; try discriminate.
  cbn [get Js.bind].
  destruct (lookup "repo" props) as [| | | | | |rprops]; try discriminate.
  cbn [get Js.bind].
  destruct (lookup "name" rprops) as [| | | |name| |]; try discriminate.
  injection Hn as ->. cbn [to_string Js.bind]. now rewrite Hs.
Qed.

Lemma reduce_groups (items : list value) :
  (forall e, In e items ->
     exists s, named e = Some s /\ inherited s = false) ->
  forall acc, exists m,
    reduce items acc = Ok m /\
    forall k, m !! k = match of_repo k items with
                       | [] => acc !! k
                       | l => Some (default [] (acc !! k) ++ l)
                       end.
Proof.
  induction items as [|e l IH]; intros Hall acc.
  - exists acc. split; reflexivity.
  - destruct (Hall e (or_introl eq_refl)) as [s [Hn Hs]].
    destruct (IH (fun x Hx => Hall x (or_intror Hx))
                 (<[s := default [] (acc !! s) ++ [e]]> acc)) as [m [Hm Hk]].
    exists m. cbn [reduce]. rewrite (group_step_named _ _ _ Hn Hs).
    cbn [Js.bind]. split; [exact Hm|].
    intros k. rewrite Hk, (of_repo_cons _ _ _ _ Hn).
    destruct (String.eqb_spec s k) as [->|Hne].
    + rewrite lookup_insert_eq.
      destruct (of_repo k l); [reflexivity|].
      f_equal. simpl. now rewrite <- app_assoc.
    + now rewrite lookup_insert_ne.
Qed.

(** X12.  [getUserActivity] groups the events of the first page by the
    name of their repository: when the answer is a page of events that
    each have a repository name (no name being one that every object
    inherits), the promise resolves with the username and an object
    that has, for each name, the events of that name in the order of
    the page, and no other property. *)
Theorem getUserActivity_groups `{Host} (https_get : string -> http_outcome)
    (user : string) (headers : gmap string string) (chunks : list string)
    (items : list value) :
  https_get (request_path user 1 (Num 30)) = Response 200 headers chunks ->
  JSON_parse (body_of chunks) = Some (VArr items) ->
  (forall e, In e items ->
     exists s, named e = Some s /\ inherited s = false) ->
  exists m,
    getUserActivity https_get user
      = Ok (Some {| username := user; repos := m |}) /\
    forall k, m !! k = match of_repo k items with
                       | [] => None
                       | l => Some l
                       end.
Proof.
  intros Hget Hparse Hall.
  destruct (reduce_groups items Hall ∅) as [m [Hm Hk]].
  exists m. split.
  - unfold getUserActivity, fetchGitHubActivity. rewrite Hget.
    cbn [snd settle Z.eqb Pos.eqb]. rewrite Hparse.
    cbn [Js.bind group_by_repo]. rewrite Hm. reflexivity.
  - intros k. rewrite Hk, lookup_empty. reflexivity.
Qed.

(** The theorem on the answer of the repository's test, read by the
    reference host: one group, named test-repo, with the one event. *)
Lemma getUserActivity_groups_witness :
  exists m,
    getUserActivity (H := Reference.host) Sample.test_network "octocat"
      = Ok (Some {| username := "octocat"; repos := m |}) /\
    m !! "test-repo" = Some [Sample.test_event] /\
    m !! "other" = None.
Proof.
  destruct (getUserActivity_groups (H := Reference.host) Sample.test_network
              "octocat" ∅
              [Reference.print 0 (VArr [Sample.test_event])]
              [Sample.test_event]) as [m [E Hk]].
  - vm_compute. reflexivity.
  - vm_compute. reflexivity.
  - intros e [<-|[]]. exists "test-repo". split; reflexivity.
  - exists m. split; [exact E|]. split; rewrite Hk; reflexivity.
Defined.

End FetchFacts.

(** ** The exporter *)

Module SaveFacts.
Import Exporter.


Lemma dashes_char (c : ascii) :
  let d := if Ascii.eqb c ":" || Ascii.eqb c "." then "-"%char else c in
  Ascii.eqb ":" d = false /\ Ascii.eqb "." d = false /\
  (if Ascii.eqb d ":" || Ascii.eqb d "." then "-"%char else d) = d.
Proof. destruct c as [[] [] [] [] [] [] [] []]; repeat split. Qed.

(** X14.  The timestamp in the name of the file: replacing the colons
    and dots of the ISO timestamp leaves no colon and no dot, keeps the
    length, changes no other character, and changes nothing when done
    again. *)
Theorem dashes_replaces_all (s : string) :
  Str.lacks ":" (dashes s) = true /\
  Str.lacks "." (dashes s) = true /\
  String.length (dashes s) = String.length s /\
  dashes (dashes s) = dashes s /\
  (Str.lacks ":" s = true -> Str.lacks "." s = true -> dashes s = s).
Proof.
  unfold dashes.
  induction s as [|c s (IH1 & IH2 & IH3 & IH4 & IH5)];
    [repeat split|].
  cbn [Str.map_chars Str.lacks String.length].
  destruct (dashes_char c) as (H1 & H2 & H3). cbv zeta in H1, H2, H3.
  rewrite H1, H2, H3, IH1, IH2, IH3, IH4.
  split; [reflexivity|]. split; [reflexivity|]. split; [reflexivity|].
  split; [reflexivity|].
  intros Hc Hd. apply andb_true_iff in Hc as [Hc Hs1].
  apply andb_true_iff in Hd as [Hd Hs2]. rewrite (IH5 Hs1 Hs2).
  apply negb_true_iff in Hc, Hd.
  rewrite Ascii.eqb_sym in Hc. rewrite Ascii.eqb_sym in Hd.
  now rewrite Hc, Hd.
Qed.

End SaveFacts.

(** ** Reconfiguration, answer by answer *)

Module AnswerFacts.
Import Configure.

(** X15.  Answering the question about the events per page with the
    decimal numeral of an integer stores that integer, raised to 10 when
    it is below and lowered to 100 when it is above; no other field
    changes. *)
Theorem eventsPerPage_numeral_clamped (n : Z) (c : Config) :
  store eventsPerPage_key (Str.of_Z n) c
  = set_eventsPerPage (Num (Z.min 100 (Z.max 10 n))) c /\
  (10 <= n <= 100 ->
   store eventsPerPage_key (Str.of_Z n) c = set_eventsPerPage (Num n) c) /\
  (n < 10 ->
   store eventsPerPage_key (Str.of_Z n) c = set_eventsPerPage (Num 10) c) /\
  (100 < n ->
   store eventsPerPage_key (Str.of_Z n) c = set_eventsPerPage (Num 100) c).
Proof.
  assert (E : store eventsPerPage_key (Str.of_Z n) c
              = set_eventsPerPage (Num (Z.min 100 (Z.max 10 n))) c).
  { unfold store.
    destruct (NumeralFacts.of_Z_not_blank n) as [ch [s [E Hws]]].
    pose proof (NumeralFacts.trim_not_blank ch s Hws) as Hnb.
    rewrite <- E in Hnb.
    destruct (String.eqb_spec (Str.trim (Str.of_Z n)) EmptyString);
      [contradiction|].
    cbn [negb]. now rewrite NumeralFacts.parseInt_of_Z. }
  split; [exact E|]. rewrite E.
  repeat split; intros Hn; do 2 f_equal; lia.
Qed.

Lemma store_keeps_outputDir (key : Key) (answer : string) (c : Config) :
  outputDir (store key answer c) = outputDir c.
Proof.
  unfold store.
  destruct (negb (String.eqb (Str.trim answer) EmptyString)); [|reflexivity].
  now destruct key.
Qed.


Lemma bind_log {A} (line : string) (k : unit -> IO A) (w : World) :
  IO.bind (log line) k w = k tt (with_console (fun c => c ++ [line]) w).
Proof. reflexivity. Qed.

Lemma bind_log_all {A} (lines : list string) (k : unit -> IO A) (w : World) :
  IO.bind (log_all lines) k w
  = k tt (with_console (fun c => c ++ lines) w).
Proof.
  revert w. induction lines as [|l rest IH]; intros w.
  - unfold IO.bind. cbn [log_all ret]. f_equal.
    destruct w. unfold with_console. cbn. now rewrite app_nil_r.
  - cbn [log_all]. unfold IO.bind at 1. rewrite bind_log.
    specialize (IH (with_console (fun c => c ++ [l]) w)).
    unfold IO.bind at 1 in IH. 
    destruct (log_all rest (with_console (fun c => c ++ [l]) w))
      as [[] w1|e w1|code w1|w1] eqn:Hrest.
    + rewrite IH. f_equal. destruct w. unfold with_console. cbn.
      now rewrite <- app_assoc.
    + exfalso. clear IH. revert Hrest.
      generalize (with_console (fun c => c ++ [l]) w).
      induction rest as [|x r IHr]; intros w0; [discriminate|].
      cbn [log_all]. rewrite bind_log. apply IHr.
    + exfalso. clear IH. revert Hrest.
      generalize (with_console (fun c => c ++ [l]) w).
      induction rest as [|x r IHr]; intros w0; [discriminate|].
      cbn [log_all]. rewrite bind_log. apply IHr.
    + exfalso. clear IH. revert Hrest.
      generalize (with_console (fun c => c ++ [l]) w).
      induction rest as [|x r IHr]; intros w0; [discriminate|].
      cbn [log_all]. rewrite bind_log. apply IHr.
Qed.

Lemma bind_question {A} (q : string) (k : string -> IO A) (w : World)
    (answer : string) (rest : list string) :
  stdin w = answer :: rest ->
  IO.bind (question q) k w
  = k answer (with_stdin rest (with_console (fun c => c ++ [q]) w)).
Proof. intros Hin. unfold IO.bind, question. now rewrite Hin. Qed.







End AnswerFacts.

(** ** The session as a whole *)

Module TraceFacts.
Import Trace Controller.

Lemma extends_refl (w : World) : extends w w.
Proof.
  split; auto; [exists []; now rewrite app_nil_r|now exists []].
Qed.

Lemma extends_trans (a b c : World) : extends a b -> extends b c -> extends a c.
Proof.
  intros [[l1 C1] [i1 I1] F1 S1 K1 N1 M1 W1]
         [[l2 C2] [i2 I2] F2 S2 K2 N2 M2 W2].
  split; try congruence; auto.
  - exists (l1 ++ l2). now rewrite C2, C1, app_assoc.
  - exists (i1 ++ i2). now rewrite I1, I2, app_assoc.
  - lia.
Qed.

Lemma last_line_snoc (l : list string) (x : string) (w : World) :
  console w = l ++ [x] -> last_line w = Some x.
Proof.
  intros E. unfold last_line. rewrite E, map_app. cbn [map].
  apply last_last.
Qed.

Lemma extends_console (f : list string) (w : World) :
  extends w (with_console (fun c => c ++ f) w).
Proof.
  split; cbn; auto; [now exists f|now exists []].
Qed.

Section Obeys.
Variable E : Z -> World -> Prop.

Lemma obeys_ret {A} (a : A) : obeys E (ret a).
Proof. intros w. split; [apply extends_refl|discriminate]. Qed.

Lemma obeys_lift {A} (r : result A) : obeys E (lift r).
Proof.
  intros w. unfold lift.
  destruct r; (split; [apply extends_refl|discriminate]).
Qed.

Lemma obeys_log (line : string) : obeys E (log line).
Proof. intros w. split; [apply extends_console|discriminate]. Qed.

Lemma obeys_question (prompt : string) : obeys E (question prompt).
Proof.
  intros w. unfold question.
  destruct (stdin w) as [|answer rest] eqn:Hin.
  - split; [apply extends_console|discriminate].
  - split; [|discriminate]. cbn [final].
    split; cbn; auto; [now exists [prompt]|].
    exists [answer]. now rewrite Hin.
Qed.

Lemma obeys_bind {A B} (m : IO A) (k : A -> IO B) :
  obeys E m -> (forall a, obeys E (k a)) -> obeys E (IO.bind m k).
Proof.
  intros Hm Hk w. unfold IO.bind.
  destruct (Hm w) as [Hext Hexit].
  destruct (m w) as [a w1|e w1|code w1|w1] eqn:Hw; cbn [final] in Hext.
  - destruct (Hk a w1) as [Hext' Hexit']. split.
    + now apply extends_trans with w1.
    + exact Hexit'.
  - split; [exact Hext|discriminate].
  - split; [exact Hext|]. intros c w' [= <- <-]. now apply Hexit.
  - split; [exact Hext|discriminate].
Qed.

Lemma obeys_after {A} (f : World -> World) (m : IO A) :
  (forall w, extends w (f w)) -> obeys E m -> obeys E (fun w => m (f w)).
Proof.
  intros Hf Hm w. destruct (Hm (f w)) as [Hext Hexit].
  split; [|exact Hexit]. apply extends_trans with (f w); auto.
Qed.

Lemma obeys_log_all (lines : list string) : obeys E (log_all lines).
Proof.
  induction lines as [|l rest IH]; cbn [log_all]; [apply obeys_ret|].
  apply obeys_bind; [apply obeys_log|auto].
Qed.

Section WithHost.
Context `{Host}.

Lemma obeys_fetch (user : string) (page : Z) (perPage : number) :
  obeys E (fetch user page perPage).
Proof.
  intros w. unfold fetch.
  destruct (Fetcher.fetchGitHubActivity (network w (sent w)) user page perPage)
    as [warns r].
  assert (Hm : obeys E (IO.bind (log_all warns) (fun _ => lift r)))
    by (apply obeys_bind; [apply obeys_log_all|intros; apply obeys_lift]).
  destruct (Hm (with_sent (S (sent w)) w)) as [Hext Hexit].
  split; [|exact Hexit].
  apply extends_trans with (with_sent (S (sent w)) w); [|exact Hext].
  split; cbn; auto; [exists []; now rewrite app_nil_r|now exists []].
Qed.

Lemma obeys_saveToFile (events : value) (user : string) (c : Config) :
  obeys E (Exporter.saveToFile events user c).
Proof.
  intros w. unfold Exporter.saveToFile, Exporter.save_failure.
  destruct (mkdir_error w (outputDir c)); [apply obeys_lift|].
  destruct (Exporter.stringify events) as [text|]; [|apply obeys_lift].
  destruct (writeFile_error w _); [apply obeys_lift|].
  split; [|discriminate]. cbn [log final].
  split; cbn; auto; [eexists; reflexivity|now exists []|].
  intros p Hp. apply lookup_insert_is_Some.
  destruct (decide (Exporter.filepath_at (clock w) user c = p)); auto.
Qed.

Lemma obeys_render (events : list value) (c : Config) :
  obeys E (render events c).
Proof.
  induction events as [|e rest IH]; cbn [render]; [apply obeys_ret|].
  apply obeys_bind; [apply obeys_lift|intros line].
  apply obeys_bind; [apply obeys_log|auto].
Qed.

Lemma obeys_list_types (types : list value) :
  forall i, obeys E (list_types i types).
Proof.
  induction types as [|t rest IH]; intros i; cbn [list_types];
    [apply obeys_ret|].
  apply obeys_bind; [apply obeys_lift|intros s].
  apply obeys_bind; [apply obeys_log|auto].
Qed.

Lemma obeys_ask (qs : list (Configure.Key * string)) :
  forall c, obeys E (Configure.ask qs c).
Proof.
  induction qs as [|[key q] rest IH]; intros c; cbn [Configure.ask];
    [apply obeys_ret|].
  apply obeys_bind; [apply obeys_question|auto].
Qed.

End WithHost.
End Obeys.

Create HintDb obeys.
#[local] Hint Resolve obeys_ret obeys_lift obeys_log obeys_question
  obeys_log_all obeys_fetch obeys_saveToFile obeys_render obeys_list_types
  obeys_ask : obeys.

Ltac obey :=
  repeat first
    [ apply obeys_bind; [|intros ?]
    | solve [auto with obeys]
    | match goal with
      | |- obeys _ (if ?b then _ else _) => destruct b
      | |- obeys _ (match ?x with _ => _ end) => destruct x
      end ].

Section Session.
Context `{Host}.

Lemma obeys_filter_menu (E : Z -> World -> Prop) (s : Session) :
  obeys E (filter_menu s).
Proof. unfold filter_menu, showFilterMenu. obey. Qed.

Lemma obeys_configureDisplay (E : Z -> World -> Prop) (c : Config) :
  obeys E (Configure.configureDisplay c).
Proof. unfold Configure.configureDisplay. obey. Qed.

Lemma obeys_farewell {A} :
  obeys goodbye (IO.bind (log "Goodbye!") (fun _ => @exit A 0)).
Proof.
  intros w. unfold IO.bind, log, exit. cbn [final]. split.
  - apply extends_console.
  - intros code w' [= <- <-]. split; [reflexivity|].
    now apply (last_line_snoc (console w)).
Qed.

Lemma obeys_dispatch (user choice : string) (s : Session) :
  obeys goodbye (dispatch user choice s).
Proof.
  unfold dispatch.
  destruct (String.eqb choice "1"); [obey|].
  destruct (String.eqb choice "2"); [apply obeys_filter_menu|].
  destruct (String.eqb choice "3"); [obey|].
  destruct (String.eqb choice "4"); [obey|].
  destruct (String.eqb choice "5");
    [apply obeys_bind; [apply obeys_configureDisplay|intros; obey]|].
  destruct (String.eqb choice "6"); [apply obeys_farewell|obey].
Qed.

Lemma obeys_iteration (user : string) (s : Session) :
  obeys goodbye (iteration user s).
Proof.
  unfold iteration, showMenu.
  apply obeys_bind; [obey|intros empty].
  apply obeys_bind; [destruct empty; obey|intros s1].
  apply obeys_bind; [obey|intros filtered].
  apply obeys_bind; [obey|intros _].
  apply obeys_bind; [obey|intros choice].
  apply obeys_dispatch.
Qed.

Lemma obeys_loop (fuel : nat) (user : string) :
  forall s, obeys goodbye (loop fuel user s).
Proof.
  induction fuel as [|n IH]; intros s; cbn [loop]; [apply obeys_ret|].
  apply obeys_bind; [apply obeys_iteration|auto].
Qed.

(** X17.  Whatever is typed and whatever the network answers, a session
    only adds lines to the console, reads lines from the front of the
    terminal input, sends requests, and writes files: no file that
    existed is removed, and the clock, the network and the file system's
    errors are not touched. *)
Theorem main_extends_world (fuel : nat) (argv2 : option string) (w : World) :
  extends w (final (main fuel argv2 w)).
Proof.
  unfold main. destruct (Filter.active argv2) as [user|].
  - assert (Hbody : obeys goodbye
              (IO.bind (log (Ansi.bright +:+
                             "Fetching activity for GitHub user: " +:+ user
                             +:+ Ansi.reset))
                       (fun _ => loop fuel user initial)))
      by (apply obeys_bind; [apply obeys_log|intros; apply obeys_loop]).
    destruct (Hbody w) as [Hext _].
    destruct (IO.bind _ _ w) as [a w1|e w1|code w1|w1]; try exact Hext.
    cbn [final] in Hext. apply extends_trans with w1; [exact Hext|].
    apply extends_console.
  - assert (Husage : obeys (fun _ _ => True)
              (IO.bind (log_all [ "Usage: github-activity <username>";
                                  "Example: github-activity kamranahmedse" ])
                       (fun _ => @exit Session 1))).
    { apply obeys_bind; [apply obeys_log_all|intros _ w0].
      split; [apply extends_refl|trivial]. }
    apply Husage.
Qed.

(** X18.  [main] lets no exception escape, and the process ends with
    status 0 or 1 only: with 0 right after the farewell is written, and
    with 1 right after the usage or the message of the error that was
    caught is written. *)
Theorem main_exit_status (fuel : nat) (argv2 : option string) (w : World) :
  match main fuel argv2 w with
  | Thrown _ _ => False
  | Exited code w' =>
      (code = 0 /\ last_line w' = Some "Goodbye!") \/
      (code = 1 /\
       (last_line w' = Some "Example: github-activity kamranahmedse" \/
        exists msg, last_line w'
                    = Some (Ansi.red +:+ "Error: " +:+ msg +:+ Ansi.reset)))
  | Returned _ _ | Waiting _ => True
  end.
Proof.
  unfold main. destruct (Filter.active argv2) as [user|].
  - assert (Hbody : obeys goodbye
              (IO.bind (log (Ansi.bright +:+
                             "Fetching activity for GitHub user: " +:+ user
                             +:+ Ansi.reset))
                       (fun _ => loop fuel user initial)))
      by (apply obeys_bind; [apply obeys_log|intros; apply obeys_loop]).
    destruct (Hbody w) as [_ Hexit].
    destruct (IO.bind _ _ w) as [a w1|e w1|code w1|w1]; [trivial| | |trivial].
    + unfold IO.bind, log, exit. right. split; [reflexivity|right].
      exists (message e). now apply (last_line_snoc (console w1)).
    + left. now apply Hexit.
  - unfold IO.bind, log_all, IO.bind, log, ret, exit. cbn.
    right. split; [reflexivity|left].
    rewrite map_app. cbn [map]. apply last_last.
Qed.

Lemma returns_bind {A B} (m : IO A) (k : A -> IO B) (P : A -> Prop)
    (Q : B -> Prop) :
  returns m P -> (forall a, P a -> returns (k a) Q) ->
  returns (IO.bind m k) Q.
Proof.
  intros Hm Hk w b w'. unfold IO.bind.
  destruct (m w) as [a w1|e w1|code w1|w1] eqn:Hw; try discriminate.
  intros Hb. apply (Hk a (Hm _ _ _ Hw) w1 b w' Hb).
Qed.

Lemma returns_ret {A} (a : A) (P : A -> Prop) : P a -> returns (ret a) P.
Proof. intros Ha w b w' [= <- <-]. exact Ha. Qed.

Lemma returns_any {A} (m : IO A) : returns m (fun _ => True).
Proof. intros w a w' _. exact I. Qed.

Lemma returns_ask (qs : list (Configure.Key * string)) (dir : string) :
  forall c, outputDir c = dir ->
            returns (Configure.ask qs c) (fun c' => outputDir c' = dir).
Proof.
  induction qs as [|[key q] rest IH]; intros c Hc; cbn [Configure.ask].
  - now apply returns_ret.
  - apply returns_bind with (P := fun _ => True); [apply returns_any|].
    intros answer _. apply IH.
    now rewrite AnswerFacts.store_keeps_outputDir.
Qed.

Lemma advances_refl (s : Session) : advances 0 s s.
Proof. unfold advances. split; [reflexivity|lia]. Qed.

Lemma advances_trans (n m : Z) (a b c : Session) :
  advances n a b -> advances m b c -> advances (n + m) a c.
Proof. unfold advances. intros [D1 P1] [D2 P2]. split; [congruence|lia]. Qed.

Lemma advances_more (n m : Z) (a b : Session) :
  n <= m -> advances n a b -> advances m a b.
Proof. unfold advances. intros Hnm [D P]. split; [exact D|lia]. Qed.

Lemma returns_filter_menu (s : Session) :
  returns (filter_menu s) (advances 0 s).
Proof.
  unfold filter_menu.
  apply returns_bind with (P := fun _ => True); [apply returns_any|].
  intros choice _.
  repeat match goal with
  | |- returns (if ?b then _ else _) _ => destruct b
  | |- returns (match ?x with _ => _ end) _ => destruct x
  | |- returns (ret _) _ =>
      apply returns_ret; unfold advances; cbn; split; [reflexivity|lia]
  | |- returns (IO.bind _ _) _ =>
      apply returns_bind with (P := fun _ => True);
        [apply returns_any|intros ? _]
  end.
Qed.

Lemma returns_dispatch (user choice : string) (s : Session) :
  returns (dispatch user choice s) (advances 1 s).
Proof.
  unfold dispatch.
  destruct (String.eqb choice "1").
  { apply returns_bind with (P := fun _ => True); [apply returns_any|].
    intros events _. apply returns_ret. unfold advances. cbn.
    split; [reflexivity|lia]. }
  destruct (String.eqb choice "2").
  { intros w a w' Hr. apply advances_more with 0; [lia|].
    apply (returns_filter_menu s w a w' Hr). }
  destruct (String.eqb choice "3").
  { apply returns_ret. unfold advances. cbn. split; [reflexivity|lia]. }
  destruct (String.eqb choice "4").
  { apply returns_bind with (P := fun _ => True); [apply returns_any|].
    intros _ _. apply returns_ret. unfold advances. split; [reflexivity|lia]. }
  destruct (String.eqb choice "5").
  { apply returns_bind
      with (P := fun c => outputDir c = outputDir (config s)).
    - unfold Configure.configureDisplay.
      apply returns_bind with (P := fun _ => True); [apply returns_any|].
      intros _ _.
      apply returns_bind with (P := fun _ => True); [apply returns_any|].
      intros _ _. now apply returns_ask.
    - intros c Hc. apply returns_ret. unfold advances. cbn.
      split; [exact Hc|lia]. }
  destruct (String.eqb choice "6").
  { intros w a w' Hr. discriminate. }
  apply returns_bind with (P := fun _ => True); [apply returns_any|].
  intros _ _. apply returns_ret. unfold advances. split; [reflexivity|lia].
Qed.

Lemma returns_iteration (user : string) (s : Session) :
  returns (iteration user s) (advances 1 s).
Proof.
  unfold iteration.
  apply returns_bind with (P := fun _ => True); [apply returns_any|].
  intros empty _.
  apply returns_bind with (P := advances 0 s).
  { destruct empty; [|apply returns_ret, advances_refl].
    apply returns_bind with (P := fun _ => True); [apply returns_any|].
    intros events _. apply returns_ret. unfold advances. cbn.
    split; [reflexivity|lia]. }
  intros s1 Hs1.
  apply returns_bind with (P := fun _ => True); [apply returns_any|].
  intros filtered _.
  apply returns_bind with (P := fun _ => True); [apply returns_any|].
  intros _ _.
  apply returns_bind with (P := fun _ => True); [apply returns_any|].
  intros choice _ w a w' Hr.
  apply (advances_trans 0 1 s s1 a Hs1).
  apply (returns_dispatch user choice s1 w a w' Hr).
Qed.

Lemma returns_loop (fuel : nat) (user : string) :
  forall s, returns (loop fuel user s) (advances (Z.of_nat fuel) s).
Proof.
  induction fuel as [|n IH]; intros s; cbn [loop].
  - apply returns_ret, advances_refl.
  - apply returns_bind with (P := advances 1 s);
      [apply returns_iteration|].
    intros s1 Hs1 w a w' Hr.
    replace (Z.of_nat (S n)) with (1 + Z.of_nat n) by lia.
    apply (advances_trans 1 (Z.of_nat n) s s1 a Hs1).
    apply (IH s1 w a w' Hr).
Qed.

(** X19.  However many turns the loop takes, the session never changes
    its output directory (no answer to the configuration questions
    reaches it), and the page number never moves back and moves forward
    by at most one per turn. *)
Theorem loop_keeps_outputDir (fuel : nat) (user : string) (s : Session)
    (w : World) :
  match loop fuel user s w with
  | Returned s' _ =>
      outputDir (config s') = outputDir (config s) /\
      currentPage s <= currentPage s' <= currentPage s + Z.of_nat fuel
  | _ => True
  end.
Proof.
  destruct (loop fuel user s w) as [s' w'| | |] eqn:Hl; try exact I.
  apply (returns_loop fuel user s w s' w' Hl).
Qed.

(** X20.  When the first request of a session fails, [main] writes the
    banner, the warnings of the request and the message of the error in
    red, and the process ends with status 1: nothing is read from the
    terminal, one request is sent and no file is written. *)
Theorem main_first_fetch_fails (fuel : nat) (user : string) (w : World)
    (warns : list string) (e : exn) :
  user <> EmptyString ->
  Fetcher.fetchGitHubActivity (network w (sent w)) user 1 (Num 30)
    = (warns, Throw e) ->
  main (S fuel) (Some user) w
  = Exited 1
      (with_console
         (fun c => c ++ (Ansi.bright +:+ "Fetching activity for GitHub user: "
                         +:+ user +:+ Ansi.reset)
                       :: warns ++
                       [Ansi.red +:+ "Error: " +:+ message e +:+ Ansi.reset])
         (with_sent (S (sent w)) w)).
Proof.
  intros Huser Hfetch. unfold main, Filter.active.
  destruct (String.eqb_spec user EmptyString) as [E|_]; [contradiction|].
  rewrite AnswerFacts.bind_log. cbn [loop].
  assert (Hturn : forall w1 (k : Session -> IO Session),
            network w1 = network w -> sent w1 = sent w ->
            IO.bind (iteration user initial) k w1
            = Thrown e (with_console (fun c => c ++ warns)
                          (with_sent (S (sent w)) w1))).
  { intros w1 k Hnet Hsent. unfold iteration.
    unfold IO.bind at 1. unfold IO.bind at 1.
    change (lift (is_empty (currentEvents initial)) w1)
      with (Returned true w1).
    cbv beta iota. unfold IO.bind at 1. unfold IO.bind at 1.
    unfold fetch. rewrite Hnet, Hsent.
    change (eventsPerPage (config initial)) with (Num 30).
    change (currentPage initial) with 1.
    rewrite Hfetch. rewrite AnswerFacts.bind_log_all. reflexivity. }
  rewrite Hturn by reflexivity.
  rewrite AnswerFacts.bind_log. unfold exit. f_equal.
  destruct w. unfold with_console, with_sent. cbn.
  f_equal. rewrite <- !app_assoc. reflexivity.
Qed.

End Session.

(** The theorem on a user that the server does not know. *)
Lemma main_first_fetch_fails_witness :
  let w := Sample.world ["1"] (Response 404 ∅ []) in
  exists w',
    main (H := Reference.host) 3 (Some "nobody") w = Exited 1 w' /\
    stdin w' = ["1"] /\ sent w' = 1%nat /\
    Trace.last_line w'
    = Some (Ansi.red +:+ "Error: User 'nobody' not found" +:+ Ansi.reset).
Proof.
  intros w. eexists. split.
  - apply (main_first_fetch_fails (H := Reference.host) 2 "nobody" w []
             (Error "User 'nobody' not found")).
    + discriminate.
    + vm_compute. reflexivity.
  - vm_compute. repeat split.
Defined.

End TraceFacts.

(** ** The filter menu *)

Module MenuFacts.
Import Controller Shape.







(** X22.  Choosing a type by its number: the numeral of [n + 1] picks
    the type listed at position [n] (the list is numbered from 1); a
    number below 1 or above the length of the list, and an answer in
    which [parseInt] finds no number, pick nothing, which clears the
    type criterion. *)
Theorem pick_numeral (types : list value) :
  (forall n t, nth_error types n = Some t ->
     pick types (parseInt (Str.of_Z (Z.of_nat n + 1))) = t) /\
  (forall k, k < 1 \/ Z.of_nat (length types) < k ->
     criterion_of (pick types (parseInt (Str.of_Z k))) = None) /\
  (forall answer, parseInt answer = NaN ->
     criterion_of (pick types (parseInt answer)) = None).
Proof.
  split; [|split].
  - intros n t Hn. rewrite NumeralFacts.parseInt_of_Z. unfold pick.
    destruct (Z.leb_spec 1 (Z.of_nat n + 1)); [|lia].
    replace (Z.to_nat (Z.of_nat n + 1 - 1)) with n by lia.
    now apply nth_error_nth.
  - intros k Hk. rewrite NumeralFacts.parseInt_of_Z. unfold pick.
    destruct (Z.leb_spec 1 k); [|reflexivity].
    rewrite nth_overflow by lia. reflexivity.
  - intros answer ->. reflexivity.
Qed.

#[local] Arguments String.append !s1%_string s2%_string.




Section WithHost.
Context `{Host}.

Lemma bind_returned {A B} (m : IO A) (k : A -> IO B) (w w' : World) (a : A) :
  m w = Returned a w' -> IO.bind m k w = k a w'.
Proof. intros Hm. unfold IO.bind. now rewrite Hm. Qed.




End WithHost.



End MenuFacts.

(** ** Filters that narrow one another *)

Module NarrowFacts.
Import Filter FilterView Controller.

Lemma filter_twice {A} (p q : A -> bool) (l : list A) :
  List.filter q (List.filter p l) = List.filter (fun x => p x && q x) l.
Proof.
  induction l as [|x l IH]; cbn [List.filter]; [reflexivity|].
  destruct (p x); cbn [List.filter andb]; [|exact IH].
  destruct (q x); now rewrite IH.
Qed.

Lemma forallb_filter {A} (wf p : A -> bool) (l : list A) :
  forallb wf l = true -> forallb wf (List.filter p l) = true.
Proof.
  induction l as [|x l IH]; cbn [forallb List.filter]; [reflexivity|].
  intros Hl. apply andb_true_iff in Hl as [Hx Hl].
  destruct (p x); cbn [forallb]; [rewrite Hx|]; auto.
Qed.

Section WithHost.
Context `{Host}.

Lemma filterEvents_well_formed (events : list value) (c : Criteria) :
  forallb well_formed events = true ->
  filterEvents (VArr events) c = Ok (List.filter (passes c) events).
Proof.
  intros Hwf. unfold filterEvents, Method.Array_filter.
  apply FilterFacts.filterM_pure. intros e He.
  apply FilterFacts.keeps_well_formed.
  rewrite forallb_forall in Hwf. auto.
Qed.

Lemma filterEvents_then (events : list value) (c1 c2 : Criteria) :
  forallb well_formed events = true ->
  (let* once := filterEvents (VArr events) c1 in
   filterEvents (VArr once) c2)
  = Ok (List.filter (fun e => passes c1 e && passes c2 e) events).
Proof.
  intros Hwf. rewrite (filterEvents_well_formed _ c1 Hwf). cbn [Js.bind].
  rewrite filterEvents_well_formed by now apply forallb_filter.
  now rewrite filter_twice.
Qed.

Lemma passes_by_field (c : Criteria) (e : value) :
  passes c e
  = passes (set_type (type c) no_criteria) e &&
    passes (set_repo (repo c) no_criteria) e &&
    passes (set_dates (dateFrom c) (dateTo c) no_criteria) e.
Proof.
  unfold passes. cbn [type repo dateFrom dateTo set_type set_repo set_dates
                      no_criteria active].
  destruct (active (type c)), (active (repo c)), (active (dateFrom c)),
    (active (dateTo c));
    rewrite ?andb_true_r, ?andb_true_l, ?andb_assoc; reflexivity.
Qed.

(** X25.  On well-formed events, filters narrow one another: filtering
    by one criteria and then by another keeps the events that pass both,
    in either order; and filtering by a criteria is filtering by its
    type, then by its repository, then by its dates. *)
Theorem filterEvents_narrows (events : list value) (c1 c2 : Criteria) :
  forallb well_formed events = true ->
  (let* once := filterEvents (VArr events) c1 in
   filterEvents (VArr once) c2)
  = Ok (List.filter (fun e => passes c1 e && passes c2 e) events) /\
  (let* once := filterEvents (VArr events) c1 in
   filterEvents (VArr once) c2)
  = (let* once := filterEvents (VArr events) c2 in
     filterEvents (VArr once) c1) /\
  filterEvents (VArr events) c1
  = (let* typed :=
       filterEvents (VArr events) (set_type (type c1) no_criteria) in
     let* named :=
       filterEvents (VArr typed) (set_repo (repo c1) no_criteria) in
     filterEvents (VArr named)
       (set_dates (dateFrom c1) (dateTo c1) no_criteria)).
Proof.
  intros Hwf. split; [now apply filterEvents_then|split].
  - rewrite !filterEvents_then by exact Hwf. f_equal.
    apply filter_ext. intros e. apply andb_comm.
  - rewrite !filterEvents_well_formed by exact Hwf. cbn [Js.bind].
    rewrite filterEvents_well_formed by now apply forallb_filter.
    cbn [Js.bind].
    rewrite filterEvents_well_formed by now do 2 apply forallb_filter.
    rewrite !filter_twice. f_equal. apply filter_ext. intros e.
    rewrite (passes_by_field c1 e). symmetry. apply andb_assoc.
Qed.

End WithHost.

(** The theorem on the sample page: the stars, then the repositories
    named gadgets. *)
Lemma filterEvents_narrows_witness :
  let stars := set_type (Some "WatchEvent") no_criteria in
  let gadgets := set_repo (Some "gadgets") no_criteria in
  (let* once := filterEvents (H := Reference.host) (VArr Sample.events) stars in
   filterEvents (H := Reference.host) (VArr once) gadgets)
  = (let* once :=
       filterEvents (H := Reference.host) (VArr Sample.events) gadgets in
     filterEvents (H := Reference.host) (VArr once) stars).
Proof.
  intros stars gadgets.
  apply (filterEvents_narrows (H := Reference.host) Sample.events stars
           gadgets).
  vm_compute. reflexivity.
Defined.

End NarrowFacts.

(** ** The requests of a turn *)

Module RequestFacts.
Import Trace Controller.

Lemma quiet_ret {A} (a : A) : quiet (ret a).
Proof. intros w. reflexivity. Qed.

Lemma quiet_lift {A} (r : result A) : quiet (lift r).
Proof. intros w. unfold lift. now destruct r. Qed.

Lemma quiet_log (line : string) : quiet (log line).
Proof. intros w. reflexivity. Qed.

Lemma quiet_exit {A} (code : Z) : quiet (@exit A code).
Proof. intros w. reflexivity. Qed.

Lemma quiet_question (prompt : string) : quiet (question prompt).
Proof. intros w. unfold question. now destruct (stdin w). Qed.

Lemma quiet_bind {A B} (m : IO A) (k : A -> IO B) :
  quiet m -> (forall a, quiet (k a)) -> quiet (IO.bind m k).
Proof.
  intros Hm Hk w. unfold IO.bind. specialize (Hm w).
  destruct (m w) as [a w1|e w1|code w1|w1]; cbn [final] in Hm;
    try exact Hm.
  now rewrite Hk.
Qed.

Lemma quiet_log_all (lines : list string) : quiet (log_all lines).
Proof.
  induction lines as [|l rest IH]; cbn [log_all]; [apply quiet_ret|].
  apply quiet_bind; [apply quiet_log|auto].
Qed.

Lemma quiet_list_types (types : list value) :
  forall i, quiet (list_types i types).
Proof.
  induction types as [|t rest IH]; intros i; cbn [list_types];
    [apply quiet_ret|].
  apply quiet_bind; [apply quiet_lift|intros s].
  apply quiet_bind; [apply quiet_log|auto].
Qed.

Lemma quiet_ask (qs : list (Configure.Key * string)) :
  forall c, quiet (Configure.ask qs c).
Proof.
  induction qs as [|[key q] rest IH]; intros c; cbn [Configure.ask];
    [apply quiet_ret|].
  apply quiet_bind; [apply quiet_question|auto].
Qed.

Create HintDb quiet.
#[local] Hint Resolve quiet_ret quiet_lift quiet_log quiet_exit
  quiet_question quiet_log_all quiet_list_types quiet_ask : quiet.


Section WithHost.
Context `{Host}.



Lemma showMenu_reads (w : World) (answer : string) (rest : list string) :
  stdin w = answer :: rest ->
  showMenu w
  = Returned (Str.trim answer)
      (with_stdin rest (with_console (fun l => l ++ [menu_text]) w)).
Proof.
  intros Hin. unfold showMenu.
  now rewrite (AnswerFacts.bind_question _ _ _ answer rest) by exact Hin.
Qed.



Lemma fetch_returns (user : string) (page : Z) (perPage : number)
    (w : World) (warns : list string) (v : value) :
  Fetcher.fetchGitHubActivity (network w (sent w)) user page perPage
    = (warns, Ok v) ->
  fetch user page perPage w
  = Returned v (with_console (fun l => l ++ warns)
                  (with_sent (S (sent w)) w)).
Proof.
  intros Hfetch. unfold fetch. rewrite Hfetch.
  now rewrite AnswerFacts.bind_log_all.
Qed.

(** X27.  A page that is empty is fetched again at every turn: when the
    session holds an empty page, the turn first sends a request for the
    current page, and if the answer is empty again and the choice is 3,
    the session still holds an empty page afterwards, one request
    later. *)
Theorem iteration_fetches_empty_page (user : string) (s : Session)
    (w : World) (warns : list string) (answer : string)
    (rest : list string) :
  currentEvents s = VArr [] ->
  Fetcher.fetchGitHubActivity (network w (sent w)) user (currentPage s)
    (eventsPerPage (config s)) = (warns, Ok (VArr [])) ->
  stdin w = answer :: rest -> Str.trim answer = "3" ->
  exists w',
    iteration user s w = Returned (set_criteria no_criteria s) w' /\
    sent w' = S (sent w) /\ stdin w' = rest /\
    currentEvents (set_criteria no_criteria s) = VArr [].
Proof.
  intros Hpage Hfetch Hin Hchoice. eexists.
  split; [|split; [|split; [|exact Hpage]]].
  - unfold iteration. unfold IO.bind at 1. rewrite Hpage.
    change (lift (is_empty (VArr [])) w) with (Returned true w).
    cbv beta iota.
    unfold IO.bind at 1.
    rewrite (MenuFacts.bind_returned _ _ w _ _
               (fetch_returns _ _ _ _ _ _ Hfetch)).
    unfold ret at 1. cbv beta iota.
    assert (Hsame : set_page_events (currentPage s) (VArr []) s = s)
      by (destruct s; cbn in Hpage; subst; reflexivity).
    rewrite Hsame, Hpage.
    change (lift (Filter.filterEvents (VArr []) (filterCriteria s)))
      with (@lift (list value) (Ok [])).
    unfold IO.bind at 1. unfold lift. cbn [render].
    unfold IO.bind at 1. unfold ret at 1. cbv beta iota.
    rewrite (MenuFacts.bind_returned _ _ _ _ _
               (showMenu_reads
                  (with_console (fun l => l ++ warns)
                     (with_sent (S (sent w)) w)) answer rest Hin)).
    rewrite Hchoice. reflexivity.
  - reflexivity.
  - reflexivity.
Qed.

End WithHost.


(** The theorem on a user without activity: the server answers with an
    empty page every time. *)
Lemma iteration_fetches_empty_page_witness :
  let w := Sample.world ["3"; "3"] (Response 200 ∅ ["[]"]) in
  exists w',
    iteration (H := Reference.host) "octocat" initial w
      = Returned initial w' /\
    sent w' = 1%nat.
Proof.
  intros w.
  destruct (iteration_fetches_empty_page (H := Reference.host) "octocat"
              initial w [] "3" ["3"])
    as [w' (Hturn & Hsent & _)]; try reflexivity.
  exists w'. split; [exact Hturn|exact Hsent].
Defined.

End RequestFacts.

(** ** The menu on answers that are padded or unknown *)

Module OptionFacts.
Import Controller.

(** The padded answer of the menu, on a choice typed between spaces. *)
Lemma showMenu_ignores_padding_witness :
  let w := Sample.world [] (ConnectionFailure "") in
  match showMenu (with_stdin ["  3 "] w), showMenu (with_stdin ["3"] w) with
  | Returned padded w1, Returned plain w2 => padded = plain /\ w1 = w2
  | _, _ => False
  end.
Proof.
  intros w.
  apply (PromptFacts.showMenu_ignores_padding "  " "3" " " w); reflexivity.
Defined.


End OptionFacts.
